(** * The decision-and-action control loop of the battery optimiser

    A shallow embedding of [core/reasoning.py], [core/actions.py] and
    [core/agent_controller.py], followed by the properties of the
    specification that concern them.

    Conventions of the embedding.
    - A Python [float] is an exact rational ([Q]); every constant of the
      source is a decimal literal and every test on a float is a comparison.
      For the intensities that the source uses, [intensity * 50] is the same
      integer in binary64 and in [Q].  Where the rounding of binary64 shows in
      the result, in the running average of [provide_user_feedback], the
      arithmetic is that of [Binary64]: the exact result, rounded to the
      nearest binary64 number.  A Python [int] is [Z], a [str] is [string].
    - A method that mutates [self] takes the object and returns the new one.
    - What the platform answers during one backend call (the clock, the
      outcome of the operating-system commands, the process table) is read
      from an [Env] value given to the call.
    - [Except A] is the outcome of a call that can raise. *)

From Stdlib Require Import QArith Qround Qpower ZArith List Bool String Lqa Lia.
From stdpp Require Import gmap strings list pretty.

Open Scope string_scope.
Open Scope Z_scope.

(** ** Python values and control *)

Module Py.

(** Outcome of a call that may raise an [Exception]; [Raise] carries
    [str(e)]. *)
Inductive Except (A : Type) : Type :=
| Return (a : A)
| Raise (msg : string).
Arguments Return {A} a.
Arguments Raise {A} msg.

(** The values stored in the [Optional[Any]] fields of a result. *)
Inductive Val : Type :=
| VInt (z : Z)
| VFloat (q : Q)
| VStr (s : string).

(** [int(x)] on a float: truncation towards zero. *)
Definition int (x : Q) : Z := Z.quot (Qnum x) (Zpos (Qden x)).

(** [x <= y], [x < y] and [x > y] on floats. *)
Definition le (x y : Q) : bool := Qle_bool x y.
Definition lt (x y : Q) : bool := negb (Qle_bool y x).
Definition gt (x y : Q) : bool := lt y x.

(** [l[-n:]] for a positive [n]. *)
Definition last_n {A} (n : nat) (l : list A) : list A :=
  skipn (length l - n) l.

(** [deque(maxlen=n).append(x)]. *)
Definition deque_append {A} (maxlen : nat) (d : list A) (x : A) : list A :=
  last_n maxlen (d ++ [x]).

(** A [dict] with string keys whose order of insertion is observable
    ([list(d.values())]): an association list without repeated keys. *)
Section Dict.
Context {A : Type}.

Fixpoint get (d : list (string * A)) (k : string) : option A :=
  match d with
  | [] => None
  | (k', v) :: d' => if String.eqb k k' then Some v else get d' k
  end.

(** [d[k] = v]: an existing key keeps its position. *)
Fixpoint set (d : list (string * A)) (k : string) (v : A)
  : list (string * A) :=
  match d with
  | [] => [(k, v)]
  | (k', v') :: d' =>
      if String.eqb k k' then (k', v) :: d' else (k', v') :: set d' k v
  end.

Definition values (d : list (string * A)) : list A := map snd d.
Definition keys (d : list (string * A)) : list string := map fst d.
End Dict.

End Py.

(** ** The arithmetic of [float]

    IEEE 754 binary64 with rounding to nearest, ties to even, on the finite
    numbers: a rational stands for the binary64 number nearest to it.  The
    infinities that results beyond the largest finite number become are not
    represented. *)

Module Binary64.

(** [floor (log2 x)] for a positive [x]. *)
Definition ilog2 (x : Q) : Z :=
  let e := Z.log2 (Qnum x) - Z.log2 (Zpos (Qden x)) in
  if Qle_bool (2 ^ e) x then e else e - 1.

(** The nearest integer, a tie going to the even one. *)
Definition round_half_even (q : Q) : Z :=
  let f := Qfloor q in
  match (q - inject_Z f ?= 1 # 2)%Q with
  | Lt => f
  | Gt => f + 1
  | Eq => if Z.even f then f else f + 1
  end.

(** The binary64 number nearest to a positive rational: a mantissa of 53
    bits, the exponent not below -1022 (the subnormal numbers). *)
Definition nearest (m : Q) : Q :=
  let e := Z.max (ilog2 m) (-1022) in
  let ulp := (2 ^ (e - 52))%Q in
  (inject_Z (round_half_even (m / ulp)) * ulp)%Q.

(** The binary64 number that a decimal literal, or the rational that
    stands for a stored [float], denotes. *)
Definition float (x : Q) : Q :=
  match (x ?= 0)%Q with
  | Eq => 0%Q
  | Gt => nearest x
  | Lt => (- nearest (- x))%Q
  end.

(** [x * y] and [x + y] on floats: the exact result of the operation on
    the two binary64 numbers, rounded. *)
Definition mul (x y : Q) : Q := float (float x * float y).
Definition add (x y : Q) : Q := float (float x + float y).

End Binary64.

Import Py.

(** ** [reasoning.py]: the data of the decision engine *)

Record SystemMetrics := {
  timestamp : Q;
  battery_percent : Q;
  battery_power_draw : Q;
  cpu_percent : Q;
  cpu_freq_current : Q;
  memory_percent : Q;
  gpu_percent : Q;
  gpu_memory_percent : Q;
  network_bytes_sent : Z;
  network_bytes_recv : Z;
  disk_io_read : Z;
  disk_io_write : Z;
  screen_brightness : Z;
  active_processes : Z;
  target_app_cpu : Q;
  target_app_memory : Q
}.

Record OptimizationAction := {
  action_type : string;
  intensity : Q;
  target_component : string;
  estimated_savings : Q;
  performance_impact : Q;
  confidence : Q
}.

Record ContextState := {
  battery_level : string;
  performance_demand : string;
  user_activity : string;
  power_source : string;
  time_of_day : string;
  app_priority : string
}.

(** ** [actions.py]: results, the platform, the backends *)

Record ActionResult := {
  action_id : string;
  success : bool;
  error_message : option string;
  previous_value : option Val;
  new_value : option Val;
  result_estimated_savings : Q;
  actual_impact : Q
}.

(** [ActionResult(action_id=.., success=False, error_message=..)], the
    other fields at their defaults. *)
Definition failed (id msg : string) : ActionResult :=
  {| action_id := id; success := false; error_message := Some msg;
     previous_value := None; new_value := None;
     result_estimated_savings := 0%Q; actual_impact := 0%Q |}.

(** One process whose priority [_adjust_process_priority] changed. *)
Record AdjustedProcess := {
  pid : Z;
  old_priority : Z;
  new_priority : Z
}.

(** What the platform answers during one backend call. *)
Record Env := {
  (** the text that [{time.time()}] contributes to a generated id *)
  time_time : string;
  (** [time.time()] as read for the timestamp of an active record *)
  clock : Q;
  (** the platform accepted the brightness: [_set_windows_brightness],
      [_set_linux_brightness] returned [True] *)
  brightness_command_ok : bool;
  (** writing the governor of every CPU went without an exception *)
  governor_command_ok : bool;
  (** [powercfg /setactive] ended with return code 0 *)
  power_plan_command_ok : bool;
  (** the frequency commands were available and ran without an exception *)
  frequency_command_ok : bool;
  (** the interface of the default route, when the query printed one *)
  default_route : option string;
  (** [tc] (adding, removing a limit) ran without an exception *)
  tc_add_ok : bool;
  tc_del_ok : bool;
  (** [(pid, nice)] of the processes whose name contains the given one and
      that accepted a new priority, or the exception of [psutil] *)
  matching_processes : string -> Except (list (Z * Z));
  (** how many of the processes accepted their old priority again *)
  restored_processes : list AdjustedProcess -> Except nat
}.

(** The abstract base class of the actuators. *)
Class BaseOptimizer (S : Type) := {
  enabled : S -> bool;
  apply_optimization : Env -> S -> OptimizationAction -> S * Except ActionResult;
  revert_optimization : Env -> S -> string -> S * Except ActionResult
}.

(** *** DisplayOptimizer *)

Module DisplayOptimizer.

(** An entry of [previous_states]: [{'type': .., 'value': ..}]. *)
Record state := {
  type : string;
  value : Z
}.

Record t := {
  is_enabled : bool;
  previous_states : gmap string state;
  platform : string;
  current_brightness : Z;
  original_brightness : Z
}.

Definition set_current_brightness (self : t) (b : Z) : t :=
  {| is_enabled := is_enabled self;
     previous_states := previous_states self;
     platform := platform self;
     current_brightness := b;
     original_brightness := original_brightness self |}.

Definition set_previous_states (self : t) (m : gmap string state) : t :=
  {| is_enabled := is_enabled self;
     previous_states := m;
     platform := platform self;
     current_brightness := current_brightness self;
     original_brightness := original_brightness self |}.

(** [_set_windows_brightness] and [_set_linux_brightness]: the attribute
    follows only when the platform accepted the value. *)
Definition _set_platform_brightness (env : Env) (self : t) (brightness : Z)
  : t * bool :=
  if brightness_command_ok env
  then (set_current_brightness self brightness, true)
  else (self, false).

Definition _set_brightness (env : Env) (self : t) (brightness : Z)
  : t * bool :=
  let brightness := Z.max 10 (Z.min 100 brightness) in
  if String.eqb (platform self) "windows"
  then _set_platform_brightness env self brightness
  else if String.eqb (platform self) "linux"
  then _set_platform_brightness env self brightness
  else (set_current_brightness self brightness, true).

Definition apply_optimization (env : Env) (self : t)
    (action : OptimizationAction) : t * Except ActionResult :=
  let action_id := "display_" ++ action_type action ++ "_" ++ time_time env in
  if String.eqb (action_type action) "brightness_adjust" then
    let previous_brightness := current_brightness self in
    let reduction := Py.int (intensity action * 50) in
    let new_brightness := Z.max 10 (previous_brightness - reduction) in
    let self :=
      set_previous_states self
        (<[action_id := {| type := "brightness";
                           value := previous_brightness |}]>
           (previous_states self)) in
    let '(self, ok) := _set_brightness env self new_brightness in
    (self,
     Return
       {| action_id := action_id;
          success := ok;
          error_message :=
            if ok then None else Some "Failed to set brightness";
          previous_value := Some (VInt previous_brightness);
          new_value :=
            Some (VInt (if ok then new_brightness else previous_brightness));
          result_estimated_savings := estimated_savings action;
          actual_impact := 0%Q |})
  else
    (self,
     Return (failed action_id
               ("Unknown display action: " ++ action_type action))).

Definition revert_optimization (env : Env) (self : t) (action_id : string)
  : t * Except ActionResult :=
  match previous_states self !! action_id with
  | None => (self, Return (failed action_id "Action not found in history"))
  | Some state =>
      if String.eqb (type state) "brightness" then
        let '(self, ok) := _set_brightness env self (value state) in
        let self :=
          set_previous_states self (delete action_id (previous_states self)) in
        (self,
         Return
           {| action_id := action_id;
              success := ok;
              error_message :=
                if ok then None else Some "Failed to revert brightness";
              previous_value := None;
              new_value :=
                Some (VInt (if ok then value state
                            else current_brightness self));
              result_estimated_savings := 0%Q;
              actual_impact := 0%Q |})
      else (self, Return (failed action_id "Unknown action type"))
  end.

#[global] Instance optimizer : BaseOptimizer t :=
  Build_BaseOptimizer t is_enabled apply_optimization revert_optimization.

End DisplayOptimizer.

(** *** CPUOptimizer *)

Module CPUOptimizer.

(** An entry of [previous_states]:
    [{'type': .., 'governor': .., 'max_freq_percent': ..}]. *)
Record state := {
  type : string;
  governor : string;
  max_freq_percent : Z
}.

Record t := {
  is_enabled : bool;
  previous_states : gmap string state;
  platform : string;
  cpu_count : Z;
  original_governor : string
}.

Definition set_previous_states (self : t) (m : gmap string state) : t :=
  {| is_enabled := is_enabled self;
     previous_states := m;
     platform := platform self;
     cpu_count := cpu_count self;
     original_governor := original_governor self |}.

Definition _set_cpu_governor (env : Env) (self : t) (governor : string)
  : bool :=
  if negb (String.eqb (platform self) "linux") then false
  else governor_command_ok env.

Definition _set_windows_power_plan (env : Env) (self : t) (plan : string)
  : bool :=
  if negb (String.eqb (platform self) "windows") then false
  else power_plan_command_ok env.

Definition _set_cpu_frequency (env : Env) (self : t) (max_freq_percent : Q)
  : bool :=
  if String.eqb (platform self) "linux" then frequency_command_ok env
  else if String.eqb (platform self) "windows" then frequency_command_ok env
  else false.

Definition apply_optimization (env : Env) (self : t)
    (action : OptimizationAction) : t * Except ActionResult :=
  let action_id := "cpu_" ++ action_type action ++ "_" ++ time_time env in
  if String.eqb (action_type action) "cpu_throttle" then
    let max_freq_percent := (100 - intensity action * 50)%Q in
    let self :=
      set_previous_states self
        (<[action_id := {| type := "frequency";
                           governor := original_governor self;
                           max_freq_percent := 100 |}]>
           (previous_states self)) in
    let ok :=
      if String.eqb (platform self) "linux" then
        if _set_cpu_governor env self "powersave"
        then _set_cpu_frequency env self max_freq_percent else false
      else if String.eqb (platform self) "windows" then
        if _set_windows_power_plan env self "power_saver"
        then _set_cpu_frequency env self max_freq_percent else false
      else true in
    (self,
     Return
       {| action_id := action_id;
          success := ok;
          error_message := if ok then None else Some "Failed to throttle CPU";
          previous_value := Some (VInt 100);
          new_value :=
            Some (if ok then VFloat max_freq_percent else VInt 100);
          result_estimated_savings := estimated_savings action;
          actual_impact := 0%Q |})
  else
    (self,
     Return (failed action_id ("Unknown CPU action: " ++ action_type action))).

Definition revert_optimization (env : Env) (self : t) (action_id : string)
  : t * Except ActionResult :=
  match previous_states self !! action_id with
  | None => (self, Return (failed action_id "Action not found in history"))
  | Some state =>
      let ok :=
        if String.eqb (type state) "frequency" then
          if String.eqb (platform self) "linux" then
            if _set_cpu_governor env self (governor state)
            then _set_cpu_frequency env self
                   (inject_Z (max_freq_percent state))
            else false
          else if String.eqb (platform self) "windows" then
            if _set_windows_power_plan env self "balanced"
            then _set_cpu_frequency env self
                   (inject_Z (max_freq_percent state))
            else false
          else true
        else false in
      let self :=
        if ok
        then set_previous_states self
               (delete action_id (previous_states self))
        else self in
      (self,
       Return
         {| action_id := action_id;
            success := ok;
            error_message :=
              if ok then None else Some "Failed to revert CPU settings";
            previous_value := None;
            new_value := None;
            result_estimated_savings := 0%Q;
            actual_impact := 0%Q |})
  end.

#[global] Instance optimizer : BaseOptimizer t :=
  Build_BaseOptimizer t is_enabled apply_optimization revert_optimization.

End CPUOptimizer.

(** *** NetworkOptimizer *)

Module NetworkOptimizer.

(** An entry of [previous_states]:
    [{'type': .., 'interface': .., 'had_limit': ..}]. *)
Record state := {
  type : string;
  interface : string;
  had_limit : bool
}.

Record t := {
  is_enabled : bool;
  previous_states : gmap string state;
  platform : string;
  active_limits : gmap string Q
}.

Definition set_previous_states (self : t) (m : gmap string state) : t :=
  {| is_enabled := is_enabled self;
     previous_states := m;
     platform := platform self;
     active_limits := active_limits self |}.

Definition set_active_limits (self : t) (m : gmap string Q) : t :=
  {| is_enabled := is_enabled self;
     previous_states := previous_states self;
     platform := platform self;
     active_limits := m |}.

Definition _limit_bandwidth (env : Env) (self : t) (interface : string)
    (limit_mbps : Q) : bool :=
  if String.eqb (platform self) "linux" then tc_add_ok env else true.

Definition _remove_bandwidth_limit (env : Env) (self : t)
    (interface : string) : bool :=
  if String.eqb (platform self) "linux" then tc_del_ok env else true.

Definition _get_network_interface (env : Env) (self : t) : string :=
  if String.eqb (platform self) "linux"
  then match default_route env with Some i => i | None => "eth0" end
  else "eth0".

Definition apply_optimization (env : Env) (self : t)
    (action : OptimizationAction) : t * Except ActionResult :=
  let action_id := "network_" ++ action_type action ++ "_" ++ time_time env in
  if String.eqb (action_type action) "network_limit" then
    let interface := _get_network_interface env self in
    let base_limit := 100%Q in
    let limit_mbps := (base_limit * (1 - intensity action))%Q in
    let self :=
      set_previous_states self
        (<[action_id :=
             {| type := "bandwidth_limit";
                interface := interface;
                had_limit :=
                  bool_decide (is_Some (active_limits self !! interface)) |}]>
           (previous_states self)) in
    let ok := _limit_bandwidth env self interface limit_mbps in
    let self :=
      if ok
      then set_active_limits self
             (<[interface := limit_mbps]> (active_limits self))
      else self in
    (self,
     Return
       {| action_id := action_id;
          success := ok;
          error_message :=
            if ok then None else Some "Failed to limit network bandwidth";
          previous_value :=
            Some (match active_limits self !! interface with
                  | None => VStr "unlimited"
                  | Some l => VFloat l
                  end);
          new_value :=
            Some (if ok then VFloat limit_mbps else VStr "unchanged");
          result_estimated_savings := estimated_savings action;
          actual_impact := 0%Q |})
  else
    (self,
     Return (failed action_id
               ("Unknown network action: " ++ action_type action))).

Definition revert_optimization (env : Env) (self : t) (action_id : string)
  : t * Except ActionResult :=
  match previous_states self !! action_id with
  | None => (self, Return (failed action_id "Action not found in history"))
  | Some state =>
      let '(self, ok) :=
        if String.eqb (type state) "bandwidth_limit" then
          let interface := interface state in
          let '(self, ok) :=
            if negb (had_limit state) then
              let ok := _remove_bandwidth_limit env self interface in
              (if ok
               then set_active_limits self
                      (delete interface (active_limits self))
               else self, ok)
            else (self, false) in
          (if ok
           then set_previous_states self
                  (delete action_id (previous_states self))
           else self, ok)
        else (self, false) in
      (self,
       Return
         {| action_id := action_id;
            success := ok;
            error_message :=
              if ok then None else Some "Failed to revert network settings";
            previous_value := None;
            new_value := None;
            result_estimated_savings := 0%Q;
            actual_impact := 0%Q |})
  end.

#[global] Instance optimizer : BaseOptimizer t :=
  Build_BaseOptimizer t is_enabled apply_optimization revert_optimization.

End NetworkOptimizer.

(** *** ApplicationOptimizer *)

Module ApplicationOptimizer.

(** An entry of [previous_states], by its ['type']. *)
Inductive state :=
| app_throttle (app : string) (previous_state : option Val)
| process_priority (processes : list AdjustedProcess).

Record t := {
  is_enabled : bool;
  previous_states : gmap string state;
  optimization_callbacks :
    gmap string (OptimizationAction -> Except ActionResult)
}.

Definition set_previous_states (self : t) (m : gmap string state) : t :=
  {| is_enabled := is_enabled self;
     previous_states := m;
     optimization_callbacks := optimization_callbacks self |}.

Definition register_app_optimizer (self : t) (app_name : string)
    (optimizer_callback : OptimizationAction -> Except ActionResult) : t :=
  {| is_enabled := is_enabled self;
     previous_states := previous_states self;
     optimization_callbacks :=
       <[app_name := optimizer_callback]> (optimization_callbacks self) |}.

Definition _adjust_process_priority (env : Env) (self : t)
    (action_id app_name : string) (intensity : Q)
  : t * Except ActionResult :=
  match matching_processes env app_name with
  | Raise e =>
      (self,
       Return (failed action_id ("Failed to adjust process priority: " ++ e)))
  | Return found =>
      let adjusted_processes :=
        map (fun p : Z * Z =>
               let nice_adjustment := Py.int (intensity * 10) in
               {| pid := fst p;
                  old_priority := snd p;
                  new_priority := Z.min 19 (snd p + nice_adjustment) |})
            found in
      match adjusted_processes with
      | [] =>
          (self,
           Return (failed action_id
                     ("No processes found for application: " ++ app_name)))
      | _ :: _ =>
          let n := length adjusted_processes in
          (set_previous_states self
             (<[action_id := process_priority adjusted_processes]>
                (previous_states self)),
           Return
             {| action_id := action_id;
                success := true;
                error_message := None;
                previous_value := Some (VStr (pretty n ++ " processes"));
                new_value :=
                  Some (VStr ("Priority reduced for " ++ pretty n
                              ++ " processes"));
                result_estimated_savings := (5 * inject_Z (Z.of_nat n))%Q;
                actual_impact := 0%Q |})
      end
  end.

Definition apply_optimization (env : Env) (self : t)
    (action : OptimizationAction) : t * Except ActionResult :=
  let action_id := "app_" ++ action_type action ++ "_" ++ time_time env in
  if String.eqb (action_type action) "app_throttle" then
    let target_app := target_component action in
    match optimization_callbacks self !! target_app with
    | Some callback =>
        match callback action with
        | Return result =>
            (set_previous_states self
               (<[action_id := app_throttle target_app (previous_value result)]>
                  (previous_states self)),
             Return
               {| action_id := action_id;
                  success := success result;
                  error_message := error_message result;
                  previous_value := previous_value result;
                  new_value := new_value result;
                  result_estimated_savings := estimated_savings action;
                  actual_impact := 0%Q |})
        | Raise e =>
            (self,
             Return (failed action_id ("Application optimizer error: " ++ e)))
        end
    | None =>
        _adjust_process_priority env self action_id target_app
          (intensity action)
    end
  else
    (self,
     Return (failed action_id
               ("Unknown application action: " ++ action_type action))).

Definition revert_optimization (env : Env) (self : t) (action_id : string)
  : t * Except ActionResult :=
  match previous_states self !! action_id with
  | None => (self, Return (failed action_id "Action not found in history"))
  | Some (process_priority processes) =>
      match restored_processes env processes with
      | Return reverted_count =>
          (set_previous_states self
             (delete action_id (previous_states self)),
           Return
             {| action_id := action_id;
                success := true;
                error_message := None;
                previous_value := None;
                new_value :=
                  Some (VStr ("Reverted priority for "
                              ++ pretty reverted_count ++ " processes"));
                result_estimated_savings := 0%Q;
                actual_impact := 0%Q |})
      | Raise e =>
          (self,
           Return (failed action_id
                     ("Failed to revert process priorities: " ++ e)))
      end
  | Some (app_throttle _ _) =>
      (self, Return (failed action_id "Unknown action type for reversion"))
  end.

#[global] Instance optimizer : BaseOptimizer t :=
  Build_BaseOptimizer t is_enabled apply_optimization revert_optimization.

End ApplicationOptimizer.

(** *** OptimizationActuator *)

(** An actuator object held in [self.optimizers]: some implementation of
    the base class together with its current state. *)
Record Optimizer := {
  optimizer_state : Type;
  optimizer_class : BaseOptimizer optimizer_state;
  optimizer_self : optimizer_state
}.

Definition object {S : Type} `{C : BaseOptimizer S} (self : S) : Optimizer :=
  {| optimizer_state := S; optimizer_class := C; optimizer_self := self |}.

Module OptimizationActuator.

(** A value of [active_actions]:
    [{'action': .., 'result': .., 'timestamp': ..}]. *)
Record active := {
  action : OptimizationAction;
  result : ActionResult;
  applied_at : Q
}.

Record t := {
  optimizers : gmap string Optimizer;
  active_actions : gmap string active;
  action_history : list ActionResult
}.

(** The state right after [__init__], given the four actuators. *)
Definition init (display : DisplayOptimizer.t) (cpu : CPUOptimizer.t)
    (network : NetworkOptimizer.t) (application : ApplicationOptimizer.t)
  : t :=
  {| optimizers :=
       <["display" := object display]>
         (<["cpu" := object cpu]>
            (<["network" := object network]>
               (<["application" := object application]> ∅)));
     active_actions := ∅;
     action_history := [] |}.

Definition optimizer_map : list (string * string) :=
  [ ("brightness_adjust", "display");
    ("cpu_throttle", "cpu");
    ("network_limit", "network");
    ("app_throttle", "application");
    ("background_limit", "application") ].

Definition set_optimizer (self : t) (name : string) (o : Optimizer) : t :=
  {| optimizers := <[name := o]> (optimizers self);
     active_actions := active_actions self;
     action_history := action_history self |}.

Definition set_active_actions (self : t) (m : gmap string active) : t :=
  {| optimizers := optimizers self;
     active_actions := m;
     action_history := action_history self |}.

Definition set_action_history (self : t) (h : list ActionResult) : t :=
  {| optimizers := optimizers self;
     active_actions := active_actions self;
     action_history := h |}.

(** [optimizer.apply_optimization(action)] on an object of the map; the
    object, mutated in place, stays under its name. *)
Definition call_apply (env : Env) (self : t) (name : string) (o : Optimizer)
    (action : OptimizationAction) : t * Except ActionResult :=
  let '(s, r) :=
    @apply_optimization _ (optimizer_class o) env (optimizer_self o) action in
  (set_optimizer self name
     {| optimizer_state := optimizer_state o;
        optimizer_class := optimizer_class o;
        optimizer_self := s |},
   r).

Definition call_revert (env : Env) (self : t) (name : string) (o : Optimizer)
    (action_id : string) : t * Except ActionResult :=
  let '(s, r) :=
    @revert_optimization _ (optimizer_class o) env (optimizer_self o)
      action_id in
  (set_optimizer self name
     {| optimizer_state := optimizer_state o;
        optimizer_class := optimizer_class o;
        optimizer_self := s |},
   r).

Definition _apply_single_action (env : Env) (self : t)
    (action : OptimizationAction) : t * Except ActionResult :=
  match Py.get optimizer_map (action_type action) with
  | None =>
      (self,
       Return (failed ("unknown_" ++ time_time env)
                 ("Unknown action type: " ++ action_type action)))
  | Some optimizer_name =>
      match optimizers self !! optimizer_name with
      | None =>
          (self,
           Return (failed ("missing_" ++ time_time env)
                     ("Optimizer not available: " ++ optimizer_name)))
      | Some optimizer =>
          if negb (@enabled _ (optimizer_class optimizer)
                     (optimizer_self optimizer))
          then
            (self,
             Return (failed ("disabled_" ++ time_time env)
                       ("Optimizer disabled: " ++ optimizer_name)))
          else call_apply env self optimizer_name optimizer action
      end
  end.

(** One turn of the loop of [apply_actions]: the [try] block around one
    action, and its [except] clause. *)
Definition apply_step (env : Env) (self : t) (results : list ActionResult)
    (action : OptimizationAction) : t * list ActionResult :=
  match _apply_single_action env self action with
  | (self, Return result) =>
      let results := (results ++ [result])%list in
      if success result
      then
        (set_active_actions self
           (<[action_id result :=
                {| action := action; result := result;
                   applied_at := clock env |}]>
              (active_actions self)),
         results)
      else (self, results)
  | (self, Raise e) =>
      (self, (results ++ [failed ("error_" ++ time_time env) e])%list)
  end.

(** The loop, the [i]-th action of the batch meeting [envs i]. *)
Fixpoint apply_loop (envs : nat -> Env) (i : nat) (self : t)
    (results : list ActionResult) (actions : list OptimizationAction)
  : t * list ActionResult :=
  match actions with
  | [] => (self, results)
  | action :: rest =>
      let '(self, results) := apply_step (envs i) self results action in
      apply_loop envs (S i) self results rest
  end.

Definition apply_actions (envs : nat -> Env) (self : t)
    (actions : list OptimizationAction) : t * list ActionResult :=
  let '(self, results) := apply_loop envs 0%nat self [] actions in
  let self := set_action_history self (action_history self ++ results)%list in
  let self :=
    if (1000 <? length (action_history self))%nat
    then set_action_history self (Py.last_n 500 (action_history self))
    else self in
  (self, results).

Definition revert_action (env : Env) (self : t) (action_id : string)
  : t * Except ActionResult :=
  match active_actions self !! action_id with
  | None =>
      (self, Return (failed action_id "Action not found in active actions"))
  | Some action_info =>
      let action := action action_info in
      let optimizer_name := Py.get optimizer_map (action_type action) in
      match optimizer_name ≫= (fun name => optimizers self !! name) with
      | None =>
          (self,
           Return (failed action_id
                     ("Optimizer not found: "
                      ++ match optimizer_name with
                         | Some name => name
                         | None => "None"
                         end)))
      | Some optimizer =>
          let name := default "" optimizer_name in
          match call_revert env self name optimizer action_id with
          | (self, Return result) =>
              if success result
              then
                (set_active_actions self
                   (delete action_id (active_actions self)),
                 Return result)
              else (self, Return result)
          | (self, Raise e) => (self, Raise e)
          end
      end
  end.


(** The loop of [revert_all_actions] over [action_ids], the [i]-th revert
    meeting [envs i].  No [try] surrounds the revert: an exception of a
    backend ends the loop and goes to the caller. *)
Fixpoint revert_loop (envs : nat -> Env) (i : nat) (self : t)
    (results : list ActionResult) (action_ids : list string)
  : t * Except (list ActionResult) :=
  match action_ids with
  | [] => (self, Return results)
  | action_id :: rest =>
      match revert_action (envs i) self action_id with
      | (self, Return result) =>
          revert_loop envs (S i) self (results ++ [result])%list rest
      | (self, Raise e) => (self, Raise e)
      end
  end.

(** [revert_all_actions], given [action_ids = list(self.active_actions.keys())]:
    the keys of the active map in their order of insertion, an order that
    the map of the embedding does not keep. *)
Definition revert_all_actions (envs : nat -> Env) (self : t)
    (action_ids : list string) : t * Except (list ActionResult) :=
  revert_loop envs 0%nat self [] action_ids.

End OptimizationActuator.

(** ** [reasoning.py]: the decision engine *)

Module BatteryRulesEngine.

Definition _critical_battery_rules (metrics : SystemMetrics)
    (context : ContextState) : list OptimizationAction :=
  (if 20 <? screen_brightness metrics
   then [ {| action_type := "brightness_adjust";
             intensity := 0.8;
             target_component := "display";
             estimated_savings := 20.0;
             performance_impact := 0.3;
             confidence := 0.9 |} ]
   else [])
  ++
  (if Py.gt (cpu_percent metrics) 30
   then [ {| action_type := "cpu_throttle";
             intensity := 0.7;
             target_component := "system";
             estimated_savings := 25.0;
             performance_impact := 0.6;
             confidence := 0.85 |} ]
   else []).

Definition _low_battery_rules (metrics : SystemMetrics)
    (context : ContextState) : list OptimizationAction :=
  (if 50 <? screen_brightness metrics
   then [ {| action_type := "brightness_adjust";
             intensity := 0.4;
             target_component := "display";
             estimated_savings := 10.0;
             performance_impact := 0.15;
             confidence := 0.8 |} ]
   else [])
  ++
  (if Py.gt (cpu_percent metrics) 60
   then [ {| action_type := "cpu_throttle";
             intensity := 0.3;
             target_component := "system";
             estimated_savings := 12.0;
             performance_impact := 0.25;
             confidence := 0.75 |} ]
   else []).

Definition _performance_rules (metrics : SystemMetrics)
    (context : ContextState) : list OptimizationAction :=
  if Py.lt (target_app_cpu metrics) 50
  then [ {| action_type := "background_limit";
            intensity := 0.5;
            target_component := "system";
            estimated_savings := 8.0;
            performance_impact := 0.1;
            confidence := 0.7 |} ]
  else [].

Definition _away_mode_rules (metrics : SystemMetrics)
    (context : ContextState) : list OptimizationAction :=
  [ {| action_type := "brightness_adjust";
       intensity := 0.9;
       target_component := "display";
       estimated_savings := 30.0;
       performance_impact := 0.1;
       confidence := 0.95 |} ]
  ++
  (if 1024 * 1024 <? network_bytes_sent metrics + network_bytes_recv metrics
   then [ {| action_type := "network_limit";
             intensity := 0.6;
             target_component := "network";
             estimated_savings := 15.0;
             performance_impact := 0.2;
             confidence := 0.8 |} ]
   else []).

Definition get_rule_based_actions (metrics : SystemMetrics)
    (context : ContextState) : list OptimizationAction :=
  (if String.eqb (battery_level context) "critical"
   then _critical_battery_rules metrics context
   else if String.eqb (battery_level context) "low"
   then _low_battery_rules metrics context
   else [])
  ++
  (if String.eqb (performance_demand context) "heavy"
      && (String.eqb (battery_level context) "low"
          || String.eqb (battery_level context) "critical")
   then _performance_rules metrics context
   else [])
  ++
  (if String.eqb (user_activity context) "away"
   then _away_mode_rules metrics context
   else []).

End BatteryRulesEngine.

Module BatteryOptimizationAgent.

(** An entry of the experience buffer. *)
Record decision_record := {
  recorded_at : Q;
  metrics : SystemMetrics;
  context : ContextState;
  actions : list OptimizationAction
}.

(** [decision_model] stands for the fitted scaler and classifier: from
    the feature vector to the predicted class and the largest class
    probability, or the exception of the library. *)
Record t := {
  model_trained : bool;
  decision_model : list Q -> Except (Z * Q);
  experience_buffer : list decision_record;
  action_history : list (list OptimizationAction)
}.

Definition _extract_features (current_hour : Z) (metrics : SystemMetrics)
    (context : ContextState) : list Q :=
  [ battery_percent metrics;
    cpu_percent metrics;
    memory_percent metrics;
    gpu_percent metrics;
    (inject_Z (network_bytes_sent metrics + network_bytes_recv metrics)
     / 1024 / 1024)%Q;
    inject_Z (screen_brightness metrics);
    inject_Z current_hour;
    if Py.lt (battery_power_draw metrics) 5.0 then 1.0%Q else 0.0%Q ].

Definition analyze_context (current_hour : Z) (metrics : SystemMetrics)
  : ContextState :=
  let battery_level :=
    if Py.le (battery_percent metrics) 15 then "critical"
    else if Py.le (battery_percent metrics) 30 then "low"
    else if Py.le (battery_percent metrics) 60 then "medium"
    else "high" in
  let total_usage := (cpu_percent metrics + gpu_percent metrics)%Q in
  let performance_demand :=
    if Py.gt total_usage 80 then "heavy"
    else if Py.gt total_usage 50 then "moderate"
    else if Py.gt total_usage 20 then "light"
    else "idle" in
  let user_activity :=
    if (23 <=? current_hour) || (current_hour <=? 6) then "sleeping"
    else if Py.lt (cpu_percent metrics) 10
            && Py.lt (target_app_cpu metrics) 5 then "away"
    else "active" in
  let power_source :=
    if Py.lt (battery_power_draw metrics) 5.0 then "plugged"
    else "battery" in
  let time_of_day :=
    if (6 <=? current_hour) && (current_hour <? 12) then "morning"
    else if (12 <=? current_hour) && (current_hour <? 18) then "afternoon"
    else if (18 <=? current_hour) && (current_hour <? 22) then "evening"
    else "night" in
  let app_priority :=
    if Py.gt (target_app_cpu metrics) 20 then "critical"
    else if Py.gt (target_app_cpu metrics) 5 then "foreground"
    else "background" in
  {| battery_level := battery_level;
     performance_demand := performance_demand;
     user_activity := user_activity;
     power_source := power_source;
     time_of_day := time_of_day;
     app_priority := app_priority |}.

Definition _prediction_to_actions (prediction : Z) (confidence : Q)
    (metrics : SystemMetrics) (context : ContextState)
  : list OptimizationAction :=
  if prediction =? 0 then []
  else if prediction =? 1 then
    if 60 <? screen_brightness metrics
    then [ {| action_type := "brightness_adjust";
              intensity := 0.3;
              target_component := "display";
              estimated_savings := 5.0;
              performance_impact := 0.1;
              confidence := confidence |} ]
    else []
  else if prediction =? 2 then
    (if Py.gt (cpu_percent metrics) 50
     then [ {| action_type := "cpu_throttle";
               intensity := 0.5;
               target_component := "system";
               estimated_savings := 10.0;
               performance_impact := 0.3;
               confidence := confidence |} ]
     else [])
    ++
    (if 40 <? screen_brightness metrics
     then [ {| action_type := "brightness_adjust";
               intensity := 0.5;
               target_component := "display";
               estimated_savings := 8.0;
               performance_impact := 0.2;
               confidence := confidence |} ]
     else [])
  else if prediction =? 3 then
    [ {| action_type := "cpu_throttle";
         intensity := 0.8;
         target_component := "system";
         estimated_savings := 20.0;
         performance_impact := 0.6;
         confidence := confidence |};
      {| action_type := "brightness_adjust";
         intensity := 0.7;
         target_component := "display";
         estimated_savings := 15.0;
         performance_impact := 0.4;
         confidence := confidence |} ]
    ++
    (if negb (String.eqb (app_priority context) "critical")
     then [ {| action_type := "app_throttle";
               intensity := 0.6;
               target_component := "target_app";
               estimated_savings := 12.0;
               performance_impact := 0.5;
               confidence := confidence |} ]
     else [])
  else [].

Definition _ml_decision (current_hour : Z) (self : t)
    (metrics : SystemMetrics) (context : ContextState)
  : list OptimizationAction :=
  let features := _extract_features current_hour metrics context in
  match decision_model self features with
  | Return (prediction, confidence) =>
      _prediction_to_actions prediction confidence metrics context
  | Raise e => []
  end.

(** The key under which [_combine_actions] files an action. *)
Definition key (action : OptimizationAction) : string :=
  action_type action ++ "_" ++ target_component action.

Definition add_ml (combined : list (string * OptimizationAction))
    (action : OptimizationAction) : list (string * OptimizationAction) :=
  Py.set combined (key action) action.

Definition add_rule (combined : list (string * OptimizationAction))
    (action : OptimizationAction) : list (string * OptimizationAction) :=
  match Py.get combined (key action) with
  | None => Py.set combined (key action) action
  | Some existing =>
      if Py.lt (intensity action) (intensity existing)
      then Py.set combined (key action) action
      else combined
  end.

Definition _combine_actions (ml_actions rule_actions : list OptimizationAction)
  : list OptimizationAction :=
  let combined := fold_left add_ml ml_actions [] in
  let combined := fold_left add_rule rule_actions combined in
  Py.values combined.

Definition _record_decision (now : Q) (self : t) (metrics : SystemMetrics)
    (context : ContextState) (actions : list OptimizationAction) : t :=
  {| model_trained := model_trained self;
     decision_model := decision_model self;
     experience_buffer :=
       Py.deque_append 1000 (experience_buffer self)
         {| recorded_at := now; metrics := metrics; context := context;
            actions := actions |};
     action_history := Py.deque_append 100 (action_history self) actions |}.

Definition decide_optimization (now : Q) (current_hour : Z) (self : t)
    (metrics : SystemMetrics) : t * list OptimizationAction :=
  let context := analyze_context current_hour metrics in
  let actions :=
    if model_trained self
    then _ml_decision current_hour self metrics context
    else [] in
  let rule_actions :=
    BatteryRulesEngine.get_rule_based_actions metrics context in
  let combined_actions := _combine_actions actions rule_actions in
  (_record_decision now self metrics context combined_actions,
   combined_actions).

End BatteryOptimizationAgent.

(** ** [agent_controller.py]: the controller *)

Module AgentController.

(** [AgentState]. *)
Record state := {
  active : bool;
  battery_level : string;
  optimization_mode : string;
  actions_applied : Z;
  total_savings : Q;
  user_satisfaction : Q;
  last_decision_time : Q
}.

(** A value of [config['optimization_modes']]. *)
Record mode_config := {
  max_intensity : Q;
  min_confidence : Q
}.

(** The keys of the configuration that the decision path reads; a key
    read with [.get] may be absent. *)
Record config := {
  optimization_modes : gmap string mode_config;
  max_performance_impact : option Q
}.

Record t := {
  configuration : config;
  agent : BatteryOptimizationAgent.t;
  actuator : OptimizationActuator.t;
  agent_state : state;
  decision_queue : list SystemMetrics;
  emergency_mode : bool;
  min_battery_threshold : Q
}.

Definition default_config : config :=
  {| optimization_modes :=
       <["aggressive" := {| max_intensity := 0.9; min_confidence := 0.6 |}]>
         (<["balanced" := {| max_intensity := 0.6; min_confidence := 0.7 |}]>
            (<["conservative" :=
                 {| max_intensity := 0.3; min_confidence := 0.8 |}]> ∅));
     max_performance_impact := Some 0.7%Q |}.

Definition set_battery_level (self : t) (level : string) : t :=
  {| configuration := configuration self;
     agent := agent self;
     actuator := actuator self;
     agent_state :=
       {| active := active (agent_state self);
          battery_level := level;
          optimization_mode := optimization_mode (agent_state self);
          actions_applied := actions_applied (agent_state self);
          total_savings := total_savings (agent_state self);
          user_satisfaction := user_satisfaction (agent_state self);
          last_decision_time := last_decision_time (agent_state self) |};
     decision_queue := decision_queue self;
     emergency_mode := emergency_mode self;
     min_battery_threshold := min_battery_threshold self |}.

Definition set_optimization_mode (self : t) (mode : string) : t :=
  match optimization_modes (configuration self) !! mode with
  | Some _ =>
      {| configuration := configuration self;
         agent := agent self;
         actuator := actuator self;
         agent_state :=
           {| active := active (agent_state self);
              battery_level := battery_level (agent_state self);
              optimization_mode := mode;
              actions_applied := actions_applied (agent_state self);
              total_savings := total_savings (agent_state self);
              user_satisfaction := user_satisfaction (agent_state self);
              last_decision_time := last_decision_time (agent_state self) |};
         decision_queue := decision_queue self;
         emergency_mode := emergency_mode self;
         min_battery_threshold := min_battery_threshold self |}
  | None => self
  end.

Definition set_emergency_mode (self : t) (b : bool) : t :=
  {| configuration := configuration self;
     agent := agent self;
     actuator := actuator self;
     agent_state := agent_state self;
     decision_queue := decision_queue self;
     emergency_mode := b;
     min_battery_threshold := min_battery_threshold self |}.

Definition set_actuator (self : t) (a : OptimizationActuator.t) : t :=
  {| configuration := configuration self;
     agent := agent self;
     actuator := a;
     agent_state := agent_state self;
     decision_queue := decision_queue self;
     emergency_mode := emergency_mode self;
     min_battery_threshold := min_battery_threshold self |}.

Definition put (self : t) (metrics : SystemMetrics) : t :=
  {| configuration := configuration self;
     agent := agent self;
     actuator := actuator self;
     agent_state := agent_state self;
     decision_queue := decision_queue self ++ [metrics];
     emergency_mode := emergency_mode self;
     min_battery_threshold := min_battery_threshold self |}.

(** The loop of [_filter_actions_by_mode], each test a [continue]. *)
Fixpoint filter_loop (max_intensity min_confidence max_performance_impact : Q)
    (filtered actions : list OptimizationAction) : list OptimizationAction :=
  match actions with
  | [] => filtered
  | action :: rest =>
      if Py.gt (intensity action) max_intensity
      then filter_loop max_intensity min_confidence max_performance_impact
             filtered rest
      else if Py.lt (confidence action) min_confidence
      then filter_loop max_intensity min_confidence max_performance_impact
             filtered rest
      else if Py.gt (performance_impact action) max_performance_impact
      then filter_loop max_intensity min_confidence max_performance_impact
             filtered rest
      else filter_loop max_intensity min_confidence max_performance_impact
             (filtered ++ [action]) rest
  end.

(** A mode that the configuration does not list is a [KeyError]. *)
Definition _filter_actions_by_mode (self : t)
    (actions : list OptimizationAction) : Except (list OptimizationAction) :=
  match optimization_modes (configuration self)
          !! optimization_mode (agent_state self) with
  | None => Raise ("'" ++ optimization_mode (agent_state self) ++ "'")
  | Some mode_config =>
      let max_intensity := max_intensity mode_config in
      let min_confidence := min_confidence mode_config in
      let max_performance_impact :=
        default 0.7%Q (max_performance_impact (configuration self)) in
      Return (filter_loop max_intensity min_confidence
                max_performance_impact [] actions)
  end.

Definition emergency_actions : list OptimizationAction :=
  [ {| action_type := "brightness_adjust";
       intensity := 0.9;
       target_component := "display";
       estimated_savings := 25.0;
       performance_impact := 0.3;
       confidence := 0.95 |};
    {| action_type := "cpu_throttle";
       intensity := 0.8;
       target_component := "system";
       estimated_savings := 30.0;
       performance_impact := 0.7;
       confidence := 0.9 |} ].

Definition _apply_emergency_optimizations (envs : nat -> Env) (self : t)
  : t :=
  let '(actuator, results) :=
    OptimizationActuator.apply_actions envs (actuator self)
      emergency_actions in
  set_actuator self actuator.

(** The subscribers of ['metrics_update'] are notified last; they are
    outside the controller and leave its state alone. *)
Definition _on_metrics_update (envs : nat -> Env) (self : t)
    (metrics : SystemMetrics) : t :=
  let self :=
    if Py.le (battery_percent metrics) 15
    then set_battery_level self "critical"
    else if Py.le (battery_percent metrics) 30
    then set_battery_level self "low"
    else if Py.le (battery_percent metrics) 60
    then set_battery_level self "medium"
    else set_battery_level self "high" in
  let self :=
    if Py.le (battery_percent metrics) (min_battery_threshold self) then
      if negb (emergency_mode self)
      then _apply_emergency_optimizations envs (set_emergency_mode self true)
      else self
    else
      if emergency_mode self
      then set_emergency_mode self false
      else self in
  put self metrics.

End AgentController.

(** ** [reasoning.py]: labels, feedback and retraining *)

Module Training.

Definition _synthetic_decision_logic (battery cpu memory : Q) (plugged : Z)
  : Z :=
  if plugged =? 1 then 0
  else if Py.lt battery 15 then 3
  else if Py.lt battery 30 then
    if Py.gt cpu 70 || Py.gt memory 80 then 2 else 1
  else if Py.lt battery 60 then
    if Py.gt cpu 90 then 1 else 0
  else 0.

Definition battery_map : list (string * Z) :=
  [("critical", 0); ("low", 1); ("medium", 2); ("high", 3)].

Definition demand_map : list (string * Z) :=
  [("idle", 0); ("light", 1); ("moderate", 2); ("heavy", 3)].

Definition activity_map : list (string * Z) :=
  [("sleeping", 0); ("away", 1); ("active", 2)].

Definition _context_to_numeric (context : ContextState) : Q :=
  (inject_Z (default 2%Z (Py.get battery_map (battery_level context))) * 0.4
   + inject_Z (default 1%Z (Py.get demand_map (performance_demand context))) * 0.3
   + inject_Z (default 1%Z (Py.get activity_map (user_activity context))) * 0.3)%Q.

Definition _evaluate_action_success (actions : list OptimizationAction)
  : bool :=
  (0 <? length actions)%nat.

Definition _outcome_to_label (success : bool) (battery_percent : Q) : Z :=
  if Py.gt battery_percent 60 then (if success then 0 else 1)
  else if Py.gt battery_percent 30 then (if success then 1 else 2)
  else if Py.gt battery_percent 15 then (if success then 2 else 3)
  else 3.

(** The loop of [_prepare_training_data_from_experience]; the features are
    extracted at the hour of the retraining. *)
Fixpoint prepare_loop (current_hour : Z)
    (records : list BatteryOptimizationAgent.decision_record)
    (features : list (list Q)) (labels : list Z)
  : list (list Q) * list Z :=
  match records with
  | [] => (features, labels)
  | record :: rest =>
      let metrics := BatteryOptimizationAgent.metrics record in
      let context := BatteryOptimizationAgent.context record in
      let feature_vector :=
        BatteryOptimizationAgent._extract_features current_hour metrics
          context in
      let actions := BatteryOptimizationAgent.actions record in
      match actions with
      | [] => prepare_loop current_hour rest features labels
      | _ :: _ =>
          let action_success := _evaluate_action_success actions in
          let label :=
            _outcome_to_label action_success (battery_percent metrics) in
          prepare_loop current_hour rest (features ++ [feature_vector])%list
            (labels ++ [label])%list
      end
  end.

Definition _prepare_training_data_from_experience (current_hour : Z)
    (self : BatteryOptimizationAgent.t) : list (list Q) * list Z :=
  prepare_loop current_hour (BatteryOptimizationAgent.experience_buffer self)
    [] [].

(** A value of [action_outcomes]. *)
Record outcome := {
  outcome_action_id : string;
  outcome_success : bool;
  outcome_battery_savings : Q;
  outcome_performance_impact : Q;
  outcome_user_satisfaction : Q;
  outcome_timestamp : Q
}.

(** The agent together with its table of outcomes. *)
Record t := {
  agent : BatteryOptimizationAgent.t;
  action_outcomes : gmap string outcome
}.

(** [refit X y model] stands for [scaler.fit_transform(X)] followed by
    [decision_model.fit(X_scaled, y)]: the scaler and classifier that these
    calls leave behind, whether or not one of them raised. *)
Definition refitting : Type :=
  list (list Q) -> list Z ->
  (list Q -> Except (Z * Q)) -> (list Q -> Except (Z * Q)).

Definition set_decision_model (self : t) (model : list Q -> Except (Z * Q))
  : t :=
  {| agent :=
       {| BatteryOptimizationAgent.model_trained :=
            BatteryOptimizationAgent.model_trained (agent self);
          BatteryOptimizationAgent.decision_model := model;
          BatteryOptimizationAgent.experience_buffer :=
            BatteryOptimizationAgent.experience_buffer (agent self);
          BatteryOptimizationAgent.action_history :=
            BatteryOptimizationAgent.action_history (agent self) |};
     action_outcomes := action_outcomes self |}.

Definition _update_model (refit : refitting) (current_hour : Z) (self : t)
  : t :=
  if (length (BatteryOptimizationAgent.experience_buffer (agent self)) <? 50)%nat
  then self
  else
    let '(X, y) :=
      _prepare_training_data_from_experience current_hour (agent self) in
    if (20 <? length X)%nat
    then set_decision_model self
           (refit X y (BatteryOptimizationAgent.decision_model (agent self)))
    else self.

Definition provide_feedback (refit : refitting) (current_hour : Z) (now : Q)
    (self : t) (action_id : string) (success : bool)
    (battery_savings performance_impact user_satisfaction : Q) : t :=
  let outcome :=
    {| outcome_action_id := action_id;
       outcome_success := success;
       outcome_battery_savings := battery_savings;
       outcome_performance_impact := performance_impact;
       outcome_user_satisfaction := user_satisfaction;
       outcome_timestamp := now |} in
  let self :=
    {| agent := agent self;
       action_outcomes := <[action_id := outcome]> (action_outcomes self) |} in
  if (10 <? size (action_outcomes self))%nat
  then _update_model refit current_hour self
  else self.

End Training.

(** ** [agent_controller.py]: the decision path, feedback and shutdown *)

Module Controller.

(** An entry of [performance_history]. *)
Record performance_record := {
  record_timestamp : Q;
  record_battery_percent : Q;
  record_actions_requested : nat;
  record_actions_applied : nat;
  record_estimated_savings : Q;
  record_optimization_mode : string;
  record_emergency_mode : bool
}.

(** An entry of [user_feedback_history]. *)
Record feedback_record := {
  feedback_timestamp : Q;
  feedback_satisfaction_score : Q;
  feedback_performance_acceptable : bool;
  feedback_battery_improvement : bool;
  feedback_comments : string;
  feedback_current_mode : string;
  feedback_actions_applied : Z
}.

(** The controller with the attributes that these methods use beside
    those of [AgentController.t]; [action_outcomes] is the table of the
    agent. *)
Record t := {
  core : AgentController.t;
  running : bool;
  action_outcomes : gmap string Training.outcome;
  performance_history : list performance_record;
  user_feedback_history : list feedback_record
}.

Definition set_core (self : t) (c : AgentController.t) : t :=
  {| core := c;
     running := running self;
     action_outcomes := action_outcomes self;
     performance_history := performance_history self;
     user_feedback_history := user_feedback_history self |}.

Definition set_agent (c : AgentController.t) (a : BatteryOptimizationAgent.t)
  : AgentController.t :=
  {| AgentController.configuration := AgentController.configuration c;
     AgentController.agent := a;
     AgentController.actuator := AgentController.actuator c;
     AgentController.agent_state := AgentController.agent_state c;
     AgentController.decision_queue := AgentController.decision_queue c;
     AgentController.emergency_mode := AgentController.emergency_mode c;
     AgentController.min_battery_threshold :=
       AgentController.min_battery_threshold c |}.

Definition set_agent_state (c : AgentController.t) (st : AgentController.state)
  : AgentController.t :=
  {| AgentController.configuration := AgentController.configuration c;
     AgentController.agent := AgentController.agent c;
     AgentController.actuator := AgentController.actuator c;
     AgentController.agent_state := st;
     AgentController.decision_queue := AgentController.decision_queue c;
     AgentController.emergency_mode := AgentController.emergency_mode c;
     AgentController.min_battery_threshold :=
       AgentController.min_battery_threshold c |}.

Definition set_decision_queue (c : AgentController.t)
    (q : list SystemMetrics) : AgentController.t :=
  {| AgentController.configuration := AgentController.configuration c;
     AgentController.agent := AgentController.agent c;
     AgentController.actuator := AgentController.actuator c;
     AgentController.agent_state := AgentController.agent_state c;
     AgentController.decision_queue := q;
     AgentController.emergency_mode := AgentController.emergency_mode c;
     AgentController.min_battery_threshold :=
       AgentController.min_battery_threshold c |}.

(** [state.actions_applied += n; state.total_savings += savings]. *)
Definition count_applied (st : AgentController.state) (n : nat) (savings : Q)
  : AgentController.state :=
  {| AgentController.active := AgentController.active st;
     AgentController.battery_level := AgentController.battery_level st;
     AgentController.optimization_mode := AgentController.optimization_mode st;
     AgentController.actions_applied :=
       AgentController.actions_applied st + Z.of_nat n;
     AgentController.total_savings :=
       (AgentController.total_savings st + savings)%Q;
     AgentController.user_satisfaction := AgentController.user_satisfaction st;
     AgentController.last_decision_time :=
       AgentController.last_decision_time st |}.

Definition set_last_decision_time (st : AgentController.state) (time : Q)
  : AgentController.state :=
  {| AgentController.active := AgentController.active st;
     AgentController.battery_level := AgentController.battery_level st;
     AgentController.optimization_mode := AgentController.optimization_mode st;
     AgentController.actions_applied := AgentController.actions_applied st;
     AgentController.total_savings := AgentController.total_savings st;
     AgentController.user_satisfaction := AgentController.user_satisfaction st;
     AgentController.last_decision_time := time |}.

Definition set_user_satisfaction (st : AgentController.state) (score : Q)
  : AgentController.state :=
  {| AgentController.active := AgentController.active st;
     AgentController.battery_level := AgentController.battery_level st;
     AgentController.optimization_mode := AgentController.optimization_mode st;
     AgentController.actions_applied := AgentController.actions_applied st;
     AgentController.total_savings := AgentController.total_savings st;
     AgentController.user_satisfaction := score;
     AgentController.last_decision_time :=
       AgentController.last_decision_time st |}.

Definition set_active (st : AgentController.state) (b : bool)
  : AgentController.state :=
  {| AgentController.active := b;
     AgentController.battery_level := AgentController.battery_level st;
     AgentController.optimization_mode := AgentController.optimization_mode st;
     AgentController.actions_applied := AgentController.actions_applied st;
     AgentController.total_savings := AgentController.total_savings st;
     AgentController.user_satisfaction := AgentController.user_satisfaction st;
     AgentController.last_decision_time :=
       AgentController.last_decision_time st |}.

(** [sum(r.estimated_savings for r in results)]. *)
Definition sum_savings (results : list ActionResult) : Q :=
  fold_left (fun acc r => (acc + result_estimated_savings r)%Q) results 0%Q.

Definition _record_decision_performance (now : Q) (self : t)
    (metrics : SystemMetrics) (actions : list OptimizationAction)
    (results : list ActionResult) : t :=
  let performance_record :=
    {| record_timestamp := now;
       record_battery_percent := battery_percent metrics;
       record_actions_requested := length actions;
       record_actions_applied := length (List.filter success results);
       record_estimated_savings := sum_savings (List.filter success results);
       record_optimization_mode :=
         AgentController.optimization_mode
           (AgentController.agent_state (core self));
       record_emergency_mode := AgentController.emergency_mode (core self) |} in
  let history := (performance_history self ++ [performance_record])%list in
  {| core := core self;
     running := running self;
     action_outcomes := action_outcomes self;
     performance_history :=
       if (1000 <? length history)%nat then Py.last_n 500 history
       else history;
     user_feedback_history := user_feedback_history self |}.

(** What one decision reads from outside: the clock at the recording of
    the decision and of its performance, the hour, and the platform. *)
Record readings := {
  decision_time : Q;
  performance_time : Q;
  current_hour : Z;
  answers : nat -> Env
}.

(** The subscribers of ['decision_made'] and ['action_applied'] are
    notified last; they are outside the controller.  The [except] clause
    logs and returns. *)
Definition _make_optimization_decision (world : readings) (self : t)
    (metrics : SystemMetrics) : t :=
  let '(agent, actions) :=
    BatteryOptimizationAgent.decide_optimization (decision_time world)
      (current_hour world) (AgentController.agent (core self)) metrics in
  let self := set_core self (set_agent (core self) agent) in
  match actions with
  | [] => self
  | _ :: _ =>
      match AgentController._filter_actions_by_mode (core self) actions with
      | Raise e => self
      | Return [] => self
      | Return ((_ :: _) as filtered_actions) =>
          let '(actuator, results) :=
            OptimizationActuator.apply_actions (answers world)
              (AgentController.actuator (core self)) filtered_actions in
          let self :=
            set_core self (AgentController.set_actuator (core self) actuator) in
          let successful_actions := List.filter success results in
          let estimated_savings := sum_savings successful_actions in
          let self :=
            set_core self
              (set_agent_state (core self)
                 (count_applied (AgentController.agent_state (core self))
                    (length successful_actions) estimated_savings)) in
          _record_decision_performance (performance_time world) self metrics
            actions results
      end
  end.

(** One turn of the loop of [_agent_loop], [decision_interval] and
    [last_decision_time] being its local variables and [current_time] the
    clock read after a snapshot was taken from the queue.  An empty queue is
    the [queue.Empty] of the timed [get]. *)
Definition agent_loop_turn (decision_interval current_time : Q)
    (world : readings) (self : t) (last_decision_time : Q) : t * Q :=
  match AgentController.decision_queue (core self) with
  | [] => (self, last_decision_time)
  | metrics :: rest =>
      let self := set_core self (set_decision_queue (core self) rest) in
      if Py.lt (current_time - last_decision_time) decision_interval
      then (self, last_decision_time)
      else
        let self := _make_optimization_decision world self metrics in
        let self :=
          set_core self
            (set_agent_state (core self)
               (set_last_decision_time
                  (AgentController.agent_state (core self)) current_time)) in
        let self := set_core self (set_decision_queue (core self) []) in
        (self, current_time)
  end.

(** [provide_user_feedback]; [session] is the text of [time.time()] in
    the id of the session.  The new satisfaction is computed in binary64 as
    the source writes it: two products, then their sum. *)
Definition provide_user_feedback (refit : Training.refitting)
    (current_hour : Z) (now : Q) (session : string) (self : t)
    (satisfaction_score : Q)
    (performance_acceptable battery_improvement : bool) (comments : string)
  : t :=
  let st := AgentController.agent_state (core self) in
  let feedback :=
    {| feedback_timestamp := now;
       feedback_satisfaction_score := satisfaction_score;
       feedback_performance_acceptable := performance_acceptable;
       feedback_battery_improvement := battery_improvement;
       feedback_comments := comments;
       feedback_current_mode := AgentController.optimization_mode st;
       feedback_actions_applied := AgentController.actions_applied st |} in
  let satisfaction :=
    Binary64.add
      (Binary64.mul (AgentController.user_satisfaction st) 0.8)
      (Binary64.mul satisfaction_score 0.2) in
  let learner :=
    Training.provide_feedback refit current_hour now
      {| Training.agent := AgentController.agent (core self);
         Training.action_outcomes := action_outcomes self |}
      ("session_" ++ session)
      (performance_acceptable && battery_improvement)
      (if battery_improvement then 10.0 else 0.0)
      (if negb performance_acceptable then 0.3 else 0.1)
      satisfaction_score in
  {| core :=
       set_agent
         (set_agent_state (core self) (set_user_satisfaction st satisfaction))
         (Training.agent learner);
     running := running self;
     action_outcomes := Training.action_outcomes learner;
     performance_history := performance_history self;
     user_feedback_history := (user_feedback_history self ++ [feedback])%list |}.

(** [stop]; [action_ids] as for [revert_all_actions].  The monitor and
    the thread are outside. *)
Definition stop (envs : nat -> Env) (self : t) (action_ids : list string)
  : t * Except unit :=
  if negb (running self) then (self, Return tt)
  else
    let stopped :=
      {| core :=
           set_agent_state (core self)
             (set_active (AgentController.agent_state (core self)) false);
         running := false;
         action_outcomes := action_outcomes self;
         performance_history := performance_history self;
         user_feedback_history := user_feedback_history self |} in
    match OptimizationActuator.revert_all_actions envs
            (AgentController.actuator (core stopped)) action_ids with
    | (actuator, Return _) =>
        (set_core stopped
           (AgentController.set_actuator (core stopped) actuator),
         Return tt)
    | (actuator, Raise e) =>
        (set_core stopped
           (AgentController.set_actuator (core stopped) actuator),
         Raise e)
    end.

Definition emergency_revert (envs : nat -> Env) (self : t)
    (action_ids : list string) : t * Except (list ActionResult) :=
  let '(actuator, results) :=
    OptimizationActuator.revert_all_actions envs
      (AgentController.actuator (core self)) action_ids in
  (set_core self (AgentController.set_actuator (core self) actuator), results).

(** [pause_optimization] and [resume_optimization]. *)
Definition pause_optimization (self : t) : t :=
  set_core self
    (set_agent_state (core self)
       (set_active (AgentController.agent_state (core self)) false)).

Definition resume_optimization (self : t) : t :=
  set_core self
    (set_agent_state (core self)
       (set_active (AgentController.agent_state (core self)) true)).

End Controller.

(** * Inputs of the examples *)

(** A platform on which every command succeeds and no process matches. *)
Definition all_ok : Env :=
  {| time_time := "1700000000.25";
     clock := 1700000000.25;
     brightness_command_ok := true;
     governor_command_ok := true;
     power_plan_command_ok := true;
     frequency_command_ok := true;
     default_route := None;
     tc_add_ok := true;
     tc_del_ok := true;
     matching_processes := fun _ => Return [];
     restored_processes := fun l => Return (length l) |}.

(** The same platform a little later, the brightness command failing. *)
Definition brightness_fails : Env :=
  {| time_time := "1700000005.5";
     clock := 1700000005.5;
     brightness_command_ok := false;
     governor_command_ok := true;
     power_plan_command_ok := true;
     frequency_command_ok := true;
     default_route := None;
     tc_add_ok := true;
     tc_del_ok := true;
     matching_processes := fun _ => Return [];
     restored_processes := fun l => Return (length l) |}.

Definition display_at (platform : string) (brightness : Z)
  : DisplayOptimizer.t :=
  {| DisplayOptimizer.is_enabled := true;
     DisplayOptimizer.previous_states := ∅;
     DisplayOptimizer.platform := platform;
     DisplayOptimizer.current_brightness := brightness;
     DisplayOptimizer.original_brightness := brightness |}.

Definition cpu_on (platform : string) : CPUOptimizer.t :=
  {| CPUOptimizer.is_enabled := true;
     CPUOptimizer.previous_states := ∅;
     CPUOptimizer.platform := platform;
     CPUOptimizer.cpu_count := 8;
     CPUOptimizer.original_governor := "unknown" |}.

Definition network_on (platform : string) : NetworkOptimizer.t :=
  {| NetworkOptimizer.is_enabled := true;
     NetworkOptimizer.previous_states := ∅;
     NetworkOptimizer.platform := platform;
     NetworkOptimizer.active_limits := ∅ |}.

Definition application_fresh : ApplicationOptimizer.t :=
  {| ApplicationOptimizer.is_enabled := true;
     ApplicationOptimizer.previous_states := ∅;
     ApplicationOptimizer.optimization_callbacks := ∅ |}.

(** The executor after [__init__] on the given platform, the screen at
    the given brightness. *)
Definition actuator_on (platform : string) (brightness : Z)
  : OptimizationActuator.t :=
  OptimizationActuator.init (display_at platform brightness)
    (cpu_on platform) (network_on platform) application_fresh.

(** The two actions of the self-test of [actions.py]. *)
Definition test_brightness : OptimizationAction :=
  {| action_type := "brightness_adjust";
     intensity := 0.3;
     target_component := "display";
     estimated_savings := 10.0;
     performance_impact := 0.1;
     confidence := 0.8 |}.

Definition test_throttle : OptimizationAction :=
  {| action_type := "cpu_throttle";
     intensity := 0.5;
     target_component := "system";
     estimated_savings := 15.0;
     performance_impact := 0.4;
     confidence := 0.7 |}.

(** The executor after the first of them was applied on a platform without
    brightness command, and the id that the display actuator gave it. *)
Definition applied_once : OptimizationActuator.t :=
  fst (OptimizationActuator.apply_actions (fun _ => all_ok)
         (actuator_on "darwin" 80) [test_brightness]).

Definition test_brightness_id : string :=
  "display_brightness_adjust_1700000000.25".

(** The same on a platform with a brightness command. *)
Definition applied_on_linux : OptimizationActuator.t :=
  fst (OptimizationActuator.apply_actions (fun _ => all_ok)
         (actuator_on "linux" 80) [test_brightness]).

(** A subclass of the base class whose methods raise, and an executor
    whose display actuator is of that class: inputs for the [except] clause
    of [apply_actions]. *)
Definition raising : BaseOptimizer unit :=
  {| enabled := fun _ => true;
     apply_optimization := fun _ s _ => (s, Raise "display unavailable");
     revert_optimization := fun _ s _ => (s, Raise "display unavailable") |}.

Definition actuator_raising : OptimizationActuator.t :=
  OptimizationActuator.set_optimizer (actuator_on "linux" 80) "display"
    (@object unit raising tt).

(** An executor whose history holds 1000 results. *)
Definition actuator_full : OptimizationActuator.t :=
  OptimizationActuator.set_action_history (actuator_on "linux" 80)
    (repeat (failed "unknown_1600000000.0" "Unknown action type: noop") 1000).

(** The snapshot of the third scenario of [quick_test.py]: battery 8,
    cpu 80, brightness 95. *)
Definition critical_metrics : SystemMetrics :=
  {| timestamp := 1700000000.25;
     battery_percent := 8.0;
     battery_power_draw := 15.0;
     cpu_percent := 80.0;
     cpu_freq_current := 3000.0;
     memory_percent := 85.0;
     gpu_percent := 40.0;
     gpu_memory_percent := 60.0;
     network_bytes_sent := 10 * 1024 * 1024;
     network_bytes_recv := 20 * 1024 * 1024;
     disk_io_read := 500 * 1024;
     disk_io_write := 300 * 1024;
     screen_brightness := 95;
     active_processes := 180;
     target_app_cpu := 50.0;
     target_app_memory := 35.0 |}.

(** An agent whose classifier answers the given class with the given
    confidence, and one without a trained classifier. *)
Definition agent_predicting (class : Z) (confidence : Q)
  : BatteryOptimizationAgent.t :=
  {| BatteryOptimizationAgent.model_trained := true;
     BatteryOptimizationAgent.decision_model :=
       fun _ => Return (class, confidence);
     BatteryOptimizationAgent.experience_buffer := [];
     BatteryOptimizationAgent.action_history := [] |}.

Definition agent_untrained : BatteryOptimizationAgent.t :=
  {| BatteryOptimizationAgent.model_trained := false;
     BatteryOptimizationAgent.decision_model :=
       fun _ => Raise "This RandomForestClassifier instance is not fitted yet.";
     BatteryOptimizationAgent.experience_buffer := [];
     BatteryOptimizationAgent.action_history := [] |}.

(** The two actions of the tie-break of the specification. *)
Definition classifier_brightness : OptimizationAction :=
  {| action_type := "brightness_adjust";
     intensity := 0.5;
     target_component := "display";
     estimated_savings := 8.0;
     performance_impact := 0.2;
     confidence := 0.9 |}.

Definition rule_brightness : OptimizationAction :=
  {| action_type := "brightness_adjust";
     intensity := 0.3;
     target_component := "display";
     estimated_savings := 10.0;
     performance_impact := 0.15;
     confidence := 0.8 |}.

(** A controller right after [__init__] with the default configuration,
    and the same in emergency mode. *)
Definition controller_on (platform : string) (emergency : bool)
  : AgentController.t :=
  {| AgentController.configuration := AgentController.default_config;
     AgentController.agent := agent_untrained;
     AgentController.actuator := actuator_on platform 75;
     AgentController.agent_state :=
       {| AgentController.active := false;
          AgentController.battery_level := "unknown";
          AgentController.optimization_mode := "adaptive";
          AgentController.actions_applied := 0;
          AgentController.total_savings := 0.0;
          AgentController.user_satisfaction := 0.8;
          AgentController.last_decision_time := 0.0 |};
     AgentController.decision_queue := [];
     AgentController.emergency_mode := emergency;
     AgentController.min_battery_threshold := 5.0 |}.

(** The critical snapshot with another battery percentage. *)
Definition metrics_at (battery : Q) : SystemMetrics :=
  {| timestamp := timestamp critical_metrics;
     battery_percent := battery;
     battery_power_draw := battery_power_draw critical_metrics;
     cpu_percent := cpu_percent critical_metrics;
     cpu_freq_current := cpu_freq_current critical_metrics;
     memory_percent := memory_percent critical_metrics;
     gpu_percent := gpu_percent critical_metrics;
     gpu_memory_percent := gpu_memory_percent critical_metrics;
     network_bytes_sent := network_bytes_sent critical_metrics;
     network_bytes_recv := network_bytes_recv critical_metrics;
     disk_io_read := disk_io_read critical_metrics;
     disk_io_write := disk_io_write critical_metrics;
     screen_brightness := screen_brightness critical_metrics;
     active_processes := active_processes critical_metrics;
     target_app_cpu := target_app_cpu critical_metrics;
     target_app_memory := target_app_memory critical_metrics |}.

(** * Vocabulary of the statements *)

(** The condition of the specification under which the mode filter keeps
    an action. *)
Definition survives (mode : AgentController.mode_config)
    (global_max_impact : Q) (a : OptimizationAction) : bool :=
  Py.le (intensity a) (AgentController.max_intensity mode)
  && Py.le (AgentController.min_confidence mode) (confidence a)
  && Py.le (performance_impact a) global_max_impact.

(** The result that [apply_actions] records for one action met in state
    [self]: the result of the backend, or the failure built by the [except]
    clause. *)
Definition recorded (env : Env) (self : OptimizationActuator.t)
    (a : OptimizationAction) : ActionResult :=
  match snd (OptimizationActuator._apply_single_action env self a) with
  | Return result => result
  | Raise e => failed ("error_" ++ time_time env) e
  end.

(** The actuator as the [i]-th action of a batch meets it. *)
Definition state_before (envs : nat -> Env) (self : OptimizationActuator.t)
    (actions : list OptimizationAction) (i : nat) : OptimizationActuator.t :=
  fst (OptimizationActuator.apply_loop envs 0%nat self [] (firstn i actions)).

(** The bound of the history: [if len(h) > 1000: h = h[-500:]]. *)
Definition bounded {A} (h : list A) : list A :=
  if (1000 <? length h)%nat then Py.last_n 500 h else h.

(** Every active record has a kind of the routing table whose actuator
    is in the map: the states in which [revert_action] reaches a backend. *)
Definition routable (self : OptimizationActuator.t) : Prop :=
  forall (id : string) (info : OptimizationActuator.active),
    OptimizationActuator.active_actions self !! id = Some info ->
    exists (name : string) (o : Optimizer),
      Py.get OptimizationActuator.optimizer_map
        (action_type (OptimizationActuator.action info))
      = Some name
      /\ OptimizationActuator.optimizers self !! name = Some o.

(** Whether [_set_brightness] of this display reaches the platform, where
    the command can fail. *)
Definition uses_command (self : DisplayOptimizer.t) : bool :=
  String.eqb (DisplayOptimizer.platform self) "windows"
  || String.eqb (DisplayOptimizer.platform self) "linux".

(** A later call on the executor: a revert of some id, or the application
    of a batch, each with what the platform answers. *)
Inductive call : Type :=
| reverting (env : Env) (action_id : string)
| applying (envs : nat -> Env) (actions : list OptimizationAction).

Definition after_call (self : OptimizationActuator.t) (c : call)
  : OptimizationActuator.t :=
  match c with
  | reverting env action_id =>
      fst (OptimizationActuator.revert_action env self action_id)
  | applying envs actions =>
      fst (OptimizationActuator.apply_actions envs self actions)
  end.

Definition after_calls (calls : list call) (self : OptimizationActuator.t)
  : OptimizationActuator.t :=
  fold_left after_call calls self.

(** No batch applied during the calls returns a result under [id], that
    is, no actuator generates [id] a second time. *)
Fixpoint never_reissued (id : string) (calls : list call)
    (self : OptimizationActuator.t) : Prop :=
  match calls with
  | [] => True
  | c :: rest =>
      match c with
      | reverting _ _ => True
      | applying envs actions =>
          Forall (fun r => action_id r <> id)
            (snd (OptimizationActuator.apply_actions envs self actions))
      end
      /\ never_reissued id rest (after_call self c)
  end.

(** The record [info] is active under [id] while the display actuator has
    no previous state for [id]. *)
Definition orphaned (id : string) (info : OptimizationActuator.active)
    (self : OptimizationActuator.t) : Prop :=
  OptimizationActuator.active_actions self !! id = Some info
  /\ exists display : DisplayOptimizer.t,
       OptimizationActuator.optimizers self !! "display" = Some (object display)
       /\ DisplayOptimizer.previous_states display !! id = None.

(** The pair by which the specification keys an action. *)
Definition slot (a : OptimizationAction) : string * string :=
  (action_type a, target_component a).

(** The kind of the action is one of the routing table of the executor. *)
Definition kind_routed (a : OptimizationAction) : Prop :=
  Py.get OptimizationActuator.optimizer_map (action_type a) <> None.

(** [c] is the action that the classifier tier proposes for its slot: no
    later action of the tier has the same slot. *)
Definition proposed (c : OptimizationAction) (tier : list OptimizationAction)
  : Prop :=
  exists l1 l2 : list OptimizationAction,
    tier = (l1 ++ c :: l2)%list
    /\ forall a : OptimizationAction, In a l2 -> slot a <> slot c.

(** What the two loops of [_combine_actions] do to the entry of one key:
    a classifier action takes it; a rule action takes it when it is free or
    held at a strictly higher intensity. *)
Definition pick (k : string) (cur : option OptimizationAction)
    (a : OptimizationAction) : option OptimizationAction :=
  if String.eqb (BatteryOptimizationAgent.key a) k then Some a else cur.

Definition contest (k : string) (cur : option OptimizationAction)
    (r : OptimizationAction) : option OptimizationAction :=
  if String.eqb (BatteryOptimizationAgent.key r) k then
    match cur with
    | None => Some r
    | Some e => if Py.lt (intensity r) (intensity e) then Some r else Some e
    end
  else cur.

(** Every entry of the dictionary is filed under its own key, once. *)
Definition filed (d : list (string * OptimizationAction)) : Prop :=
  List.NoDup (Py.keys d)
  /\ Forall (fun kv => BatteryOptimizationAgent.key (snd kv) = fst kv) d.

(** An action, its fields in the order of the dataclass. *)
Definition act (kind : string) (i : Q) (target : string) (savings impact c : Q)
  : OptimizationAction :=
  {| action_type := kind;
     intensity := i;
     target_component := target;
     estimated_savings := savings;
     performance_impact := impact;
     confidence := c |}.

(** The class that the classifier tier contributes to a decision, if any:
    none without a trained model or when the prediction raises. *)
Definition classifier_class (current_hour : Z)
    (self : BatteryOptimizationAgent.t) (metrics : SystemMetrics) : option Z :=
  if BatteryOptimizationAgent.model_trained self then
    match BatteryOptimizationAgent.decision_model self
            (BatteryOptimizationAgent._extract_features current_hour metrics
               (BatteryOptimizationAgent.analyze_context current_hour metrics))
    with
    | Return (prediction, _) => Some prediction
    | Raise _ => None
    end
  else None.

(** The property of the scenario as the specification states it. *)
Definition two_strong_actions (actions : list OptimizationAction) : Prop :=
  (2 <= length actions)%nat
  /\ (exists b, In b actions /\ action_type b = "brightness_adjust"
                /\ (0.7 <= intensity b)%Q)
  /\ (exists c, In c actions /\ action_type c = "cpu_throttle"
                /\ (0.7 <= intensity c)%Q).

(** * Inputs of the further examples *)

(** A platform on which the governor cannot be written. *)
Definition governor_fails : Env :=
  {| time_time := "1700000010.75";
     clock := 1700000010.75;
     brightness_command_ok := true;
     governor_command_ok := false;
     power_plan_command_ok := true;
     frequency_command_ok := true;
     default_route := None;
     tc_add_ok := true;
     tc_del_ok := true;
     matching_processes := fun _ => Return [];
     restored_processes := fun l => Return (length l) |}.

(** A network actuator whose interface already carries a limit. *)
Definition network_limited : NetworkOptimizer.t :=
  {| NetworkOptimizer.is_enabled := true;
     NetworkOptimizer.previous_states := ∅;
     NetworkOptimizer.platform := "linux";
     NetworkOptimizer.active_limits := <["eth0" := 50%Q]> ∅ |}.

(** The network action of the away rules, the application action of the
    classifier and the action of the performance rules. *)
Definition test_network_limit : OptimizationAction :=
  act "network_limit" 0.6 "network" 15.0 0.2 0.8.

Definition test_app_throttle : OptimizationAction :=
  act "app_throttle" 0.6 "target_app" 12.0 0.5 0.8.

Definition test_background : OptimizationAction :=
  act "background_limit" 0.5 "system" 8.0 0.1 0.7.

(** An action of a kind that the routing table does not list. *)
Definition test_unrouted : OptimizationAction :=
  act "gpu_throttle" 0.5 "gpu" 5.0 0.2 0.8.

(** An application that lowers its quality on request, registered under
    the target of the classifier's action. *)
Definition player_callback (action : OptimizationAction)
  : Except ActionResult :=
  Return {| action_id := "video_quality";
            success := true;
            error_message := None;
            previous_value := Some (VStr "1080p");
            new_value := Some (VStr "720p");
            result_estimated_savings := 0%Q;
            actual_impact := 0%Q |}.

Definition application_registered : ApplicationOptimizer.t :=
  ApplicationOptimizer.register_app_optimizer application_fresh "target_app"
    player_callback.

(** * Vocabulary of the further properties *)

(** Whether the commands behind a CPU throttle, or its revert, succeed on
    the platform of the actuator. *)
Definition cpu_commands_ok (env : Env) (self : CPUOptimizer.t) : bool :=
  if String.eqb (CPUOptimizer.platform self) "linux"
  then governor_command_ok env && frequency_command_ok env
  else if String.eqb (CPUOptimizer.platform self) "windows"
  then power_plan_command_ok env && frequency_command_ok env
  else true.


(** The brightness, and every brightness remembered for a revert, lies
    between 10 and 100. *)
Definition display_sane (self : DisplayOptimizer.t) : Prop :=
  (10 <= DisplayOptimizer.current_brightness self <= 100)
  /\ forall (id : string) (st : DisplayOptimizer.state),
       DisplayOptimizer.previous_states self !! id = Some st ->
       10 <= DisplayOptimizer.value st <= 100.

(** The executor refuses the action before any actuator sees it: its
    kind is not in the routing table, or its actuator is missing or
    disabled. *)
Definition refused (self : OptimizationActuator.t) (a : OptimizationAction)
  : bool :=
  match Py.get OptimizationActuator.optimizer_map (action_type a) with
  | None => true
  | Some name =>
      match OptimizationActuator.optimizers self !! name with
      | None => true
      | Some o => negb (@enabled _ (optimizer_class o) (optimizer_self o))
      end
  end.

(** Every active record holds a successful result and is kept under the
    id of that result. *)
Definition well_keyed (self : OptimizationActuator.t) : Prop :=
  forall (id : string) (info : OptimizationActuator.active),
    OptimizationActuator.active_actions self !! id = Some info ->
    action_id (OptimizationActuator.result info) = id
    /\ success (OptimizationActuator.result info) = true.

(** The [revert_optimization] of the class of the actuator returns a
    result in every state, on every platform: it has no path that raises. *)
Definition revert_returns (o : Optimizer) : Prop :=
  forall (env : Env) (s : optimizer_state o) (id : string),
    exists (s' : optimizer_state o) (r : ActionResult),
      @revert_optimization _ (optimizer_class o) env s id = (s', Return r).

Definition reverts_return (self : OptimizationActuator.t) : Prop :=
  forall (name : string) (o : Optimizer),
    OptimizationActuator.optimizers self !! name = Some o -> revert_returns o.

(** What a list of reverts, each with its result, leaves of an active
    map: the ids whose revert reported success are gone. *)
Definition reverted {A} (m : gmap string A)
    (outcomes : list (string * ActionResult)) : gmap string A :=
  fold_left (fun m p => if success (snd p) then delete (fst p) m else m)
    outcomes m.

(** The kinds with their targets, and the ranges of the fields, of the
    actions that the classifier tier and the rule tier build. *)
Definition tier_slots : list (string * string) :=
  [ ("brightness_adjust", "display");
    ("cpu_throttle", "system");
    ("network_limit", "network");
    ("app_throttle", "target_app");
    ("background_limit", "system") ].

Definition tier_action (a : OptimizationAction) : Prop :=
  In (slot a) tier_slots
  /\ (0.3 <= intensity a <= 0.9)%Q
  /\ (0.1 <= performance_impact a <= 0.6)%Q
  /\ (5 <= estimated_savings a <= 30)%Q.

(** The hour is one of the night, or the machine is in use: the
    conditions under which [analyze_context] does not answer "away". *)
Definition not_away (current_hour : Z) (metrics : SystemMetrics) : Prop :=
  current_hour <= 6 \/ 23 <= current_hour
  \/ (10 <= cpu_percent metrics)%Q \/ (5 <= target_app_cpu metrics)%Q.

(** The number that [_context_to_numeric] gives to a battery level. *)
Definition battery_rank (level : string) : Z :=
  default 2 (Py.get Training.battery_map level).

(** The records of the experience buffer that hold at least one action. *)
Definition with_actions
    (records : list BatteryOptimizationAgent.decision_record)
  : list BatteryOptimizationAgent.decision_record :=
  List.filter
    (fun record =>
       match BatteryOptimizationAgent.actions record with
       | [] => false
       | _ :: _ => true
       end)
    records.

(** The controller has the default configuration and is in the given
    mode. *)
Definition in_mode (mode : string) (self : AgentController.t) : Prop :=
  AgentController.configuration self = AgentController.default_config
  /\ AgentController.optimization_mode (AgentController.agent_state self)
     = mode.

(** A controller object right after [__init__] and [start], its core in
    the given state. *)
Definition controller_around (core : AgentController.t) : Controller.t :=
  {| Controller.core := core;
     Controller.running := true;
     Controller.action_outcomes := ∅;
     Controller.performance_history := [];
     Controller.user_feedback_history := [] |}.

(** What a decision in the afternoon reads, every command succeeding. *)
Definition afternoon : Controller.readings :=
  {| Controller.decision_time := 1700000000.25;
     Controller.performance_time := 1700000000.5;
     Controller.current_hour := 14;
     Controller.answers := fun _ => all_ok |}.

(** A refit that leaves a classifier answering class 1. *)
Definition refit_light : Training.refitting :=
  fun _ _ _ => fun _ => Return (1, 0.9%Q).

(** The three modes of the default configuration. *)
Definition conservative : AgentController.mode_config :=
  {| AgentController.max_intensity := 0.3;
     AgentController.min_confidence := 0.8 |}.

Definition balanced : AgentController.mode_config :=
  {| AgentController.max_intensity := 0.6;
     AgentController.min_confidence := 0.7 |}.

Definition aggressive : AgentController.mode_config :=
  {| AgentController.max_intensity := 0.9;
     AgentController.min_confidence := 0.6 |}.

(** The decision left the controller alone but for the agent, which
    recorded it. *)
Definition only_recorded (world : Controller.readings) (self : Controller.t)
    (metrics : SystemMetrics) (after : Controller.t) : Prop :=
  after
  = Controller.set_core self
      (Controller.set_agent (Controller.core self)
         (fst (BatteryOptimizationAgent.decide_optimization
                 (Controller.decision_time world)
                 (Controller.current_hour world)
                 (AgentController.agent (Controller.core self)) metrics))).

(** The condition of [_update_model] and [provide_feedback] under which
    the classifier is fitted again. *)
Definition retrains (outcomes : nat)
    (buffer : list BatteryOptimizationAgent.decision_record) : bool :=
  (10 <? outcomes)%nat && negb (length buffer <? 50)%nat
  && (20 <? length (with_actions buffer))%nat.

(** * Properties *)

(** Case analysis on the test of a conditional of the goal. *)
Ltac case_if :=
  match goal with
  | |- context [if ?b then _ else _] => destruct b eqn:?
  end.

(** Evaluation of the right-hand side of an equation. *)
Ltac evaluate H :=
  match type of H with
  | _ = ?rhs =>
      let v := eval vm_compute in rhs in
      let E := fresh in
      assert (E : rhs = v) by (vm_compute; reflexivity);
      rewrite E in H; clear E
  end.

(** An element of an explicit list with the wanted properties. *)
Ltac choose_from l :=
  match l with
  | ?x :: ?l' =>
      first [ exists x; split; [cbn; tauto|];
              repeat split; solve [reflexivity | cbn; lra]
            | choose_from l' ]
  end.

Ltac choose :=
  match goal with
  | |- exists a, In a ?l /\ _ => choose_from l
  end.

(** All the elements of an explicit list. *)
Ltac each_element H :=
  cbn in H;
  repeat match type of H with
         | _ \/ _ => destruct H as [H|H]
         end;
  [ subst .. | contradiction ].

(** ** Comparisons and truncation *)

Lemma le_true (x y : Q) : Py.le x y = true <-> (x <= y)%Q.
Proof. apply Qle_bool_iff. Qed.

Lemma lt_true (x y : Q) : Py.lt x y = true <-> (x < y)%Q.
Proof.
  unfold Py.lt. rewrite negb_true_iff.
  split.
  - intros H. apply Qnot_le_lt. intros Hle.
    apply Qle_bool_iff in Hle. congruence.
  - intros H. destruct (Qle_bool y x) eqn:E; [|reflexivity].
    apply Qle_bool_iff in E. exfalso. exact (Qlt_not_le _ _ H E).
Qed.

Lemma gt_true (x y : Q) : Py.gt x y = true <-> (y < x)%Q.
Proof. apply lt_true. Qed.

Lemma le_false (x y : Q) : Py.le x y = false <-> (y < x)%Q.
Proof.
  rewrite <- lt_true. unfold Py.lt, Py.le.
  destruct (Qle_bool x y); simpl; split; congruence.
Qed.

Lemma lt_false (x y : Q) : Py.lt x y = false <-> (y <= x)%Q.
Proof.
  rewrite <- le_true. unfold Py.lt, Py.le.
  destruct (Qle_bool y x); simpl; split; congruence.
Qed.

Lemma gt_false (x y : Q) : Py.gt x y = false <-> (x <= y)%Q.
Proof. apply lt_false. Qed.

(** [int] does not depend on the fraction that represents the number. *)
Lemma int_Qeq (x y : Q) : (x == y)%Q -> Py.int x = Py.int y.
Proof.
  unfold Qeq, Py.int. intros H.
  rewrite <- (Z.quot_mul_cancel_r (Qnum x) (Zpos (Qden x)) (Zpos (Qden y)))
    by discriminate.
  rewrite H.
  rewrite (Z.mul_comm (Zpos (Qden x)) (Zpos (Qden y))).
  apply Z.quot_mul_cancel_r; discriminate.
Qed.

Lemma last_n_length {A} (n : nat) (l : list A) :
  (n <= length l)%nat -> length (Py.last_n n l) = n.
Proof. intros H. unfold Py.last_n. rewrite length_skipn. lia. Qed.

Lemma last_n_suffix {A} (n : nat) (l : list A) :
  l = (firstn (length l - n) l ++ Py.last_n n l)%list.
Proof. unfold Py.last_n. symmetry. apply firstn_skipn. Qed.

(** ** Context derivation *)

Section Context.
Import BatteryOptimizationAgent.

Variable current_hour : Z.
Variable metrics : SystemMetrics.

Let context := analyze_context current_hour metrics.
Let total_usage := (cpu_percent metrics + gpu_percent metrics)%Q.

Lemma battery_level_cases :
  (battery_percent metrics <= 15 /\ battery_level context = "critical")%Q
  \/ (15 < battery_percent metrics /\ battery_percent metrics <= 30
      /\ battery_level context = "low")%Q
  \/ (30 < battery_percent metrics /\ battery_percent metrics <= 60
      /\ battery_level context = "medium")%Q
  \/ (60 < battery_percent metrics /\ battery_level context = "high")%Q.
Proof.
  subst context. unfold analyze_context. cbn [battery_level].
  destruct (Py.le (battery_percent metrics) 15) eqn:E1.
  { left. apply le_true in E1. auto. }
  apply le_false in E1.
  destruct (Py.le (battery_percent metrics) 30) eqn:E2.
  { right; left. apply le_true in E2. auto. }
  apply le_false in E2.
  destruct (Py.le (battery_percent metrics) 60) eqn:E3.
  { right; right; left. apply le_true in E3. auto. }
  apply le_false in E3. right; right; right. auto.
Qed.

Lemma performance_demand_cases :
  (80 < total_usage /\ performance_demand context = "heavy")%Q
  \/ (50 < total_usage /\ total_usage <= 80
      /\ performance_demand context = "moderate")%Q
  \/ (20 < total_usage /\ total_usage <= 50
      /\ performance_demand context = "light")%Q
  \/ (total_usage <= 20 /\ performance_demand context = "idle")%Q.
Proof.
  subst context total_usage. unfold analyze_context.
  cbn [performance_demand].
  set (u := (cpu_percent metrics + gpu_percent metrics)%Q).
  destruct (Py.gt u 80) eqn:E1.
  { left. apply gt_true in E1. auto. }
  apply gt_false in E1.
  destruct (Py.gt u 50) eqn:E2.
  { right; left. apply gt_true in E2. auto. }
  apply gt_false in E2.
  destruct (Py.gt u 20) eqn:E3.
  { right; right; left. apply gt_true in E3. auto. }
  apply gt_false in E3. right; right; right. auto.
Qed.

End Context.

(** C6. Context derivation is a function of the snapshot and of the hour
    alone, and its two numeric summaries follow the thresholds: battery
    percent at most 15 is critical, at most 30 low, at most 60 medium, above
    that high; cpu% + gpu% above 80 is heavy, above 50 moderate, above 20
    light, otherwise idle.  Neither summary depends on the hour.  In
    particular battery 8 is critical, battery 45 is medium and cpu + gpu = 85
    is heavy. *)
Theorem analyze_context_thresholds
    (current_hour : Z) (metrics : SystemMetrics) :
  let context := BatteryOptimizationAgent.analyze_context current_hour metrics in
  let battery := battery_percent metrics in
  let total_usage := (cpu_percent metrics + gpu_percent metrics)%Q in
  ((battery_level context = "critical" <-> battery <= 15)
   /\ (battery_level context = "low" <-> 15 < battery /\ battery <= 30)
   /\ (battery_level context = "medium" <-> 30 < battery /\ battery <= 60)
   /\ (battery_level context = "high" <-> 60 < battery))%Q
  /\ ((performance_demand context = "heavy" <-> 80 < total_usage)
      /\ (performance_demand context = "moderate"
          <-> 50 < total_usage /\ total_usage <= 80)
      /\ (performance_demand context = "light"
          <-> 20 < total_usage /\ total_usage <= 50)
      /\ (performance_demand context = "idle" <-> total_usage <= 20))%Q
  /\ (forall hour : Z,
        battery_level (BatteryOptimizationAgent.analyze_context hour metrics)
        = battery_level context
        /\ performance_demand
             (BatteryOptimizationAgent.analyze_context hour metrics)
           = performance_demand context)
  /\ ((battery == 8 -> battery_level context = "critical")
      /\ (battery == 45 -> battery_level context = "medium")
      /\ (total_usage == 85 -> performance_demand context = "heavy"))%Q.
Proof.
  intros context battery total_usage.
  pose proof (battery_level_cases current_hour metrics) as HB.
  pose proof (performance_demand_cases current_hour metrics) as HP.
  fold context battery in HB. fold context total_usage in HP.
  assert (HBiff :
    ((battery_level context = "critical" <-> battery <= 15)
     /\ (battery_level context = "low" <-> 15 < battery /\ battery <= 30)
     /\ (battery_level context = "medium" <-> 30 < battery /\ battery <= 60)
     /\ (battery_level context = "high" <-> 60 < battery))%Q).
  { destruct HB as [[H ->]|[(H1 & H2 & ->)|[(H1 & H2 & ->)|[H ->]]]];
      repeat split; intros; try discriminate; try lra;
      repeat match goal with H : _ /\ _ |- _ => destruct H end; lra. }
  assert (HPiff :
    ((performance_demand context = "heavy" <-> 80 < total_usage)
     /\ (performance_demand context = "moderate"
         <-> 50 < total_usage /\ total_usage <= 80)
     /\ (performance_demand context = "light"
         <-> 20 < total_usage /\ total_usage <= 50)
     /\ (performance_demand context = "idle" <-> total_usage <= 20))%Q).
  { destruct HP as [[H ->]|[(H1 & H2 & ->)|[(H1 & H2 & ->)|[H ->]]]];
      repeat split; intros; try discriminate; try lra;
      repeat match goal with H : _ /\ _ |- _ => destruct H end; lra. }
  split; [exact HBiff|]. split; [exact HPiff|]. split.
  - intros hour. split; reflexivity.
  - destruct HBiff as (Hc & _ & Hm & _). destruct HPiff as (Hh & _).
    repeat split; intros E.
    + apply Hc. lra.
    + apply Hm. lra.
    + apply Hh. lra.
Qed.

(** ** The mode filter *)

Lemma filter_loop_filter (mode : AgentController.mode_config) (impact : Q)
    (actions filtered : list OptimizationAction) :
  AgentController.filter_loop (AgentController.max_intensity mode)
    (AgentController.min_confidence mode) impact filtered actions
  = (filtered ++ List.filter (survives mode impact) actions)%list.
Proof.
  revert filtered.
  induction actions as [|a rest IH]; intros filtered; simpl.
  - now rewrite app_nil_r.
  - unfold survives at 1.
    destruct (Py.gt (intensity a) (AgentController.max_intensity mode)) eqn:E1.
    { apply gt_true in E1. apply le_false in E1. rewrite E1. simpl. apply IH. }
    apply gt_false in E1. apply le_true in E1. rewrite E1. simpl.
    destruct (Py.lt (confidence a) (AgentController.min_confidence mode)) eqn:E2.
    { apply lt_true in E2. apply le_false in E2. rewrite E2. simpl. apply IH. }
    apply lt_false in E2. apply le_true in E2. rewrite E2. simpl.
    destruct (Py.gt (performance_impact a) impact) eqn:E3.
    { apply gt_true in E3. apply le_false in E3. rewrite E3. apply IH. }
    apply gt_false in E3. apply le_true in E3. rewrite E3.
    rewrite IH. now rewrite <- app_assoc.
Qed.

Lemma survives_true (mode : AgentController.mode_config) (impact : Q)
    (a : OptimizationAction) :
  survives mode impact a = true
  <-> (intensity a <= AgentController.max_intensity mode
       /\ AgentController.min_confidence mode <= confidence a
       /\ performance_impact a <= impact)%Q.
Proof.
  unfold survives. rewrite !andb_true_iff, !le_true. tauto.
Qed.

Lemma filter_keeps_order {A} (p : A -> bool) (l : list A) :
  sublist (List.filter p l) l.
Proof.
  induction l as [|x l IH]; simpl.
  - constructor.
  - destruct (p x); now constructor.
Qed.

(** C3. Under a mode that the configuration lists, the mode filter
    returns exactly the input actions with intensity at most [max_intensity],
    confidence at least [min_confidence] and performance impact at most the
    global limit, each as often as it occurs and in the order of the input.
    The function reads the controller and returns only the list. *)
Theorem filter_actions_by_mode_exact
    (self : AgentController.t) (actions : list OptimizationAction)
    (mode : AgentController.mode_config) :
  AgentController.optimization_modes (AgentController.configuration self)
    !! AgentController.optimization_mode (AgentController.agent_state self)
  = Some mode ->
  let global_max_impact :=
    default 0.7%Q
      (AgentController.max_performance_impact
         (AgentController.configuration self)) in
  exists filtered : list OptimizationAction,
    AgentController._filter_actions_by_mode self actions = Return filtered
    /\ filtered = List.filter (survives mode global_max_impact) actions
    /\ sublist filtered actions
    /\ forall a : OptimizationAction,
         In a filtered
         <-> In a actions
             /\ (intensity a <= AgentController.max_intensity mode
                 /\ AgentController.min_confidence mode <= confidence a
                 /\ performance_impact a <= global_max_impact)%Q.
Proof.
  intros Hmode impact.
  exists (List.filter (survives mode impact) actions).
  split; [|split; [reflexivity|split]].
  - unfold AgentController._filter_actions_by_mode. rewrite Hmode.
    f_equal. apply (filter_loop_filter mode impact actions []).
  - apply filter_keeps_order.
  - intros a. rewrite filter_In, survives_true. reflexivity.
Qed.

(** ** The batch loop of the executor *)

Section Loop.
Import OptimizationActuator.

Lemma apply_single_keeps (env : Env) (self : t) (a : OptimizationAction) :
  active_actions (fst (_apply_single_action env self a)) = active_actions self
  /\ action_history (fst (_apply_single_action env self a))
     = action_history self.
Proof.
  unfold _apply_single_action.
  destruct (Py.get optimizer_map (action_type a)) as [name|]; [|now split].
  destruct (optimizers self !! name) as [o|]; [|now split].
  destruct (negb _); [now split|].
  unfold call_apply. destruct (apply_optimization _ _ _). now split.
Qed.

Lemma apply_step_results (env : Env) (self : t) (results : list ActionResult)
    (a : OptimizationAction) :
  snd (apply_step env self results a) = (results ++ [recorded env self a])%list.
Proof.
  unfold apply_step, recorded.
  destruct (_apply_single_action env self a) as [s [r|e]]; simpl; [|reflexivity].
  now destruct (success r).
Qed.

Lemma apply_step_state (env : Env) (self : t) (results : list ActionResult)
    (a : OptimizationAction) :
  fst (apply_step env self results a) = fst (apply_step env self [] a).
Proof.
  unfold apply_step.
  destruct (_apply_single_action env self a) as [s [r|e]]; simpl; [|reflexivity].
  now destruct (success r).
Qed.

Lemma apply_step_history (env : Env) (self : t) (results : list ActionResult)
    (a : OptimizationAction) :
  action_history (fst (apply_step env self results a)) = action_history self.
Proof.
  unfold apply_step.
  pose proof (apply_single_keeps env self a) as [_ H].
  destruct (_apply_single_action env self a) as [s [r|e]]; simpl in *; [|exact H].
  now destruct (success r).
Qed.

Lemma apply_loop_split (envs : nat -> Env) (actions : list OptimizationAction) :
  forall (i : nat) (self : t) (results : list ActionResult),
    apply_loop envs i self results actions
    = (fst (apply_loop envs i self [] actions),
       (results ++ snd (apply_loop envs i self [] actions))%list).
Proof.
  induction actions as [|a rest IH]; intros i self results; simpl.
  - now rewrite app_nil_r.
  - destruct (apply_step (envs i) self results a) as [s1 r1] eqn:E1.
    destruct (apply_step (envs i) self [] a) as [s0 r0] eqn:E0.
    pose proof (apply_step_state (envs i) self results a) as Hs.
    pose proof (apply_step_results (envs i) self results a) as Hr.
    pose proof (apply_step_results (envs i) self [] a) as Hr0.
    rewrite E1, E0 in Hs. rewrite E1 in Hr. rewrite E0 in Hr0.
    simpl in *. subst.
    rewrite (IH (S i) s0 (results ++ [recorded (envs i) self a])%list).
    rewrite (IH (S i) s0 [recorded (envs i) self a]).
    simpl. now rewrite <- app_assoc.
Qed.

Lemma apply_loop_length (envs : nat -> Env) (actions : list OptimizationAction) :
  forall (i : nat) (self : t),
    length (snd (apply_loop envs i self [] actions)) = length actions.
Proof.
  induction actions as [|a rest IH]; intros i self; simpl; [reflexivity|].
  destruct (apply_step (envs i) self [] a) as [s0 r0] eqn:E0.
  pose proof (apply_step_results (envs i) self [] a) as Hr0.
  rewrite E0 in Hr0. simpl in Hr0. subst r0.
  rewrite apply_loop_split. simpl. now rewrite IH.
Qed.

Lemma apply_loop_history (envs : nat -> Env) (actions : list OptimizationAction) :
  forall (i : nat) (self : t) (results : list ActionResult),
    action_history (fst (apply_loop envs i self results actions))
    = action_history self.
Proof.
  induction actions as [|a rest IH]; intros i self results; simpl; [reflexivity|].
  pose proof (apply_step_history (envs i) self results a) as H.
  destruct (apply_step (envs i) self results a) as [s1 r1]. simpl in H.
  now rewrite IH.
Qed.

Lemma apply_loop_lookup (envs : nat -> Env) (actions : list OptimizationAction) :
  forall (j : nat) (self : t) (i : nat) (a : OptimizationAction),
    actions !! i = Some a ->
    snd (apply_loop envs j self [] actions) !! i
    = Some (recorded (envs (j + i)%nat)
              (fst (apply_loop envs j self [] (firstn i actions))) a).
Proof.
  induction actions as [|b rest IH]; intros j self i a Hi; [discriminate|].
  simpl.
  destruct (apply_step (envs j) self [] b) as [s0 r0] eqn:E0.
  pose proof (apply_step_results (envs j) self [] b) as Hr0.
  rewrite E0 in Hr0. simpl in Hr0. subst r0.
  rewrite apply_loop_split. simpl.
  destruct i as [|i]; simpl in *.
  - inversion Hi; subst. now rewrite Nat.add_0_r.
  - rewrite E0. rewrite (apply_loop_split envs (firstn i rest)). simpl.
    rewrite (IH (S j) s0 i a Hi). do 3 f_equal. lia.
Qed.

Lemma apply_actions_results (envs : nat -> Env) (self : t)
    (actions : list OptimizationAction) :
  snd (apply_actions envs self actions)
  = snd (apply_loop envs 0%nat self [] actions).
Proof.
  unfold apply_actions.
  now destruct (apply_loop envs 0%nat self [] actions) as [s r].
Qed.

Lemma apply_actions_history (envs : nat -> Env) (self : t)
    (actions : list OptimizationAction) :
  action_history (fst (apply_actions envs self actions))
  = bounded (action_history self ++ snd (apply_actions envs self actions))%list.
Proof.
  rewrite apply_actions_results. unfold apply_actions, bounded.
  pose proof (apply_loop_history envs actions 0%nat self []) as H.
  destruct (apply_loop envs 0%nat self [] actions) as [s r]. simpl in *.
  rewrite H. now case_if.
Qed.

End Loop.

(** C5. After every call of [apply_actions] the history holds at most 1000
    results; when the history with the batch appended is longer than 1000,
    what is kept is its last 500 entries, in their order; otherwise the
    batch is simply appended. *)
Theorem action_history_bounded
    (envs : nat -> Env) (self : OptimizationActuator.t)
    (actions : list OptimizationAction) :
  let out := OptimizationActuator.apply_actions envs self actions in
  let appended := (OptimizationActuator.action_history self ++ snd out)%list in
  let kept := OptimizationActuator.action_history (fst out) in
  (length kept <= 1000)%nat
  /\ ((1000 < length appended)%nat ->
      length kept = 500%nat
      /\ exists dropped : list ActionResult, appended = (dropped ++ kept)%list)
  /\ ((length appended <= 1000)%nat -> kept = appended).
Proof.
  intros out appended kept.
  assert (Hk : kept = bounded appended)
    by apply apply_actions_history.
  rewrite Hk. unfold bounded.
  destruct (1000 <? length appended)%nat eqn:E.
  - apply Nat.ltb_lt in E.
    rewrite last_n_length by lia.
    split; [lia|]. split; [|lia].
    intros _. split; [reflexivity|].
    eexists. apply last_n_suffix.
  - apply Nat.ltb_ge in E.
    split; [lia|]. split; [lia|reflexivity].
Qed.

Lemma action_history_bounded_witness :
  length
    (OptimizationActuator.action_history
       (fst (OptimizationActuator.apply_actions (fun _ => all_ok)
               actuator_full [test_brightness])))
  = 500%nat.
Proof.
  refine (proj1 (proj1 (proj2 (action_history_bounded (fun _ => all_ok)
                                 actuator_full [test_brightness])) _)).
  vm_compute. lia.
Defined.

(** C10. [apply_actions] returns one result for each action of the batch,
    at the position of the action: the result of the backend for that
    action, met in the state that the earlier actions left, or, when the
    backend raised, a failed result that carries the message of the
    exception.  All of them are appended to the history before it is bounded. *)
Theorem apply_actions_one_result_per_action
    (envs : nat -> Env) (self : OptimizationActuator.t)
    (actions : list OptimizationAction) :
  let out := OptimizationActuator.apply_actions envs self actions in
  length (snd out) = length actions
  /\ (forall (i : nat) (a : OptimizationAction),
        actions !! i = Some a ->
        let before := state_before envs self actions i in
        snd out !! i = Some (recorded (envs i) before a)
        /\ (forall r : ActionResult,
              snd (OptimizationActuator._apply_single_action (envs i) before a)
              = Return r ->
              snd out !! i = Some r)
        /\ (forall e : string,
              snd (OptimizationActuator._apply_single_action (envs i) before a)
              = Raise e ->
              exists r : ActionResult,
                snd out !! i = Some r
                /\ success r = false /\ error_message r = Some e))
  /\ OptimizationActuator.action_history (fst out)
     = bounded (OptimizationActuator.action_history self ++ snd out)%list.
Proof.
  intros out. subst out.
  split; [|split].
  - rewrite apply_actions_results. apply apply_loop_length.
  - intros i a Hi before.
    assert (H : snd (OptimizationActuator.apply_actions envs self actions) !! i
                = Some (recorded (envs i) before a)).
    { rewrite apply_actions_results.
      now rewrite (apply_loop_lookup envs actions 0%nat self i a Hi). }
    split; [exact H|]. split.
    + intros r Hr. rewrite H. unfold recorded. now rewrite Hr.
    + intros e He. rewrite H. unfold recorded. rewrite He.
      eexists. split; [reflexivity|]. now split.
  - apply apply_actions_history.
Qed.

Lemma apply_actions_one_result_per_action_witness :
  exists r : ActionResult,
    snd (OptimizationActuator.apply_actions (fun _ => all_ok)
           actuator_raising [test_throttle; test_brightness]) !! 1%nat
    = Some r
    /\ success r = false /\ error_message r = Some "display unavailable".
Proof.
  refine (proj2 (proj2 (proj1 (proj2
            (apply_actions_one_result_per_action (fun _ => all_ok)
               actuator_raising [test_throttle; test_brightness]))
            1%nat test_brightness eq_refl)) "display unavailable" _).
  vm_compute. reflexivity.
Defined.

(** ** Reverting one action *)

(** C1. [revert_action] on an id that the active map does not hold
    returns, without raising, the failed result "Action not found in active
    actions" and changes nothing.  On an id that it holds, the actuator is the
    one that the routing table gives for the kind of the recorded action; what
    its [revert_optimization] returns is returned; and the record leaves the
    active map exactly when that result reports success, the other records
    staying as they are.  A kind without actuator gives a failed result and
    removes nothing. *)
Theorem revert_action_removes_on_success
    (env : Env) (self : OptimizationActuator.t) (action_id : string) :
  let out := OptimizationActuator.revert_action env self action_id in
  let active := OptimizationActuator.active_actions in
  (active self !! action_id = None ->
   out = (self, Return (failed action_id "Action not found in active actions")))
  /\ (forall info : OptimizationActuator.active,
        active self !! action_id = Some info ->
        let kind := action_type (OptimizationActuator.action info) in
        (forall (name : string) (o : Optimizer),
           Py.get OptimizationActuator.optimizer_map kind = Some name ->
           OptimizationActuator.optimizers self !! name = Some o ->
           let backend :=
             @revert_optimization _ (optimizer_class o) env (optimizer_self o)
               action_id in
           snd out = snd backend
           /\ OptimizationActuator.optimizers (fst out)
              = <[name := {| optimizer_state := optimizer_state o;
                             optimizer_class := optimizer_class o;
                             optimizer_self := fst backend |}]>
                  (OptimizationActuator.optimizers self))
        /\ (Py.get OptimizationActuator.optimizer_map kind
              ≫= (fun name => OptimizationActuator.optimizers self !! name)
            = None ->
            fst out = self
            /\ exists msg : string, snd out = Return (failed action_id msg))
        /\ (active (fst out) !! action_id = None
            <-> exists r : ActionResult, snd out = Return r /\ success r = true)
        /\ (active (fst out) !! action_id = None
            \/ active (fst out) !! action_id = Some info)
        /\ (forall other : string,
              other <> action_id ->
              active (fst out) !! other = active self !! other)).
Proof.
  intros out active. subst out active.
  unfold OptimizationActuator.revert_action.
  split.
  { intros ->. reflexivity. }
  intros info Hinfo. rewrite Hinfo. cbv zeta.
  destruct (Py.get OptimizationActuator.optimizer_map
              (action_type (OptimizationActuator.action info)))
    as [name|] eqn:Hname; cbn [mbind option_bind].
  2:{ split; [intros ? ? [=]|]. split; [intros _; split; eauto|].
      cbn. split; [|split; [right; assumption|reflexivity]].
      split; [congruence|]. intros (r & [= <-] & [=]). }
  destruct (OptimizationActuator.optimizers self !! name) as [o|] eqn:Ho.
  2:{ split; [intros ? ? [= <-]; congruence|].
      split; [intros _; split; eauto|].
      cbn. split; [|split; [right; assumption|reflexivity]].
      split; [congruence|]. intros (r & [= <-] & [=]). }
  cbn [default]. unfold OptimizationActuator.call_revert.
  destruct (@revert_optimization _ (optimizer_class o) env (optimizer_self o)
              action_id) as [s [r|e]] eqn:Hb.
  - destruct (success r) eqn:Hs; cbn.
    + split.
      { intros name' o' [= <-] Ho'. rewrite Ho in Ho'. injection Ho' as <-.
        rewrite Hb. now split. }
      split; [discriminate|].
      split. { rewrite lookup_delete_eq. split; eauto. }
      split. { left. apply lookup_delete_eq. }
      intros other Hne. now apply lookup_delete_ne.
    + split.
      { intros name' o' [= <-] Ho'. rewrite Ho in Ho'. injection Ho' as <-.
        rewrite Hb. now split. }
      split; [discriminate|].
      split. { split; [congruence|]. intros (r' & [= <-] & Hr'). congruence. }
      split; [now right|reflexivity].
  - cbn. split.
    { intros name' o' [= <-] Ho'. rewrite Ho in Ho'. injection Ho' as <-.
      rewrite Hb. now split. }
    split; [discriminate|].
    split. { split; [congruence|]. intros (r' & [=] & _). }
    split; [now right|reflexivity].
Qed.

Lemma revert_action_removes_on_success_witness :
  OptimizationActuator.active_actions applied_once !! test_brightness_id
  <> None
  /\ OptimizationActuator.active_actions
       (fst (OptimizationActuator.revert_action brightness_fails applied_once
               test_brightness_id))
     !! test_brightness_id
     = None.
Proof.
  split; [vm_compute; discriminate|].
  pose proof (proj2 (revert_action_removes_on_success brightness_fails
                       applied_once test_brightness_id)) as H.
  specialize (H _ ltac:(vm_compute; reflexivity)).
  apply H. eexists. split; vm_compute; reflexivity.
Defined.

(** The states that the executor reaches keep every active record within
    reach of its actuator, so that a revert of an active id always arrives at
    a backend. *)
Section Routable.
Import OptimizationActuator.

Lemma routable_init display cpu network application :
  routable (init display cpu network application).
Proof. intros id info H. cbn in H. now rewrite lookup_empty in H. Qed.

Lemma routable_apply_step (env : Env) (self : t) (results : list ActionResult)
    (a : OptimizationAction) :
  routable self -> routable (fst (apply_step env self results a)).
Proof.
  intros Hr. unfold apply_step, _apply_single_action.
  destruct (Py.get optimizer_map (action_type a)) as [name|] eqn:Hn;
    [|exact Hr].
  destruct (optimizers self !! name) as [o|] eqn:Ho; [|exact Hr].
  destruct (negb _); [exact Hr|].
  unfold call_apply.
  destruct (@apply_optimization _ (optimizer_class o) env (optimizer_self o) a)
    as [s [r|e]].
  - assert (Hkeep : forall id info,
              active_actions self !! id = Some info ->
              exists name' o',
                Py.get optimizer_map (action_type (action info)) = Some name'
                /\ <[name := {| optimizer_state := optimizer_state o;
                                 optimizer_class := optimizer_class o;
                                 optimizer_self := s |}]>
                      (optimizers self) !! name' = Some o').
    { intros id info Hi. destruct (Hr id info Hi) as (n & o' & Hn' & Ho').
      exists n. destruct (decide (name = n)) as [->|Hne].
      - eexists. split; [exact Hn'|apply lookup_insert_eq].
      - exists o'. split; [exact Hn'|now rewrite lookup_insert_ne]. }
    destruct (success r); cbn; [|exact Hkeep].
    intros id info Hi. cbn in Hi.
    destruct (decide (action_id r = id)) as [<-|Hne].
    + rewrite lookup_insert_eq in Hi. injection Hi as <-. cbn.
      exists name. eexists. split; [exact Hn|apply lookup_insert_eq].
    + rewrite lookup_insert_ne in Hi by exact Hne. now apply (Hkeep id).
  - cbn. intros id info Hi. destruct (Hr id info Hi) as (n & o' & Hn' & Ho').
    exists n. cbn. destruct (decide (name = n)) as [->|Hne].
    + eexists. split; [exact Hn'|apply lookup_insert_eq].
    + exists o'. split; [exact Hn'|now rewrite lookup_insert_ne].
Qed.

Lemma routable_apply_actions (envs : nat -> Env) (self : t)
    (actions : list OptimizationAction) :
  routable self -> routable (fst (apply_actions envs self actions)).
Proof.
  intros Hr.
  assert (H : forall actions i self results,
            routable self ->
            routable (fst (apply_loop envs i self results actions))).
  { clear. induction actions as [|a rest IH]; intros i self results Hr;
      [exact Hr|].
    cbn. pose proof (routable_apply_step (envs i) self results a Hr) as Hs.
    destruct (apply_step (envs i) self results a) as [s1 r1].
    now apply IH. }
  specialize (H actions 0%nat self [] Hr). unfold apply_actions.
  destruct (apply_loop envs 0%nat self [] actions) as [s r]. cbn in *.
  case_if; exact H.
Qed.

Lemma routable_revert_action (env : Env) (self : t) (action_id : string) :
  routable self -> routable (fst (revert_action env self action_id)).
Proof.
  intros Hr. unfold revert_action.
  destruct (active_actions self !! action_id) as [info|]; [|exact Hr].
  destruct (Py.get optimizer_map (action_type (action info))) as [name|];
    cbn [mbind option_bind]; [|exact Hr].
  destruct (optimizers self !! name) as [o|] eqn:Ho; [|exact Hr].
  cbn [default]. unfold call_revert.
  assert (Hkeep : forall s id info',
            active_actions self !! id = Some info' ->
            exists name' o',
              Py.get optimizer_map (action_type (action info')) = Some name'
              /\ <[name := {| optimizer_state := optimizer_state o;
                               optimizer_class := optimizer_class o;
                               optimizer_self := s |}]>
                    (optimizers self) !! name' = Some o').
  { intros s id info' Hi. destruct (Hr id info' Hi) as (n & o' & Hn' & Ho').
    exists n. destruct (decide (name = n)) as [->|Hne].
    - eexists. split; [exact Hn'|apply lookup_insert_eq].
    - exists o'. split; [exact Hn'|now rewrite lookup_insert_ne]. }
  destruct (@revert_optimization _ (optimizer_class o) env (optimizer_self o)
              action_id) as [s [r|e]].
  - destruct (success r); cbn; [|exact (Hkeep s)].
    intros id info' Hi. cbn in Hi.
    apply lookup_delete_Some in Hi as [_ Hi]. now apply (Hkeep s id).
  - exact (Hkeep s).
Qed.

End Routable.

(** ** The display actuator *)

Section Display.
Import DisplayOptimizer.

Lemma set_brightness_spec (env : Env) (self : t) (b : Z) :
  let ok := negb (uses_command self) || brightness_command_ok env in
  _set_brightness env self b
  = (if ok then set_current_brightness self (Z.max 10 (Z.min 100 b)) else self,
     ok).
Proof.
  unfold _set_brightness, _set_platform_brightness, uses_command.
  destruct (String.eqb (platform self) "windows");
    destruct (String.eqb (platform self) "linux");
    destruct (brightness_command_ok env); reflexivity.
Qed.

Lemma apply_brightness (env : Env) (self : t) (a : OptimizationAction) :
  action_type a = "brightness_adjust" ->
  let id := "display_brightness_adjust_" ++ time_time env in
  let ok := negb (uses_command self) || brightness_command_ok env in
  let previous := current_brightness self in
  let new := Z.max 10 (previous - Py.int (intensity a * 50)) in
  let remembered :=
    <[id := {| type := "brightness"; value := previous |}]>
      (previous_states self) in
  apply_optimization env self a
  = ({| is_enabled := is_enabled self;
        previous_states := remembered;
        platform := platform self;
        current_brightness :=
          if ok then Z.max 10 (Z.min 100 new) else previous;
        original_brightness := original_brightness self |},
     Return
       {| action_id := id;
          success := ok;
          error_message := if ok then None else Some "Failed to set brightness";
          previous_value := Some (VInt previous);
          new_value := Some (VInt (if ok then new else previous));
          result_estimated_savings := estimated_savings a;
          actual_impact := 0%Q |}).
Proof.
  intros Hk. cbv zeta. unfold apply_optimization. rewrite Hk.
  cbn [String.eqb Ascii.eqb Bool.eqb].
  rewrite set_brightness_spec. cbv zeta.
  unfold uses_command, set_previous_states, set_current_brightness.
  cbn [platform current_brightness previous_states is_enabled
       original_brightness].
  now destruct (negb _ || _).
Qed.

Lemma revert_brightness (env : Env) (self : t) (id : string) (previous : Z) :
  previous_states self !! id = Some {| type := "brightness"; value := previous |} ->
  let ok := negb (uses_command self) || brightness_command_ok env in
  let restored :=
    if ok then Z.max 10 (Z.min 100 previous) else current_brightness self in
  revert_optimization env self id
  = ({| is_enabled := is_enabled self;
        previous_states := delete id (previous_states self);
        platform := platform self;
        current_brightness := restored;
        original_brightness := original_brightness self |},
     Return
       {| action_id := id;
          success := ok;
          error_message :=
            if ok then None else Some "Failed to revert brightness";
          previous_value := None;
          new_value :=
            Some (VInt (if ok then previous else current_brightness self));
          result_estimated_savings := 0%Q;
          actual_impact := 0%Q |}).
Proof.
  intros Hs. cbv zeta. unfold revert_optimization. rewrite Hs.
  cbn [type value String.eqb Ascii.eqb Bool.eqb].
  rewrite set_brightness_spec. cbv zeta.
  unfold uses_command, set_previous_states, set_current_brightness.
  now destruct (negb _ || _).
Qed.

Lemma revert_unknown (env : Env) (self : t) (id : string) :
  previous_states self !! id = None ->
  revert_optimization env self id
  = (self, Return (failed id "Action not found in history")).
Proof. intros H. unfold revert_optimization. now rewrite H. Qed.

End Display.

(** C7. A brightness action of intensity 0.3 applied to a display at
    brightness 80 computes the reduction [int(0.3 * 50) = 15] and asks for
    [max(10, 80 - 15) = 65]; when the platform accepts it, the new brightness
    is 65, which is at least 10 and at most the previous value minus the
    reduction.  Reverting the id of that action then asks for 80 again, and a
    successful revert leaves the brightness at exactly 80.  Both calls
    succeed whenever the brightness command does, and always on a platform
    without one. *)
Theorem brightness_round_trip
    (env1 env2 : Env) (display : DisplayOptimizer.t) (a : OptimizationAction) :
  DisplayOptimizer.current_brightness display = 80 ->
  action_type a = "brightness_adjust" ->
  (intensity a == 0.3)%Q ->
  let reduction := Py.int (intensity a * 50) in
  reduction = 15
  /\ exists (applied : DisplayOptimizer.t) (r1 : ActionResult),
       DisplayOptimizer.apply_optimization env1 display a = (applied, Return r1)
       /\ previous_value r1 = Some (VInt 80)
       /\ (uses_command display = false \/ brightness_command_ok env1 = true ->
           success r1 = true)
       /\ (success r1 = true ->
           new_value r1 = Some (VInt 65)
           /\ DisplayOptimizer.current_brightness applied = 65
           /\ 10 <= DisplayOptimizer.current_brightness applied
           /\ DisplayOptimizer.current_brightness applied <= 80 - reduction)
       /\ exists (reverted : DisplayOptimizer.t) (r2 : ActionResult),
            DisplayOptimizer.revert_optimization env2 applied (action_id r1)
            = (reverted, Return r2)
            /\ (uses_command display = false \/ brightness_command_ok env2 = true ->
                success r2 = true)
            /\ (success r2 = true ->
                new_value r2 = Some (VInt 80)
                /\ DisplayOptimizer.current_brightness reverted = 80).
Proof.
  intros Hb Hk Hi reduction.
  assert (Hr : reduction = 15).
  { subst reduction. rewrite (int_Qeq _ 15); [reflexivity|]. rewrite Hi. lra. }
  split; [exact Hr|].
  rewrite (apply_brightness env1 display a Hk). fold reduction.
  rewrite Hb, Hr. do 2 eexists. split; [reflexivity|].
  cbn [previous_value success new_value action_id
       DisplayOptimizer.current_brightness].
  split; [reflexivity|]. split.
  { intros [->| ->]; [reflexivity|]. apply orb_true_r. }
  split.
  { intros ->. repeat split; try reflexivity; lia. }
  erewrite revert_brightness by (cbn; apply lookup_insert_eq).
  do 2 eexists. split; [reflexivity|].
  cbn [success new_value DisplayOptimizer.current_brightness]. split.
  { unfold uses_command. cbn [DisplayOptimizer.platform]. fold (uses_command display).
    intros [->| ->]; [reflexivity|]. apply orb_true_r. }
  intros ->. split; reflexivity.
Qed.

Lemma brightness_round_trip_witness :
  exists (applied reverted : DisplayOptimizer.t) (r1 r2 : ActionResult),
    DisplayOptimizer.apply_optimization all_ok (display_at "linux" 80)
      test_brightness
    = (applied, Return r1)
    /\ DisplayOptimizer.current_brightness applied = 65
    /\ DisplayOptimizer.revert_optimization all_ok applied (action_id r1)
       = (reverted, Return r2)
    /\ DisplayOptimizer.current_brightness reverted = 80.
Proof.
  destruct (brightness_round_trip all_ok all_ok (display_at "linux" 80)
              test_brightness eq_refl eq_refl ltac:(reflexivity))
    as (_ & applied & r1 & H1 & _ & Hok1 & Hnew & reverted & r2 & H2 & Hok2 & Hback).
  exists applied, reverted, r1, r2.
  split; [exact H1|]. split; [apply Hnew, Hok1; now right|].
  split; [exact H2|]. apply Hback, Hok2. now right.
Defined.

(** ** A brightness revert that fails *)

Section Orphan.
Import OptimizationActuator.

Lemma set_optimizer_same (self : t) (name : string) (o : Optimizer) :
  optimizers self !! name = Some o -> set_optimizer self name o = self.
Proof.
  intros H. destruct self as [opts act hist]. unfold set_optimizer.
  cbn in *. f_equal. now apply insert_id.
Qed.

Lemma revert_orphaned (env : Env) (self : t) (id : string) (info : active) :
  action_type (action info) = "brightness_adjust" ->
  orphaned id info self ->
  revert_action env self id
  = (self, Return (failed id "Action not found in history")).
Proof.
  intros Hk (Ha & d & Hd & Hp).
  unfold revert_action. rewrite Ha, Hk.
  cbn [Py.get optimizer_map String.eqb Ascii.eqb Bool.eqb mbind option_bind].
  rewrite Hd. cbn [default]. unfold call_revert.
  cbn [optimizer_class optimizer_self optimizer_state object
       revert_optimization DisplayOptimizer.optimizer].
  rewrite (revert_unknown env d id Hp). cbn [success failed].
  f_equal. now apply set_optimizer_same.
Qed.

Lemma orphaned_revert_action (env : Env) (self : t) (id other : string)
    (info : active) :
  action_type (action info) = "brightness_adjust" ->
  orphaned id info self ->
  orphaned id info (fst (revert_action env self other)).
Proof.
  intros Hk Ho.
  destruct (decide (other = id)) as [->|Hne].
  { now rewrite (revert_orphaned env self id info Hk Ho). }
  destruct Ho as (Ha & d & Hd & Hp).
  unfold revert_action.
  destruct (active_actions self !! other) as [info'|] eqn:Ha';
    [|cbn; split; [assumption|eauto]].
  destruct (Py.get optimizer_map (action_type (action info')))
    as [name|] eqn:Hn; cbn [mbind option_bind];
    [|cbn; split; [assumption|eauto]].
  destruct (optimizers self !! name) as [o|] eqn:Hopt;
    [|cbn; split; [assumption|eauto]].
  cbn [default]. unfold call_revert.
  destruct (decide (name = "display")) as [->|Hnd].
  - rewrite Hd in Hopt. injection Hopt as <-.
    cbn [optimizer_class optimizer_self optimizer_state object
         revert_optimization DisplayOptimizer.optimizer].
    assert (Hkeep :
      DisplayOptimizer.previous_states
        (fst (DisplayOptimizer.revert_optimization env d other)) !! id = None).
    { unfold DisplayOptimizer.revert_optimization.
      destruct (DisplayOptimizer.previous_states d !! other) as [st|];
        [|assumption].
      destruct (String.eqb (DisplayOptimizer.type st) "brightness");
        [|assumption].
      destruct (DisplayOptimizer._set_brightness env d
                  (DisplayOptimizer.value st)) as [d' ok] eqn:Hset.
      rewrite set_brightness_spec in Hset. injection Hset as <- _.
      cbn. rewrite lookup_delete_ne by congruence.
      now case_if. }
    destruct (DisplayOptimizer.revert_optimization env d other)
      as [d' [r|e]]; cbn [fst] in Hkeep.
    + unfold orphaned. destruct (success r); cbn; (split;
        [ rewrite ?lookup_delete_ne by congruence; assumption
        | exists d'; split; [apply lookup_insert_eq | assumption] ]).
    + unfold orphaned. cbn. split; [assumption|].
      exists d'. split; [apply lookup_insert_eq | assumption].
  - destruct (@revert_optimization _ (optimizer_class o) env (optimizer_self o)
                other) as [s [r|e]].
    + unfold orphaned. destruct (success r); cbn; (split;
        [ rewrite ?lookup_delete_ne by congruence; assumption
        | exists d; split; [now rewrite lookup_insert_ne | assumption] ]).
    + unfold orphaned. cbn. split; [assumption|].
      exists d. split; [now rewrite lookup_insert_ne | assumption].
Qed.

Lemma orphaned_apply_step (env : Env) (self : t) (id : string)
    (info : active) (results : list ActionResult) (a : OptimizationAction) :
  orphaned id info self ->
  action_id (recorded env self a) <> id ->
  orphaned id info (fst (apply_step env self results a)).
Proof.
  intros (Ha & d & Hd & Hp) Hid.
  unfold recorded in Hid. unfold apply_step.
  unfold _apply_single_action in *.
  destruct (Py.get optimizer_map (action_type a)) as [name|] eqn:Hn;
    [|cbn; split; [assumption|eauto]].
  destruct (optimizers self !! name) as [o|] eqn:Hopt;
    [|cbn; split; [assumption|eauto]].
  destruct (negb _); [cbn; split; [assumption|eauto]|].
  unfold call_apply in *.
  destruct (decide (name = "display")) as [->|Hnd].
  - rewrite Hd in Hopt. injection Hopt as <-.
    cbn [optimizer_class optimizer_self optimizer_state object
         apply_optimization DisplayOptimizer.optimizer] in *.
    assert (Hkeep :
      match snd (DisplayOptimizer.apply_optimization env d a) with
      | Return r =>
          action_id r <> id ->
          DisplayOptimizer.previous_states
            (fst (DisplayOptimizer.apply_optimization env d a)) !! id = None
      | Raise _ => False
      end).
    { unfold DisplayOptimizer.apply_optimization.
      destruct (String.eqb (action_type a) "brightness_adjust");
        [|intros _; assumption].
      rewrite set_brightness_spec. cbn [snd fst action_id].
      intros Hne. case_if; cbn; now rewrite lookup_insert_ne. }
    destruct (DisplayOptimizer.apply_optimization env d a) as [d' [r|e]];
      cbn [fst snd] in *; [|contradiction].
    specialize (Hkeep Hid). unfold orphaned.
    destruct (success r); cbn; (split;
      [ rewrite ?lookup_insert_ne by congruence; assumption
      | exists d'; split; [apply lookup_insert_eq | assumption] ]).
  - destruct (@apply_optimization _ (optimizer_class o) env (optimizer_self o)
                a) as [s [r|e]]; cbn [fst snd] in *; unfold orphaned.
    + destruct (success r); cbn; (split;
        [ rewrite ?lookup_insert_ne by congruence; assumption
        | exists d; split; [now rewrite lookup_insert_ne | assumption] ]).
    + cbn. split; [assumption|].
      exists d. split; [now rewrite lookup_insert_ne | assumption].
Qed.

Lemma orphaned_apply_loop (envs : nat -> Env) (id : string) (info : active)
    (actions : list OptimizationAction) :
  forall (i : nat) (self : t) (results : list ActionResult),
    orphaned id info self ->
    Forall (fun r => action_id r <> id)
      (snd (apply_loop envs i self [] actions)) ->
    orphaned id info (fst (apply_loop envs i self results actions)).
Proof.
  induction actions as [|a rest IH]; intros i self results Ho Hall;
    [exact Ho|].
  cbn in *.
  pose proof (apply_step_results (envs i) self [] a) as Hr0.
  pose proof (apply_step_state (envs i) self results a) as Hs.
  pose proof (orphaned_apply_step (envs i) self id info [] a Ho) as Hstep.
  destruct (apply_step (envs i) self [] a) as [s0 r0].
  destruct (apply_step (envs i) self results a) as [s1 r1].
  cbn in Hr0, Hs, Hstep. subst r0 s1.
  rewrite apply_loop_split in Hall. cbn in Hall.
  apply Forall_cons_iff in Hall as [Hhd Htl].
  apply IH; [now apply Hstep|exact Htl].
Qed.

Lemma orphaned_apply_actions (envs : nat -> Env) (self : t) (id : string)
    (info : active) (actions : list OptimizationAction) :
  orphaned id info self ->
  Forall (fun r => action_id r <> id) (snd (apply_actions envs self actions)) ->
  orphaned id info (fst (apply_actions envs self actions)).
Proof.
  intros Ho Hall. rewrite apply_actions_results in Hall.
  pose proof (orphaned_apply_loop envs id info actions 0%nat self [] Ho Hall)
    as H.
  unfold apply_actions.
  destruct (apply_loop envs 0%nat self [] actions) as [s r]. cbn in *.
  case_if; exact H.
Qed.

Lemma orphaned_after_calls (calls : list call) :
  forall (self : t) (id : string) (info : active),
    action_type (action info) = "brightness_adjust" ->
    orphaned id info self ->
    never_reissued id calls self ->
    orphaned id info (after_calls calls self).
Proof.
  induction calls as [|c calls IH]; intros self id info Hk Ho Hfresh;
    [exact Ho|].
  cbn in Hfresh. destruct Hfresh as [Hc Hrest].
  cbn. apply IH; [exact Hk| |exact Hrest].
  destruct c as [env other|envs actions]; cbn.
  - now apply orphaned_revert_action.
  - now apply orphaned_apply_actions.
Qed.

End Orphan.

(** C9. The display actuator forgets the previous state of an id as soon
    as it has tried to restore it, whether or not the platform accepted the
    brightness.  So when the revert of an active brightness action fails, the
    result is a failure, the record stays in the active map of the executor,
    and from then on, whatever reverts and batches come in between (no
    actuator generating the same id again), every revert of that id fails
    with "Action not found in history" and leaves the executor as it is, the
    record still active. *)
Theorem failed_brightness_revert_orphans_action
    (env : Env) (self : OptimizationActuator.t) (id : string)
    (info : OptimizationActuator.active) (display : DisplayOptimizer.t)
    (previous : Z) :
  OptimizationActuator.active_actions self !! id = Some info ->
  action_type (OptimizationActuator.action info) = "brightness_adjust" ->
  OptimizationActuator.optimizers self !! "display" = Some (object display) ->
  DisplayOptimizer.previous_states display !! id
  = Some {| DisplayOptimizer.type := "brightness";
            DisplayOptimizer.value := previous |} ->
  (forall env0 : Env,
     DisplayOptimizer.previous_states
       (fst (DisplayOptimizer.revert_optimization env0 display id)) !! id
     = None)
  /\ (uses_command display = true ->
      brightness_command_ok env = false ->
      let out := OptimizationActuator.revert_action env self id in
      (exists r : ActionResult,
         snd out = Return r
         /\ success r = false
         /\ error_message r = Some "Failed to revert brightness")
      /\ OptimizationActuator.active_actions (fst out) !! id = Some info
      /\ forall (later : list call) (env' : Env),
           never_reissued id later (fst out) ->
           let self' := after_calls later (fst out) in
           OptimizationActuator.active_actions self' !! id = Some info
           /\ OptimizationActuator.revert_action env' self' id
              = (self', Return (failed id "Action not found in history"))).
Proof.
  intros Ha Hk Hd Hp. split.
  { intros env0. rewrite (revert_brightness env0 display id previous Hp).
    cbn. apply lookup_delete_eq. }
  intros Hu Hc out.
  assert (Hout :
    out = (OptimizationActuator.set_optimizer self "display"
             (object (fst (DisplayOptimizer.revert_optimization env display id))),
           snd (DisplayOptimizer.revert_optimization env display id))
    /\ exists r, snd out = Return r /\ success r = false
                 /\ error_message r = Some "Failed to revert brightness").
  { subst out. unfold OptimizationActuator.revert_action. rewrite Ha, Hk.
    cbn [Py.get OptimizationActuator.optimizer_map String.eqb Ascii.eqb
         Bool.eqb mbind option_bind].
    rewrite Hd. cbn [default]. unfold OptimizationActuator.call_revert.
    cbn [optimizer_class optimizer_self optimizer_state object
         revert_optimization DisplayOptimizer.optimizer].
    rewrite (revert_brightness env display id previous Hp).
    rewrite Hu, Hc. cbn. split; [reflexivity|]. eexists. now split. }
  destruct Hout as [Hout Hfail]. split; [exact Hfail|].
  assert (Ho : orphaned id info (fst out)).
  { rewrite Hout. cbn. split; [exact Ha|].
    eexists. split; [apply lookup_insert_eq|].
    rewrite (revert_brightness env display id previous Hp). cbn.
    apply lookup_delete_eq. }
  split; [apply Ho|].
  intros later env' Hfresh self'.
  pose proof (orphaned_after_calls later (fst out) id info Hk Ho Hfresh)
    as Ho'.
  fold self' in Ho'. split; [apply Ho'|].
  now apply (revert_orphaned env' self' id info).
Qed.

Lemma failed_brightness_revert_orphans_action_witness :
  let out :=
    OptimizationActuator.revert_action brightness_fails applied_on_linux
      test_brightness_id in
  let later :=
    [ applying (fun _ => brightness_fails) [test_throttle; test_brightness];
      reverting all_ok "cpu_cpu_throttle_1700000005.5" ] in
  (exists r : ActionResult, snd out = Return r /\ success r = false)
  /\ OptimizationActuator.active_actions (after_calls later (fst out))
       !! test_brightness_id <> None
  /\ snd (OptimizationActuator.revert_action all_ok
            (after_calls later (fst out)) test_brightness_id)
     = Return (failed test_brightness_id "Action not found in history").
Proof.
  intros out later.
  edestruct (failed_brightness_revert_orphans_action brightness_fails
               applied_on_linux test_brightness_id)
    as [_ H].
  - vm_compute. reflexivity.
  - vm_compute. reflexivity.
  - vm_compute. reflexivity.
  - vm_compute. reflexivity.
  - destruct (H eq_refl eq_refl) as ((r & Hr & Hs & _) & _ & Hlater).
    fold out in Hr, Hlater.
    split; [now exists r|].
    destruct (Hlater later all_ok) as [Hact Hagain].
    { subst later out. cbn [never_reissued]. split; [|now split].
      vm_compute. repeat constructor; discriminate. }
    split; [congruence|]. now rewrite Hagain.
Defined.

(** ** The emergency watchdog *)

Section Watchdog.
Import AgentController.

Lemma emergency_actions_filtered_out (self : t) (mode : mode_config) :
  optimization_modes (configuration self) !! optimization_mode (agent_state self)
  = Some mode ->
  (max_intensity mode < 0.8)%Q ->
  _filter_actions_by_mode self emergency_actions = Return [].
Proof.
  intros Hm Hlt. unfold _filter_actions_by_mode. rewrite Hm.
  unfold emergency_actions, filter_loop.
  cbn [intensity].
  assert (H9 : Py.gt 0.9 (max_intensity mode) = true) by (apply gt_true; lra).
  assert (H8 : Py.gt 0.8 (max_intensity mode) = true) by (apply gt_true; lra).
  now rewrite H9, H8.
Qed.

End Watchdog.

(** C4. On the ingestion of a snapshot: with the battery at or below the
    emergency threshold and the flag down, the flag goes up and the fixed
    bundle, a brightness action of intensity 0.9 and a CPU throttle of
    intensity 0.8, goes to the executor as it is, also under a mode whose
    filter would reject both; with the battery above the threshold and the
    flag up, the flag goes down and the executor, with its active actions, is
    left as it was.  In the two other cases neither changes. *)
Theorem emergency_watchdog
    (envs : nat -> Env) (self : AgentController.t) (metrics : SystemMetrics) :
  let self' := AgentController._on_metrics_update envs self metrics in
  let battery := battery_percent metrics in
  let threshold := AgentController.min_battery_threshold self in
  let flag := AgentController.emergency_mode in
  ((battery <= threshold)%Q -> flag self = false ->
   flag self' = true
   /\ AgentController.actuator self'
      = fst (OptimizationActuator.apply_actions envs
               (AgentController.actuator self)
               AgentController.emergency_actions))
  /\ ((threshold < battery)%Q -> flag self = true ->
      flag self' = false
      /\ AgentController.actuator self' = AgentController.actuator self)
  /\ (((battery <= threshold)%Q /\ flag self = true
       \/ (threshold < battery)%Q /\ flag self = false) ->
      flag self' = flag self
      /\ AgentController.actuator self' = AgentController.actuator self)
  /\ map (fun a => (action_type a, intensity a))
       AgentController.emergency_actions
     = [("brightness_adjust", 0.9%Q); ("cpu_throttle", 0.8%Q)]
  /\ (forall mode : AgentController.mode_config,
        AgentController.optimization_modes (AgentController.configuration self)
          !! AgentController.optimization_mode
               (AgentController.agent_state self)
        = Some mode ->
        (AgentController.max_intensity mode < 0.8)%Q ->
        AgentController._filter_actions_by_mode self
          AgentController.emergency_actions
        = Return []).
Proof.
  intros self' battery threshold flag.
  assert (Hstep :
    (Py.le battery threshold = true ->
     self' = AgentController.put
               (if negb (flag self)
                then AgentController._apply_emergency_optimizations envs
                       (AgentController.set_emergency_mode
                          (AgentController.set_battery_level self
                             (AgentController.battery_level
                                (AgentController.agent_state self')))
                          true)
                else AgentController.set_battery_level self
                       (AgentController.battery_level
                          (AgentController.agent_state self')))
               metrics)
    /\ (Py.le battery threshold = false ->
        self' = AgentController.put
                  (if flag self
                   then AgentController.set_emergency_mode
                          (AgentController.set_battery_level self
                             (AgentController.battery_level
                                (AgentController.agent_state self')))
                          false
                   else AgentController.set_battery_level self
                          (AgentController.battery_level
                             (AgentController.agent_state self')))
                  metrics)).
  { subst self' battery threshold flag.
    unfold AgentController._on_metrics_update.
    split; intros E;
      repeat (case_if; cbn in *; try congruence);
      unfold AgentController._apply_emergency_optimizations in *;
      cbn in *;
      repeat match goal with
             | |- context [OptimizationActuator.apply_actions ?e ?s ?l] =>
                 destruct (OptimizationActuator.apply_actions e s l)
             end; cbn in *; congruence. }
  destruct Hstep as [Hle Hgt].
  split; [|split; [|split; [|split]]].
  - intros H Hf. apply le_true in H. rewrite (Hle H), Hf. cbn.
    unfold AgentController._apply_emergency_optimizations. cbn.
    destruct (OptimizationActuator.apply_actions envs
                (AgentController.actuator self)
                AgentController.emergency_actions). now cbn.
  - intros H Hf. apply le_false in H. rewrite (Hgt H), Hf. now cbn.
  - intros [[H Hf]|[H Hf]].
    + apply le_true in H. rewrite (Hle H), Hf. now cbn.
    + apply le_false in H. rewrite (Hgt H), Hf. now cbn.
  - reflexivity.
  - intros mode. apply emergency_actions_filtered_out.
Qed.

(** ** The merge of the two tiers *)

Lemma NoDup_snoc {A} (l : list A) (x : A) :
  List.NoDup l -> ~ In x l -> List.NoDup (l ++ [x]).
Proof.
  induction l as [|y l IH]; cbn; intros Hnd Hx.
  - constructor; [intros []|constructor].
  - inversion Hnd as [|? ? Hy Hnd']; subst. constructor.
    + rewrite in_app_iff. cbn. intros [?|[?|[]]]; [tauto|subst; tauto].
    + apply IH; tauto.
Qed.

Section Dictionary.
Context {A : Type}.
Implicit Types (d : list (string * A)) (k : string) (v : A).

Lemma get_set d k v (k' : string) :
  Py.get (Py.set d k v) k' = if String.eqb k' k then Some v else Py.get d k'.
Proof.
  induction d as [|[k0 v0] d IH]; cbn.
  - reflexivity.
  - destruct (String.eqb_spec k k0) as [->|Hk]; cbn.
    + now destruct (String.eqb k' k0).
    + rewrite IH.
      destruct (String.eqb_spec k' k0) as [E1|E1];
        destruct (String.eqb_spec k' k) as [E2|E2]; congruence.
Qed.

Lemma get_None_keys d k : Py.get d k = None <-> ~ In k (Py.keys d).
Proof.
  unfold Py.keys. induction d as [|[k0 v0] d IH]; cbn.
  - tauto.
  - destruct (String.eqb_spec k k0) as [->|Hk].
    + split; [discriminate|]. intros H. exfalso. apply H. now left.
    + rewrite IH. split; intros H; [intros [?|?]; [congruence|tauto]|tauto].
Qed.

Lemma keys_set d k v :
  Py.keys (Py.set d k v)
  = match Py.get d k with
    | Some _ => Py.keys d
    | None => (Py.keys d ++ [k])%list
    end.
Proof.
  induction d as [|[k0 v0] d IH]; cbn.
  - reflexivity.
  - destruct (String.eqb_spec k k0) as [->|Hk]; cbn; [reflexivity|].
    fold (Py.keys (Py.set d k v)). rewrite IH.
    now destruct (Py.get d k).
Qed.

Lemma In_set d k v (kv : string * A) :
  In kv (Py.set d k v) -> kv = (k, v) \/ In kv d.
Proof.
  induction d as [|[k0 v0] d IH]; cbn.
  - intros [<-|[]]. now left.
  - destruct (String.eqb_spec k k0) as [->|Hk]; cbn.
    + intros [<-|H]; auto.
    + intros [<-|H]; auto. destruct (IH H); auto.
Qed.

Lemma get_In d k v : Py.get d k = Some v -> In (k, v) d.
Proof.
  induction d as [|[k0 v0] d IH]; cbn; [discriminate|].
  destruct (String.eqb_spec k k0) as [->|Hk].
  - intros [= ->]. now left.
  - intros H. right. now apply IH.
Qed.

Lemma In_get d k v :
  List.NoDup (Py.keys d) -> In (k, v) d -> Py.get d k = Some v.
Proof.
  induction d as [|[k0 v0] d IH]; cbn; [tauto|].
  intros Hnd [[= -> ->]|Hin].
  - now rewrite String.eqb_refl.
  - inversion Hnd as [|? ? Hnot Hnd']; subst.
    destruct (String.eqb_spec k k0) as [->|Hk]; [|now apply IH].
    exfalso. apply Hnot. change k0 with (fst (k0, v)). now apply in_map.
Qed.

End Dictionary.

Section Merge.
Import BatteryOptimizationAgent.
Implicit Types (d : list (string * OptimizationAction)) (k : string).
Implicit Types (a c e m r : OptimizationAction).

Lemma get_add_ml d a k : Py.get (add_ml d a) k = pick k (Py.get d k) a.
Proof.
  unfold add_ml, pick. rewrite get_set. now rewrite String.eqb_sym.
Qed.

Lemma get_add_rule d r k : Py.get (add_rule d r) k = contest k (Py.get d k) r.
Proof.
  unfold add_rule, contest.
  destruct (String.eqb_spec (key r) k) as [<-|Hk].
  - destruct (Py.get d (key r)) as [e|] eqn:E.
    + destruct (Py.lt (intensity r) (intensity e)); [|exact E].
      now rewrite get_set, String.eqb_refl.
    + now rewrite get_set, String.eqb_refl.
  - assert (Hk' : String.eqb k (key r) = false)
      by (apply String.eqb_neq; congruence).
    destruct (Py.get d (key r)) as [e|].
    + destruct (Py.lt (intensity r) (intensity e)); [|reflexivity].
      now rewrite get_set, Hk'.
    + now rewrite get_set, Hk'.
Qed.

Lemma get_fold_ml (tier : list OptimizationAction) :
  forall d k,
    Py.get (fold_left add_ml tier d) k = fold_left (pick k) tier (Py.get d k).
Proof.
  induction tier as [|a tier IH]; intros d k; cbn; [reflexivity|].
  now rewrite IH, get_add_ml.
Qed.

Lemma get_fold_rule (tier : list OptimizationAction) :
  forall d k,
    Py.get (fold_left add_rule tier d) k
    = fold_left (contest k) tier (Py.get d k).
Proof.
  induction tier as [|a tier IH]; intros d k; cbn; [reflexivity|].
  now rewrite IH, get_add_rule.
Qed.

Lemma filed_set d a : filed d -> filed (Py.set d (key a) a).
Proof.
  intros [Hnd Hall]. split.
  - rewrite keys_set. destruct (Py.get d (key a)) eqn:E; [exact Hnd|].
    apply get_None_keys in E.
    now apply NoDup_snoc.
  - apply List.Forall_forall. intros kv Hin.
    apply In_set in Hin as [->|Hin]; [reflexivity|].
    now apply (proj1 (List.Forall_forall _ _) Hall).
Qed.

Lemma filed_add_ml d a : filed d -> filed (add_ml d a).
Proof. apply filed_set. Qed.

Lemma filed_add_rule d r : filed d -> filed (add_rule d r).
Proof.
  intros H. unfold add_rule.
  destruct (Py.get d (key r)) as [e|]; [|now apply filed_set].
  destruct (Py.lt _ _); [now apply filed_set|exact H].
Qed.

Lemma filed_fold (step : list (string * OptimizationAction)
                         -> OptimizationAction
                         -> list (string * OptimizationAction))
    (tier : list OptimizationAction) :
  (forall d a, filed d -> filed (step d a)) ->
  forall d, filed d -> filed (fold_left step tier d).
Proof.
  intros Hstep. induction tier as [|a tier IH]; intros d Hd; cbn; auto.
Qed.

Lemma filed_values d a :
  filed d -> (In a (Py.values d) <-> Py.get d (key a) = Some a).
Proof.
  intros [Hnd Hall]. unfold Py.values. split.
  - intros Hin. apply in_map_iff in Hin as ([k v] & Hv & Hin).
    cbn in Hv. subst v.
    pose proof (proj1 (List.Forall_forall _ _) Hall _ Hin) as Hk. cbn in Hk.
    subst k. now apply In_get.
  - intros Hg. apply get_In in Hg.
    change a with (snd (key a, a)). now apply in_map.
Qed.

Lemma filed_keys d : filed d -> map key (Py.values d) = Py.keys d.
Proof.
  intros [_ Hall]. unfold Py.values, Py.keys. rewrite map_map.
  apply map_ext_in. intros kv Hin.
  exact (proj1 (List.Forall_forall _ _) Hall _ Hin).
Qed.

(** The dictionary that [_combine_actions] has built. *)
Lemma combine_lookup (ml_actions rule_actions : list OptimizationAction) :
  let d := fold_left add_rule rule_actions (fold_left add_ml ml_actions []) in
  _combine_actions ml_actions rule_actions = Py.values d
  /\ filed d
  /\ forall k,
       Py.get d k
       = fold_left (contest k) rule_actions (fold_left (pick k) ml_actions None).
Proof.
  cbv zeta. split; [reflexivity|]. split.
  - apply filed_fold; [apply filed_add_rule|].
    apply filed_fold; [apply filed_add_ml|].
    split; [constructor|constructor].
  - intros k. now rewrite get_fold_rule, get_fold_ml.
Qed.

End Merge.

Section Entries.
Import BatteryOptimizationAgent.
Implicit Types (k : string) (a c e m r : OptimizationAction).
Implicit Types (tier : list OptimizationAction).
Implicit Types (cur : option OptimizationAction).

Lemma pick_free tier k cur :
  (forall a, In a tier -> key a <> k) -> fold_left (pick k) tier cur = cur.
Proof.
  revert cur. induction tier as [|a tier IH]; intros cur H; cbn; [reflexivity|].
  rewrite IH by (intros; apply H; now right).
  unfold pick. destruct (String.eqb_spec (key a) k) as [E|E]; [|reflexivity].
  exfalso. apply (H a); [now left|exact E].
Qed.

Lemma pick_last l1 c l2 cur :
  (forall a, In a l2 -> key a <> key c) ->
  fold_left (pick (key c)) (l1 ++ c :: l2) cur = Some c.
Proof.
  intros H. rewrite fold_left_app. cbn.
  rewrite pick_free by exact H.
  unfold pick. now rewrite String.eqb_refl.
Qed.

Lemma pick_from tier k cur a :
  fold_left (pick k) tier cur = Some a ->
  cur = Some a \/ (In a tier /\ key a = k).
Proof.
  revert cur. induction tier as [|b tier IH]; intros cur H; cbn in *;
    [now left|].
  destruct (IH _ H) as [Hc|[Hin Hk]]; [|right; split; [now right|exact Hk]].
  unfold pick in Hc.
  destruct (String.eqb_spec (key b) k) as [E|E]; [|now left].
  injection Hc as ->. right. split; [now left|exact E].
Qed.

Lemma contest_free tier k cur :
  (forall r, In r tier -> key r <> k) -> fold_left (contest k) tier cur = cur.
Proof.
  revert cur. induction tier as [|a tier IH]; intros cur H; cbn; [reflexivity|].
  rewrite IH by (intros; apply H; now right).
  unfold contest. destruct (String.eqb_spec (key a) k) as [E|E]; [|reflexivity].
  exfalso. apply (H a); [now left|exact E].
Qed.

Lemma contest_from tier k cur m :
  fold_left (contest k) tier cur = Some m -> cur = Some m \/ In m tier.
Proof.
  revert cur. induction tier as [|b tier IH]; intros cur H; cbn in *;
    [now left|].
  destruct (IH _ H) as [Hc|Hin]; [|right; now right].
  unfold contest in Hc.
  destruct (String.eqb (key b) k); [|now left].
  destruct cur as [e|].
  - destruct (Py.lt (intensity b) (intensity e)).
    + injection Hc as ->. right. now left.
    + now left.
  - injection Hc as ->. right. now left.
Qed.

(** An entry that is held ends with a holder of least intensity: the
    first holder, or a rule action strictly below it. *)
Lemma contest_held tier k :
  forall e,
    exists m,
      fold_left (contest k) tier (Some e) = Some m
      /\ (m = e \/ (In m tier /\ key m = k /\ intensity m < intensity e)%Q)
      /\ (forall r, In r tier -> key r = k -> (intensity m <= intensity r)%Q)
      /\ (intensity m <= intensity e)%Q.
Proof.
  induction tier as [|b tier IH]; intros e; cbn.
  { exists e. split; [reflexivity|]. split; [now left|].
    split; [intros ? []|apply Qle_refl]. }
  unfold contest at 2.
  destruct (String.eqb_spec (key b) k) as [E|E].
  - destruct (Py.lt (intensity b) (intensity e)) eqn:L.
    + apply lt_true in L.
      destruct (IH b) as (m & Hm & Hor & Hmin & Hle).
      exists m. split; [exact Hm|]. split; [|split].
      * right. destruct Hor as [->|(Hin & Hk & Hlt)].
        -- split; [now left|]. now split.
        -- split; [now right|]. split; [exact Hk|]. lra.
      * intros r [<-|Hin] Hk; [exact Hle|now apply Hmin].
      * lra.
    + apply lt_false in L.
      destruct (IH e) as (m & Hm & Hor & Hmin & Hle).
      exists m. split; [exact Hm|]. split; [|split].
      * destruct Hor as [->|(Hin & Hk & Hlt)]; [now left|].
        right. split; [now right|]. now split.
      * intros r [<-|Hin] Hk; [lra|now apply Hmin].
      * exact Hle.
  - destruct (IH e) as (m & Hm & Hor & Hmin & Hle).
    exists m. split; [exact Hm|]. split; [|split].
    + destruct Hor as [->|(Hin & Hk & Hlt)]; [now left|].
      right. split; [now right|]. now split.
    + intros r [<-|Hin] Hk; [congruence|now apply Hmin].
    + exact Hle.
Qed.

Lemma contest_first l1 r l2 :
  (forall a, In a l1 -> key a <> key r) ->
  fold_left (contest (key r)) (l1 ++ r :: l2) None
  = fold_left (contest (key r)) l2 (Some r).
Proof.
  intros H. rewrite fold_left_app. cbn.
  rewrite (contest_free l1) by exact H.
  f_equal. unfold contest. now rewrite String.eqb_refl.
Qed.

Lemma contest_some tier k cur :
  (exists e, cur = Some e) \/ (exists r, In r tier /\ key r = k) ->
  exists m, fold_left (contest k) tier cur = Some m.
Proof.
  revert cur. induction tier as [|b tier IH]; intros cur H; cbn.
  - destruct H as [[e ->]|(r & [] & _)]. now exists e.
  - apply IH. unfold contest.
    destruct (String.eqb_spec (key b) k) as [E|E].
    + left. destruct cur as [e|]; [|now exists b].
      destruct (Py.lt _ _); eauto.
    + destruct H as [H|(r & [<-|Hin] & Hk)]; [now left|congruence|].
      right. now exists r.
Qed.

Lemma pick_some tier k a :
  In a tier -> key a = k -> exists m, fold_left (pick k) tier None = Some m.
Proof.
  intros Hin Hk. apply in_split in Hin as (l1 & l2 & ->).
  rewrite fold_left_app. cbn. unfold pick at 2.
  rewrite <- Hk, String.eqb_refl.
  assert (G : forall l cur, cur <> None ->
                exists m, fold_left (pick (key a)) l cur = Some m).
  { induction l as [|b l IH]; intros cur Hc; cbn.
    - destruct cur as [m|]; [now exists m|congruence].
    - apply IH. unfold pick.
      destruct (String.eqb _ _); [discriminate|exact Hc]. }
  apply G. discriminate.
Qed.

End Entries.

Section Policy.
Import BatteryOptimizationAgent.
Implicit Types (a c e m r : OptimizationAction).

Lemma slot_key a b : slot a = slot b -> key a = key b.
Proof. unfold slot, key. now intros [= -> ->]. Qed.

Lemma routed_kinds a :
  kind_routed a ->
  action_type a = "brightness_adjust" \/ action_type a = "cpu_throttle"
  \/ action_type a = "network_limit" \/ action_type a = "app_throttle"
  \/ action_type a = "background_limit".
Proof.
  unfold kind_routed, OptimizationActuator.optimizer_map. cbn [Py.get].
  repeat match goal with
         | |- context [String.eqb ?x ?y] =>
             destruct (String.eqb_spec x y); [tauto|]
         end.
  congruence.
Qed.

(** On the kinds of the routing table the key decides the slot. *)
Lemma key_slot a b :
  kind_routed a -> kind_routed b -> key a = key b -> slot a = slot b.
Proof.
  intros Ha Hb. apply routed_kinds in Ha, Hb.
  unfold key, slot.
  destruct Ha as [->|[->|[->|[->| ->]]]];
    destruct Hb as [->|[->|[->|[->| ->]]]];
    intros E; cbv [String.append] in E; congruence.
Qed.

Lemma NoDup_map_coarser {A B C} (f : A -> B) (g : A -> C) (l : list A) :
  (forall x y, g x = g y -> f x = f y) ->
  List.NoDup (map f l) -> List.NoDup (map g l).
Proof.
  intros H. induction l as [|x l IH]; cbn; intros Hnd; [constructor|].
  inversion Hnd as [|? ? Hx Hnd']; subst. constructor; [|now apply IH].
  intros Hin. apply Hx. apply in_map_iff in Hin as (y & Hy & Hin).
  apply in_map_iff. exists y. split; [|exact Hin]. now apply H.
Qed.

(** The policy of the merge, in terms of the keys of the dictionary. *)
Lemma combine_by_key (ml_actions rule_actions : list OptimizationAction) :
  let merged := _combine_actions ml_actions rule_actions in
  List.NoDup (map key merged)
  /\ (forall a, In a merged -> In a ml_actions \/ In a rule_actions)
  /\ (forall a, In a ml_actions \/ In a rule_actions ->
        exists m, In m merged /\ key m = key a)
  /\ (forall l1 c l2,
        ml_actions = (l1 ++ c :: l2)%list ->
        (forall a, In a l2 -> key a <> key c) ->
        (In c merged
         <-> forall r, In r rule_actions -> key r = key c ->
                       ~ (intensity r < intensity c)%Q)
        /\ ((exists r, In r rule_actions /\ key r = key c
                       /\ (intensity r < intensity c)%Q) ->
            exists r', In r' rule_actions /\ In r' merged /\ key r' = key c
                       /\ (intensity r' < intensity c)%Q))
  /\ (forall l1 r l2,
        rule_actions = (l1 ++ r :: l2)%list ->
        (forall a, In a (ml_actions ++ l1) -> key a <> key r) ->
        (forall r', In r' l2 -> key r' = key r ->
                    ~ (intensity r' < intensity r)%Q) ->
        In r merged).
Proof.
  intros merged.
  destruct (combine_lookup ml_actions rule_actions) as (Hm & Hf & Hget).
  cbv zeta in Hm, Hf, Hget. fold merged in Hm.
  set (d := fold_left add_rule rule_actions (fold_left add_ml ml_actions []))
    in *.
  assert (Hin : forall a, In a merged
                          <-> fold_left (contest (key a)) rule_actions
                                (fold_left (pick (key a)) ml_actions None)
                              = Some a).
  { intros a. rewrite Hm, (filed_values d a Hf). now rewrite Hget. }
  split; [|split; [|split; [|split]]].
  - rewrite Hm, (filed_keys d Hf). apply Hf.
  - intros a Ha. apply Hin in Ha.
    apply contest_from in Ha as [Ha|Ha]; [|now right].
    apply pick_from in Ha as [Ha|[Ha _]]; [discriminate|now left].
  - intros a Ha.
    destruct (contest_some rule_actions (key a)
                (fold_left (pick (key a)) ml_actions None)) as [m Hmk].
    { destruct Ha as [Ha|Ha]; [left|right; now exists a].
      now apply (pick_some ml_actions (key a) a). }
    rewrite <- Hget in Hmk. exists m.
    pose proof (get_In _ _ _ Hmk) as Hd.
    pose proof (proj1 (List.Forall_forall _ _) (proj2 Hf) _ Hd) as Hk.
    cbn in Hk. split; [|exact Hk].
    rewrite Hm. change m with (snd (key a, m)). now apply in_map.
  - intros l1 c l2 -> Hl2.
    destruct (contest_held rule_actions (key c) c)
      as (m & Hfold & Hor & Hmin & Hle).
    assert (Hc : forall x, key x = key c ->
                   (In x merged <-> m = x)).
    { intros x Hx. rewrite Hin, Hx, (pick_last l1 c l2 None Hl2), Hfold.
      split; congruence. }
    split.
    + rewrite (Hc c eq_refl). split.
      * intros -> r Hr Hk Hlt. specialize (Hmin r Hr Hk). lra.
      * intros Hno. destruct Hor as [Hor|(Hr & Hk & Hlt)]; [exact Hor|].
        exfalso. exact (Hno m Hr Hk Hlt).
    + intros (r & Hr & Hk & Hlt).
      destruct Hor as [->|(Hmr & Hmk & Hmlt)].
      * specialize (Hmin r Hr Hk). lra.
      * exists m. split; [exact Hmr|]. split; [now apply (Hc m Hmk)|].
        now split.
  - intros l1 r l2 -> Hfree Hlater.
    apply Hin.
    rewrite pick_free by (intros a Ha; apply Hfree, in_or_app; now left).
    rewrite contest_first
      by (intros a Ha; apply Hfree, in_or_app; now right).
    destruct (contest_held l2 (key r) r) as (m & Hfold & Hor & _).
    rewrite Hfold. destruct Hor as [->|(Hmr & Hmk & Hmlt)]; [reflexivity|].
    exfalso. exact (Hlater m Hmr Hmk Hmlt).
Qed.

End Policy.

Lemma combine_pair (c r : OptimizationAction) :
  BatteryOptimizationAgent.key r = BatteryOptimizationAgent.key c ->
  (intensity r < intensity c)%Q ->
  BatteryOptimizationAgent._combine_actions [c] [r] = [r].
Proof.
  intros Hk Hlt. unfold BatteryOptimizationAgent._combine_actions.
  cbn [fold_left]. unfold BatteryOptimizationAgent.add_ml. cbn [Py.set].
  unfold BatteryOptimizationAgent.add_rule. cbn [Py.get].
  rewrite Hk, String.eqb_refl.
  apply lt_true in Hlt. rewrite Hlt. cbn [Py.set].
  now rewrite String.eqb_refl.
Qed.

(** C2. The merge keys every action by its kind and target, for actions
    whose kinds are those of the routing table.  The result holds one action
    per key, each taken from one of the tiers, and every key of either tier
    is present.  The action that the classifier proposes for a key is kept
    exactly when no rule action of that key has a strictly lower intensity;
    otherwise a rule action of that key, of strictly lower intensity, stands
    in its place.  A rule action whose key neither the classifier nor an
    earlier rule action claimed is added as it is, and stays unless a later
    rule action of its key undercuts it.  In particular a classifier
    brightness action on the display of intensity 0.5 merged with a rule
    action of the same key of intensity 0.3 gives the rule action alone. *)
Theorem combine_actions_policy
    (ml_actions rule_actions : list OptimizationAction) :
  Forall kind_routed (ml_actions ++ rule_actions) ->
  let merged :=
    BatteryOptimizationAgent._combine_actions ml_actions rule_actions in
  List.NoDup (map slot merged)
  /\ (forall a, In a merged -> In a ml_actions \/ In a rule_actions)
  /\ (forall a, In a ml_actions \/ In a rule_actions ->
        exists m, In m merged /\ slot m = slot a)
  /\ (forall c, proposed c ml_actions ->
        (In c merged
         <-> forall r, In r rule_actions -> slot r = slot c ->
                       ~ (intensity r < intensity c)%Q)
        /\ ((exists r, In r rule_actions /\ slot r = slot c
                       /\ (intensity r < intensity c)%Q) ->
            exists r', In r' rule_actions /\ In r' merged /\ slot r' = slot c
                       /\ (intensity r' < intensity c)%Q))
  /\ (forall l1 r l2,
        rule_actions = (l1 ++ r :: l2)%list ->
        (forall a, In a (ml_actions ++ l1) -> slot a <> slot r) ->
        (forall r', In r' l2 -> slot r' = slot r ->
                    ~ (intensity r' < intensity r)%Q) ->
        In r merged)
  /\ (forall c r,
        slot c = ("brightness_adjust", "display") ->
        slot r = ("brightness_adjust", "display") ->
        (intensity c == 0.5)%Q -> (intensity r == 0.3)%Q ->
        BatteryOptimizationAgent._combine_actions [c] [r] = [r]
        /\ (intensity r == 0.3)%Q).
Proof.
  intros Hall merged.
  pose proof (proj1 (List.Forall_forall _ _) Hall) as Hrouted.
  assert (Hml : forall a, In a ml_actions -> kind_routed a)
    by (intros; apply Hrouted, in_or_app; now left).
  assert (Hrule : forall a, In a rule_actions -> kind_routed a)
    by (intros; apply Hrouted, in_or_app; now right).
  destruct (combine_by_key ml_actions rule_actions)
    as (Hnd & Hfrom & Hall_keys & Hprop & Hfree).
  fold merged in Hnd, Hfrom, Hall_keys, Hprop, Hfree.
  assert (Hmerged : forall a, In a merged -> kind_routed a).
  { intros a Ha. destruct (Hfrom a Ha); auto. }
  split; [|split; [|split; [|split; [|split]]]].
  - revert Hnd. apply NoDup_map_coarser. intros x y. apply slot_key.
  - exact Hfrom.
  - intros a Ha. destruct (Hall_keys a Ha) as (m & Hm & Hk).
    exists m. split; [exact Hm|].
    apply key_slot; [now apply Hmerged|destruct Ha; auto|exact Hk].
  - intros c (l1 & l2 & -> & Hl2).
    assert (Hc : kind_routed c) by (apply Hml, in_or_app; right; now left).
    destruct (Hprop l1 c l2 eq_refl) as [Hkeep Hreplace].
    { intros a Ha Hk. apply (Hl2 a Ha). apply key_slot; [|exact Hc|exact Hk].
      apply Hml, in_or_app. right. now right. }
    split.
    + rewrite Hkeep. split; intros H r Hr Hs.
      * apply (H r Hr). now apply slot_key.
      * apply (H r Hr). apply key_slot; [now apply Hrule|exact Hc|exact Hs].
    + intros (r & Hr & Hs & Hlt).
      destruct Hreplace as (r' & Hr' & Hm' & Hk' & Hlt').
      { exists r. split; [exact Hr|]. split; [now apply slot_key|exact Hlt]. }
      exists r'. split; [exact Hr'|]. split; [exact Hm'|].
      split; [|exact Hlt'].
      apply key_slot; [now apply Hrule|exact Hc|exact Hk'].
  - intros l1 r l2 -> Hunclaimed Hlater.
    assert (Hr : kind_routed r) by (apply Hrule, in_or_app; right; now left).
    apply (Hfree l1 r l2 eq_refl).
    + intros a Ha Hk. apply (Hunclaimed a Ha).
      apply key_slot; [|exact Hr|exact Hk].
      apply in_app_or in Ha as [Ha|Ha]; [now apply Hml|].
      apply Hrule, in_or_app. now left.
    + intros r' Hr' Hk. apply (Hlater r' Hr').
      apply key_slot; [|exact Hr|exact Hk].
      apply Hrule, in_or_app. right. now right.
  - intros c r Hc Hr Hic Hir. split; [|exact Hir].
    apply combine_pair; [|lra].
    apply slot_key. congruence.
Qed.

(** Every action that either tier emits has a kind of the routing table. *)
Lemma tiers_emit_routed_kinds (prediction : Z) (c : Q)
    (metrics : SystemMetrics) (context : ContextState) :
  Forall kind_routed
    (BatteryOptimizationAgent._prediction_to_actions prediction c metrics
       context
     ++ BatteryRulesEngine.get_rule_based_actions metrics context).
Proof.
  unfold BatteryOptimizationAgent._prediction_to_actions,
    BatteryRulesEngine.get_rule_based_actions,
    BatteryRulesEngine._critical_battery_rules,
    BatteryRulesEngine._low_battery_rules,
    BatteryRulesEngine._performance_rules,
    BatteryRulesEngine._away_mode_rules.
  repeat case_if; cbn [app];
    repeat (constructor; [unfold kind_routed; cbn; discriminate|]);
    constructor.
Qed.

Lemma combine_actions_policy_witness :
  BatteryOptimizationAgent._combine_actions [classifier_brightness]
    [rule_brightness]
  = [rule_brightness]
  /\ ~ In classifier_brightness
         (BatteryOptimizationAgent._combine_actions [classifier_brightness]
            [rule_brightness]).
Proof.
  assert (Hrouted : Forall kind_routed
                      ([classifier_brightness] ++ [rule_brightness])).
  { repeat (constructor; [unfold kind_routed; cbn; discriminate|]).
    constructor. }
  destruct (combine_actions_policy [classifier_brightness] [rule_brightness]
              Hrouted)
    as (_ & _ & _ & Hprop & _ & Hpair).
  split.
  - apply (Hpair classifier_brightness rule_brightness);
      reflexivity.
  - destruct (Hprop classifier_brightness) as [Hkeep _].
    { exists [], []. split; [reflexivity|]. intros ? []. }
    intros Hin. apply (proj1 Hkeep Hin rule_brightness).
    + now left.
    + reflexivity.
    + reflexivity.
Defined.

(** ** The scenario of the critical battery *)

Section Scenario.
Import BatteryOptimizationAgent.

Variable current_hour : Z.
Variable metrics : SystemMetrics.
Hypothesis battery_8 : (battery_percent metrics == 8)%Q.
Hypothesis cpu_80 : (cpu_percent metrics == 80)%Q.
Hypothesis brightness_95 : screen_brightness metrics = 95.

Let context := analyze_context current_hour metrics.

Lemma critical_context :
  battery_level context = "critical"
  /\ String.eqb (user_activity context) "away" = false.
Proof.
  subst context. unfold analyze_context.
  cbn [battery_level user_activity].
  assert (H15 : Py.le (battery_percent metrics) 15 = true)
    by (apply le_true; lra).
  assert (H10 : Py.lt (cpu_percent metrics) 10 = false)
    by (apply lt_false; lra).
  rewrite H15, H10. split; [reflexivity|].
  now destruct ((23 <=? current_hour) || (current_hour <=? 6)).
Qed.

(** The rule tier: the two critical rules, and the background limit when
    the demand is heavy and the target application is below 50 % of cpu. *)
Lemma critical_rules :
  exists extra : list OptimizationAction,
    BatteryRulesEngine.get_rule_based_actions metrics context
    = (act "brightness_adjust" 0.8 "display" 20.0 0.3 0.9
       :: act "cpu_throttle" 0.7 "system" 25.0 0.6 0.85
       :: extra)%list
    /\ (extra = []
        \/ extra = [act "background_limit" 0.5 "system" 8.0 0.1 0.7]).
Proof.
  destruct critical_context as [Hb Ha].
  unfold BatteryRulesEngine.get_rule_based_actions.
  rewrite Hb, Ha. cbn [String.eqb Ascii.eqb Bool.eqb orb andb].
  unfold BatteryRulesEngine._critical_battery_rules.
  rewrite brightness_95.
  assert (H30 : Py.gt (cpu_percent metrics) 30 = true)
    by (apply gt_true; lra).
  rewrite H30. cbn [Z.ltb Z.compare Pos.compare Pos.compare_cont app].
  rewrite andb_true_r, app_nil_r.
  unfold BatteryRulesEngine._performance_rules.
  destruct (String.eqb (performance_demand context) "heavy");
    [destruct (Py.lt (target_app_cpu metrics) 50)|];
    eexists; (split; [reflexivity|]); auto.
Qed.

(** The classifier tier, by the class it answers. *)
Lemma critical_classifier (self : t) :
  let ml_actions :=
    if model_trained self
    then _ml_decision current_hour self metrics context else [] in
  let class := classifier_class current_hour self metrics in
  (class <> Some 1 /\ class <> Some 2 /\ class <> Some 3 /\ ml_actions = [])
  \/ (exists c : Q,
        class = Some 1
        /\ ml_actions = [act "brightness_adjust" 0.3 "display" 5.0 0.1 c])
  \/ (exists c : Q,
        class = Some 2
        /\ ml_actions = [act "cpu_throttle" 0.5 "system" 10.0 0.3 c;
                         act "brightness_adjust" 0.5 "display" 8.0 0.2 c])
  \/ (exists (c : Q) (extra : list OptimizationAction),
        class = Some 3
        /\ ml_actions = (act "cpu_throttle" 0.8 "system" 20.0 0.6 c
                         :: act "brightness_adjust" 0.7 "display" 15.0 0.4 c
                         :: extra)%list
        /\ (extra = []
            \/ extra = [act "app_throttle" 0.6 "target_app" 12.0 0.5 c])).
Proof.
  cbv zeta. unfold classifier_class, _ml_decision. fold context.
  destruct (model_trained self);
    [|left; repeat split; discriminate].
  destruct (decision_model self _) as [[p c]|e];
    [|left; repeat split; discriminate].
  unfold _prediction_to_actions. rewrite brightness_95.
  assert (H50 : Py.gt (cpu_percent metrics) 50 = true)
    by (apply gt_true; lra).
  rewrite H50. cbn [Z.ltb Z.compare Pos.compare Pos.compare_cont app].
  destruct (Z.eqb_spec p 0) as [->|H0];
    [left; repeat split; discriminate|].
  destruct (Z.eqb_spec p 1) as [->|H1];
    [right; left; now exists c|].
  destruct (Z.eqb_spec p 2) as [->|H2];
    [right; right; left; now exists c|].
  destruct (Z.eqb_spec p 3) as [->|H3].
  - right; right; right.
    destruct (negb (String.eqb (app_priority context) "critical"));
      eexists c, _; (split; [reflexivity|]); (split; [reflexivity|]); auto.
  - left. repeat split; congruence.
Qed.

End Scenario.

(** C8, as amended. For a snapshot with battery 8, cpu 80 and brightness
    95, [decide_optimization] returns at least two actions, among them a
    brightness action and a CPU action.  The CPU action has intensity at
    least 0.7 unless the classifier tier answers the moderate class (2), and
    the brightness action has intensity at least 0.7 unless it answers the
    light class (1) or the moderate class (2): both have when the classifier
    is untrained, raises or answers any other class.  With class 1 the
    brightness action has intensity 0.3 and the CPU action the 0.7 of the
    rule; with class 2 both have intensity 0.5, the classifier's proposal
    standing against the stronger rule. *)
Theorem critical_scenario_decision
    (now : Q) (current_hour : Z) (self : BatteryOptimizationAgent.t)
    (metrics : SystemMetrics) :
  (battery_percent metrics == 8)%Q ->
  (cpu_percent metrics == 80)%Q ->
  screen_brightness metrics = 95 ->
  let actions :=
    snd (BatteryOptimizationAgent.decide_optimization now current_hour self
           metrics) in
  let class := classifier_class current_hour self metrics in
  let of_kind (k : string) (a : OptimizationAction) :=
    In a actions /\ action_type a = k in
  (2 <= length actions)%nat
  /\ (exists b, of_kind "brightness_adjust" b)
  /\ (exists c, of_kind "cpu_throttle" c)
  /\ (class <> Some 1 -> class <> Some 2 ->
      two_strong_actions actions
      /\ forall a,
           of_kind "brightness_adjust" a \/ of_kind "cpu_throttle" a ->
           (0.7 <= intensity a)%Q)
  /\ (class <> Some 2 ->
      forall a, of_kind "cpu_throttle" a -> (0.7 <= intensity a)%Q)
  /\ (class = Some 1 ->
      (forall a, of_kind "brightness_adjust" a -> (intensity a == 0.3)%Q)
      /\ (forall a, of_kind "cpu_throttle" a -> (intensity a == 0.7)%Q))
  /\ (class = Some 2 ->
      forall a,
        of_kind "brightness_adjust" a \/ of_kind "cpu_throttle" a ->
        (intensity a == 0.5)%Q).
Proof.
  intros Hb Hc Hs actions class of_kind.
  destruct (critical_rules current_hour metrics Hb Hc Hs)
    as (extra & Hrules & Hextra).
  pose proof (critical_classifier current_hour metrics Hc Hs self) as Hml.
  cbv zeta in Hml. fold class in Hml.
  assert (Hactions :
    actions
    = BatteryOptimizationAgent._combine_actions
        (if BatteryOptimizationAgent.model_trained self
         then BatteryOptimizationAgent._ml_decision current_hour self metrics
                (BatteryOptimizationAgent.analyze_context current_hour metrics)
         else [])
        (BatteryRulesEngine.get_rule_based_actions metrics
           (BatteryOptimizationAgent.analyze_context current_hour metrics)))
    by reflexivity.
  clearbody actions class.
  rewrite Hrules in Hactions. subst of_kind. cbv beta.
  unfold two_strong_actions.
  destruct Hml as [(N1 & N2 & N3 & Hml)
                  |[(c & Hclass & Hml)
                   |[(c & Hclass & Hml)
                    |(c & more & Hclass & Hml & Hmore)]]];
    rewrite Hml in Hactions; clear Hml Hrules;
    [ | | | destruct Hmore as [-> | ->] ];
    destruct Hextra as [-> | ->];
    evaluate Hactions; subst actions;
    (split; [cbn; lia|]);
    (split; [choose|]);
    (split; [choose|]);
    (split;
       [intros H1 H2;
        first [ congruence
              | (split; [split; [cbn; lia|split; choose]|]);
                intros a [[Hin Hk]|[Hin Hk]]; each_element Hin;
                solve [discriminate Hk | cbn; lra] ]|]);
    (split;
       [intros H2;
        first [ congruence
              | intros a [Hin Hk]; each_element Hin;
                solve [discriminate Hk | cbn; lra] ]|]);
    (split;
       [intros H1;
        first [ congruence
              | split; intros a [Hin Hk]; each_element Hin;
                solve [discriminate Hk | cbn; lra] ]|]);
    (intros H2;
     first [ congruence
           | intros a [[Hin Hk]|[Hin Hk]]; each_element Hin;
             solve [discriminate Hk | cbn; lra] ]).
Qed.

Lemma critical_scenario_decision_witness :
  two_strong_actions
    (snd (BatteryOptimizationAgent.decide_optimization 1700000000.25 12
            (agent_predicting 3 0.9) critical_metrics))
  /\ two_strong_actions
       (snd (BatteryOptimizationAgent.decide_optimization 1700000000.25 12
               agent_untrained critical_metrics)).
Proof.
  split.
  - destruct (critical_scenario_decision 1700000000.25 12
                (agent_predicting 3 0.9) critical_metrics
                ltac:(reflexivity) ltac:(reflexivity) eq_refl)
      as (_ & _ & _ & H & _).
    apply H; vm_compute; discriminate.
  - destruct (critical_scenario_decision 1700000000.25 12
                agent_untrained critical_metrics
                ltac:(reflexivity) ltac:(reflexivity) eq_refl)
      as (_ & _ & _ & H & _).
    apply H; vm_compute; discriminate.
Defined.

(** C8, as the specification states it, fails when the classifier answers
    the moderate class: its two proposals of intensity 0.5 stand, the rule
    actions of intensity 0.8 and 0.7 not being lower. *)
Lemma critical_scenario_counterexample :
  snd (BatteryOptimizationAgent.decide_optimization 1700000000.25 12
         (agent_predicting 2 0.9) critical_metrics)
  = [ act "cpu_throttle" 0.5 "system" 10.0 0.3 0.9;
      act "brightness_adjust" 0.5 "display" 8.0 0.2 0.9 ]
  /\ ~ two_strong_actions
         (snd (BatteryOptimizationAgent.decide_optimization 1700000000.25 12
                 (agent_predicting 2 0.9) critical_metrics)).
Proof.
  assert (E : snd (BatteryOptimizationAgent.decide_optimization 1700000000.25
                     12 (agent_predicting 2 0.9) critical_metrics)
              = [ act "cpu_throttle" 0.5 "system" 10.0 0.3 0.9;
                  act "brightness_adjust" 0.5 "display" 8.0 0.2 0.9 ])
    by (vm_compute; reflexivity).
  split; [exact E|]. rewrite E.
  intros (_ & (b & Hin & Hk & Hi) & _).
  each_element Hin; [discriminate Hk|cbn in Hi; lra].
Qed.

Lemma analyze_context_thresholds_witness :
  battery_level
    (BatteryOptimizationAgent.analyze_context 12 critical_metrics)
  = "critical"
  /\ battery_level
       (BatteryOptimizationAgent.analyze_context 12 (metrics_at 45))
     = "medium"
  /\ performance_demand
       (BatteryOptimizationAgent.analyze_context 12 critical_metrics)
     = "heavy".
Proof.
  split; [|split].
  - apply (proj2 (proj2 (proj2 (analyze_context_thresholds 12
                                  critical_metrics)))).
    reflexivity.
  - apply (proj2 (proj2 (proj2 (analyze_context_thresholds 12
                                  (metrics_at 45))))).
    reflexivity.
  - apply (proj1 (proj2 (analyze_context_thresholds 12 critical_metrics))).
    cbn. lra.
Defined.

(** Under the mode of a fresh controller, ['adaptive'], which the default
    configuration does not list, the filter raises the [KeyError]. *)
Remark filter_unlisted_mode_raises (actions : list OptimizationAction) :
  AgentController._filter_actions_by_mode (controller_on "linux" false) actions
  = Raise "'adaptive'".
Proof. reflexivity. Qed.

Lemma filter_actions_by_mode_exact_witness :
  AgentController._filter_actions_by_mode
    (AgentController.set_optimization_mode (controller_on "linux" false)
       "balanced")
    (test_brightness :: AgentController.emergency_actions ++ [test_throttle])
  = Return [test_brightness; test_throttle].
Proof.
  edestruct (filter_actions_by_mode_exact
               (AgentController.set_optimization_mode
                  (controller_on "linux" false) "balanced")
               (test_brightness :: AgentController.emergency_actions
                ++ [test_throttle]))
    as (filtered & Hf & Heq & _).
  - vm_compute. reflexivity.
  - rewrite Hf, Heq. vm_compute. reflexivity.
Defined.

Lemma emergency_watchdog_witness :
  AgentController.emergency_mode
    (AgentController._on_metrics_update (fun _ => all_ok)
       (controller_on "linux" false) (metrics_at 4))
  = true
  /\ AgentController.emergency_mode
       (AgentController._on_metrics_update (fun _ => all_ok)
          (controller_on "linux" true) (metrics_at 50))
     = false.
Proof.
  split.
  - apply (proj1 (emergency_watchdog (fun _ => all_ok)
                    (controller_on "linux" false) (metrics_at 4)));
      [cbn; lra|reflexivity].
  - apply (proj1 (proj2 (emergency_watchdog (fun _ => all_ok)
                           (controller_on "linux" true) (metrics_at 50))));
      [cbn; lra|reflexivity].
Defined.

(** * Further properties *)

(** ** Truncation *)

Lemma int_nonneg (x : Q) : (0 <= x)%Q -> 0 <= Py.int x.
Proof.
  unfold Qle, Py.int. cbn. rewrite Z.mul_1_r. intros H.
  apply Z.quot_pos; lia.
Qed.

Lemma int_le (x : Q) (n : Z) : (x <= inject_Z n)%Q -> 0 <= n -> Py.int x <= n.
Proof.
  unfold Qle, Py.int. cbn. rewrite Z.mul_1_r. intros H Hn.
  destruct (Z.le_gt_cases 0 (Qnum x)) as [Hx|Hx].
  - apply Z.quot_le_upper_bound; lia.
  - pose proof (Z.quot_opp_l (- Qnum x) (Zpos (Qden x)) ltac:(lia)) as E.
    rewrite Z.opp_involutive in E.
    assert (0 <= (- Qnum x) ÷ Zpos (Qden x)) by (apply Z.quot_pos; lia).
    lia.
Qed.

(** ** The CPU actuator *)

Section Cpu.
Import CPUOptimizer.

Lemma cpu_apply_throttle (env : Env) (self : t) (a : OptimizationAction) :
  action_type a = "cpu_throttle" ->
  let id := "cpu_cpu_throttle_" ++ time_time env in
  let ok := cpu_commands_ok env self in
  let percent := (100 - intensity a * 50)%Q in
  apply_optimization env self a
  = (set_previous_states self
       (<[id := {| type := "frequency";
                   governor := original_governor self;
                   max_freq_percent := 100 |}]> (previous_states self)),
     Return
       {| action_id := id;
          success := ok;
          error_message := if ok then None else Some "Failed to throttle CPU";
          previous_value := Some (VInt 100);
          new_value := Some (if ok then VFloat percent else VInt 100);
          result_estimated_savings := estimated_savings a;
          actual_impact := 0%Q |}).
Proof.
  intros Hk. cbv zeta. unfold apply_optimization. rewrite Hk.
  cbn [String.eqb Ascii.eqb Bool.eqb].
  unfold cpu_commands_ok, _set_cpu_governor, _set_windows_power_plan,
    _set_cpu_frequency.
  cbn [platform set_previous_states].
  destruct (String.eqb (platform self) "linux") eqn:El;
    destruct (String.eqb (platform self) "windows") eqn:Ew;
    cbn [negb]; destruct (governor_command_ok env);
    destruct (power_plan_command_ok env);
    destruct (frequency_command_ok env); reflexivity.
Qed.

Lemma cpu_revert_frequency (env : Env) (self : t) (id : string) (st : state) :
  previous_states self !! id = Some st ->
  type st = "frequency" ->
  let ok := cpu_commands_ok env self in
  revert_optimization env self id
  = (if ok
     then set_previous_states self (delete id (previous_states self))
     else self,
     Return
       {| action_id := id;
          success := ok;
          error_message :=
            if ok then None else Some "Failed to revert CPU settings";
          previous_value := None;
          new_value := None;
          result_estimated_savings := 0%Q;
          actual_impact := 0%Q |}).
Proof.
  intros Hs Ht. cbv zeta. unfold revert_optimization. rewrite Hs, Ht.
  cbn [String.eqb Ascii.eqb Bool.eqb].
  unfold cpu_commands_ok, _set_cpu_governor, _set_windows_power_plan,
    _set_cpu_frequency.
  destruct (String.eqb (platform self) "linux") eqn:El;
    destruct (String.eqb (platform self) "windows") eqn:Ew;
    cbn [negb]; destruct (governor_command_ok env);
    destruct (power_plan_command_ok env);
    destruct (frequency_command_ok env); reflexivity.
Qed.

End Cpu.

(** X1. The CPU actuator forgets the previous state of an action only
    when its revert succeeded: after a throttle, a revert whose commands fail
    returns a failure and leaves the actuator exactly as it was, and a later
    revert of the same id whose commands succeed succeeds and removes the
    entry. *)
Theorem cpu_failed_revert_can_be_retried
    (env0 env1 env2 : Env) (self : CPUOptimizer.t) (a : OptimizationAction) :
  action_type a = "cpu_throttle" ->
  cpu_commands_ok env1 self = false ->
  cpu_commands_ok env2 self = true ->
  exists (applied retried : CPUOptimizer.t) (r0 r1 r2 : ActionResult),
    CPUOptimizer.apply_optimization env0 self a = (applied, Return r0)
    /\ CPUOptimizer.revert_optimization env1 applied (action_id r0)
       = (applied, Return r1)
    /\ success r1 = false
    /\ CPUOptimizer.revert_optimization env2 applied (action_id r0)
       = (retried, Return r2)
    /\ success r2 = true
    /\ CPUOptimizer.previous_states retried !! action_id r0 = None.
Proof.
  intros Hk H1 H2.
  rewrite (cpu_apply_throttle env0 self a Hk).
  do 5 eexists. split; [reflexivity|]. cbn [action_id].
  split.
  { erewrite cpu_revert_frequency;
      [|cbn; apply lookup_insert_eq|reflexivity].
    change (cpu_commands_ok env1 (CPUOptimizer.set_previous_states self _))
      with (cpu_commands_ok env1 self).
    rewrite H1. reflexivity. }
  split; [reflexivity|]. split.
  { erewrite cpu_revert_frequency;
      [|cbn; apply lookup_insert_eq|reflexivity].
    change (cpu_commands_ok env2 (CPUOptimizer.set_previous_states self _))
      with (cpu_commands_ok env2 self).
    rewrite H2. reflexivity. }
  split; [reflexivity|]. cbn. apply lookup_delete_eq.
Qed.

(** X2. A CPU throttle of intensity between 0 and 1 never asks for less
    than half of the maximal frequency: it succeeds exactly when the commands
    of the platform do, reports 100 as the previous value, and on success
    reports the new maximal frequency [100 - 50 * intensity], between 50 and
    100 percent. *)
Theorem cpu_throttle_at_most_half
    (env : Env) (self : CPUOptimizer.t) (a : OptimizationAction) :
  action_type a = "cpu_throttle" ->
  (0 <= intensity a)%Q -> (intensity a <= 1)%Q ->
  exists (applied : CPUOptimizer.t) (r : ActionResult),
    CPUOptimizer.apply_optimization env self a = (applied, Return r)
    /\ success r = cpu_commands_ok env self
    /\ previous_value r = Some (VInt 100)
    /\ (success r = false -> new_value r = Some (VInt 100))
    /\ (success r = true ->
        exists percent : Q,
          new_value r = Some (VFloat percent)
          /\ (percent == 100 - 50 * intensity a)%Q
          /\ (50 <= percent)%Q /\ (percent <= 100)%Q).
Proof.
  intros Hk H0 H1.
  rewrite (cpu_apply_throttle env self a Hk).
  do 2 eexists. split; [reflexivity|]. cbn [success previous_value new_value].
  split; [reflexivity|]. split; [reflexivity|]. split.
  - intros ->. reflexivity.
  - intros ->. eexists. split; [reflexivity|]. repeat split; lra.
Qed.

(** ** The display actuator: range and composition *)

Section DisplayRange.
Import DisplayOptimizer.


Lemma display_apply_sane (env : Env) (self : t) (a : OptimizationAction) :
  display_sane self -> display_sane (fst (apply_optimization env self a)).
Proof.
  intros [Hc Hp]. unfold apply_optimization.
  destruct (String.eqb (action_type a) "brightness_adjust"); [|now split].
  rewrite set_brightness_spec. cbv zeta.
  assert (Hins : forall id st,
            <[("display_" ++ action_type a ++ "_" ++ time_time env)%string :=
                {| type := "brightness"; value := current_brightness self |}]>
              (previous_states self) !! id = Some st ->
            10 <= value st <= 100).
  { intros id st. rewrite lookup_insert. case_decide.
    - intros [= <-]. exact Hc.
    - apply Hp. }
  destruct (negb _ || _); cbn; (split; [cbn; lia|exact Hins]).
Qed.

Lemma display_revert_sane (env : Env) (self : t) (id : string) :
  display_sane self -> display_sane (fst (revert_optimization env self id)).
Proof.
  intros [Hc Hp]. unfold revert_optimization.
  destruct (previous_states self !! id) as [st|] eqn:E; [|now split].
  destruct (String.eqb (type st) "brightness"); [|now split].
  rewrite set_brightness_spec. cbv zeta.
  assert (Hdel : forall id' st',
            delete id (previous_states self) !! id' = Some st' ->
            10 <= value st' <= 100).
  { intros id' st' H. apply lookup_delete_Some in H as [_ H].
    now apply (Hp id'). }
  destruct (negb _ || _); cbn; (split; [cbn; lia|exact Hdel]).
Qed.



End DisplayRange.

(** X3. The display actuator keeps the brightness between 10 and 100:
    when the brightness and the values remembered for reverts lie in that
    range, they still do after any apply and any revert, successful or not.
    An action of non-negative intensity never raises the brightness, and one
    of intensity at most 1 lowers it by at most 50. *)
Theorem display_brightness_stays_in_range
    (env : Env) (self : DisplayOptimizer.t) (a : OptimizationAction)
    (id : string) :
  display_sane self ->
  let applied := fst (DisplayOptimizer.apply_optimization env self a) in
  display_sane applied
  /\ display_sane (fst (DisplayOptimizer.revert_optimization env self id))
  /\ ((0 <= intensity a)%Q ->
      DisplayOptimizer.current_brightness applied
      <= DisplayOptimizer.current_brightness self)
  /\ ((intensity a <= 1)%Q ->
      DisplayOptimizer.current_brightness self - 50
      <= DisplayOptimizer.current_brightness applied).
Proof.
  intros Hs applied.
  split; [now apply display_apply_sane|].
  split; [now apply display_revert_sane|].
  destruct Hs as [Hc _]. subst applied.
  unfold DisplayOptimizer.apply_optimization.
  destruct (String.eqb (action_type a) "brightness_adjust");
    [|cbn; split; intros; lia].
  rewrite set_brightness_spec. cbv zeta.
  split.
  - intros Hi.
    assert (0 <= Py.int (intensity a * 50)) by (apply int_nonneg; lra).
    destruct (negb _ || _); cbn; lia.
  - intros Hi.
    assert (Py.int (intensity a * 50) <= 50).
    { apply int_le; [|lia]. change (inject_Z 50) with 50%Q. lra. }
    destruct (negb _ || _); cbn; lia.
Qed.


(** ** The network actuator *)

Section Network.
Import NetworkOptimizer.

Lemma network_apply_limit (env : Env) (self : t) (a : OptimizationAction) :
  action_type a = "network_limit" ->
  let id := "network_network_limit_" ++ time_time env in
  let iface := _get_network_interface env self in
  let limit := (100 * (1 - intensity a))%Q in
  let ok := _limit_bandwidth env self iface limit in
  let remembered :=
    <[id := {| type := "bandwidth_limit";
               interface := iface;
               had_limit := bool_decide (is_Some (active_limits self !! iface)) |}]>
      (previous_states self) in
  let limits :=
    if ok then <[iface := limit]> (active_limits self)
    else active_limits self in
  apply_optimization env self a
  = ({| is_enabled := is_enabled self;
        previous_states := remembered;
        platform := platform self;
        active_limits := limits |},
     Return
       {| action_id := id;
          success := ok;
          error_message :=
            if ok then None else Some "Failed to limit network bandwidth";
          previous_value :=
            Some (match limits !! iface with
                  | None => VStr "unlimited"
                  | Some l => VFloat l
                  end);
          new_value := Some (if ok then VFloat limit else VStr "unchanged");
          result_estimated_savings := estimated_savings a;
          actual_impact := 0%Q |}).
Proof.
  intros Hk. cbv zeta. unfold apply_optimization. rewrite Hk.
  cbn [String.eqb Ascii.eqb Bool.eqb].
  unfold _limit_bandwidth, _get_network_interface, set_previous_states,
    set_active_limits.
  cbn [platform active_limits previous_states is_enabled].
  destruct (String.eqb (platform self) "linux"); [|reflexivity].
  destruct (tc_add_ok env); reflexivity.
Qed.

End Network.

(** X5. A bandwidth limit applied on an interface that already carries a
    limit can never be reverted: whatever the platform answers, the revert of
    its id returns the failure "Failed to revert network settings" and leaves
    the actuator as it is. *)
Theorem network_stacked_limit_never_reverts
    (env0 : Env) (self : NetworkOptimizer.t) (a : OptimizationAction) :
  action_type a = "network_limit" ->
  is_Some (NetworkOptimizer.active_limits self
             !! NetworkOptimizer._get_network_interface env0 self) ->
  exists (applied : NetworkOptimizer.t) (r0 : ActionResult),
    NetworkOptimizer.apply_optimization env0 self a = (applied, Return r0)
    /\ forall env : Env,
         exists r : ActionResult,
           NetworkOptimizer.revert_optimization env applied (action_id r0)
           = (applied, Return r)
           /\ success r = false
           /\ error_message r = Some "Failed to revert network settings".
Proof.
  intros Hk Hlim.
  rewrite (network_apply_limit env0 self a Hk).
  do 2 eexists. split; [reflexivity|]. intros env. cbn [action_id].
  unfold NetworkOptimizer.revert_optimization.
  cbn [NetworkOptimizer.previous_states].
  rewrite lookup_insert_eq.
  cbn [NetworkOptimizer.type NetworkOptimizer.had_limit String.eqb Ascii.eqb
       Bool.eqb].
  rewrite (bool_decide_eq_true_2 _ Hlim). cbn.
  eexists. split; [reflexivity|]. now split.
Qed.

(** X6. A bandwidth limit on an interface without limit is undone by its
    revert: when the commands succeed, and the id is new to the actuator, the
    apply succeeds with a limit of [100 * (1 - intensity)] Mbps, between 0
    and 100 for an intensity between 0 and 1, and the revert returns the
    actuator to exactly the state before the apply. *)
Theorem network_limit_round_trip
    (env1 env2 : Env) (self : NetworkOptimizer.t) (a : OptimizationAction) :
  let iface := NetworkOptimizer._get_network_interface env1 self in
  let limit := (100 * (1 - intensity a))%Q in
  action_type a = "network_limit" ->
  NetworkOptimizer.active_limits self !! iface = None ->
  NetworkOptimizer.previous_states self
    !! ("network_network_limit_" ++ time_time env1) = None ->
  NetworkOptimizer._limit_bandwidth env1 self iface limit = true ->
  NetworkOptimizer._remove_bandwidth_limit env2 self iface = true ->
  exists (applied : NetworkOptimizer.t) (r1 r2 : ActionResult),
    NetworkOptimizer.apply_optimization env1 self a = (applied, Return r1)
    /\ success r1 = true
    /\ new_value r1 = Some (VFloat limit)
    /\ NetworkOptimizer.active_limits applied !! iface = Some limit
    /\ ((0 <= intensity a)%Q -> (intensity a <= 1)%Q ->
        (0 <= limit)%Q /\ (limit <= 100)%Q)
    /\ NetworkOptimizer.revert_optimization env2 applied (action_id r1)
       = (self, Return r2)
    /\ success r2 = true.
Proof.
  intros iface limit Hk Hfree Hnew Hadd Hdel.
  rewrite (network_apply_limit env1 self a Hk). fold iface limit.
  rewrite Hadd.
  do 3 eexists. split; [reflexivity|].
  cbn [success new_value action_id NetworkOptimizer.active_limits].
  split; [reflexivity|]. split; [reflexivity|].
  split; [apply lookup_insert_eq|].
  split; [intros; subst limit; split; lra|].
  unfold NetworkOptimizer.revert_optimization.
  cbn [NetworkOptimizer.previous_states].
  rewrite lookup_insert_eq.
  cbn [NetworkOptimizer.type NetworkOptimizer.had_limit
       NetworkOptimizer.interface String.eqb Ascii.eqb Bool.eqb].
  rewrite Hfree.
  rewrite (bool_decide_eq_false_2 _ (fun H => is_Some_None H)).
  cbn [negb].
  unfold NetworkOptimizer._remove_bandwidth_limit in *.
  cbn [NetworkOptimizer.platform]. rewrite Hdel.
  unfold NetworkOptimizer.set_previous_states,
    NetworkOptimizer.set_active_limits.
  cbn [NetworkOptimizer.previous_states NetworkOptimizer.active_limits
       NetworkOptimizer.platform NetworkOptimizer.is_enabled].
  rewrite (delete_insert_id _ _ _ Hnew), (delete_insert_id _ _ _ Hfree).
  destruct self as [en ps pf al].
  split; reflexivity.
Qed.

(** ** The application actuator *)

(** X7. An action applied through the callback of a registered
    application cannot be reverted: the apply returns the result of the
    callback under a generated id, and every revert of that id returns the
    failure "Unknown action type for reversion" and leaves the actuator as it
    is. *)
Theorem callback_action_cannot_be_reverted
    (env0 : Env) (self : ApplicationOptimizer.t) (a : OptimizationAction)
    (callback : OptimizationAction -> Except ActionResult)
    (result : ActionResult) :
  action_type a = "app_throttle" ->
  ApplicationOptimizer.optimization_callbacks self !! target_component a
  = Some callback ->
  callback a = Return result ->
  exists (applied : ApplicationOptimizer.t) (r0 : ActionResult),
    ApplicationOptimizer.apply_optimization env0 self a = (applied, Return r0)
    /\ success r0 = success result
    /\ action_id r0 = "app_app_throttle_" ++ time_time env0
    /\ forall env : Env,
         ApplicationOptimizer.revert_optimization env applied (action_id r0)
         = (applied,
            Return (failed (action_id r0) "Unknown action type for reversion")).
Proof.
  intros Hk Hcb Hres.
  unfold ApplicationOptimizer.apply_optimization.
  rewrite Hk. cbn [String.eqb Ascii.eqb Bool.eqb]. rewrite Hcb, Hres.
  do 2 eexists. split; [reflexivity|]. cbn [success action_id].
  split; [reflexivity|]. split; [reflexivity|]. intros env.
  unfold ApplicationOptimizer.revert_optimization.
  cbn [ApplicationOptimizer.previous_states
       ApplicationOptimizer.set_previous_states].
  now rewrite lookup_insert_eq.
Qed.

(** X8. What goes wrong inside the application actuator stays inside:
    when the registered callback raises, or when the process table cannot be
    read, [apply_optimization] does not raise but returns a failed result
    that carries the message, and the actuator is unchanged; the same holds
    when no process matches the application. *)
Theorem application_failures_are_contained
    (env : Env) (self : ApplicationOptimizer.t) (a : OptimizationAction) :
  action_type a = "app_throttle" ->
  let id := "app_app_throttle_" ++ time_time env in
  let app := target_component a in
  let out := ApplicationOptimizer.apply_optimization env self a in
  (forall callback e,
     ApplicationOptimizer.optimization_callbacks self !! app = Some callback ->
     callback a = Raise e ->
     out = (self, Return (failed id ("Application optimizer error: " ++ e))))
  /\ (ApplicationOptimizer.optimization_callbacks self !! app = None ->
      (forall e,
         matching_processes env app = Raise e ->
         out = (self,
                Return (failed id ("Failed to adjust process priority: " ++ e))))
      /\ (matching_processes env app = Return [] ->
          out = (self,
                 Return (failed id
                           ("No processes found for application: " ++ app))))
      /\ (forall p ps,
            matching_processes env app = Return (p :: ps) ->
            exists (applied : ApplicationOptimizer.t) (r : ActionResult),
              out = (applied, Return r)
              /\ success r = true
              /\ exists adjusted,
                   ApplicationOptimizer.previous_states applied !! id
                   = Some (ApplicationOptimizer.process_priority adjusted)
                   /\ length adjusted = S (length ps)
                   /\ Forall (fun q => new_priority q <= 19) adjusted)).
Proof.
  intros Hk id app out. subst id app out.
  unfold ApplicationOptimizer.apply_optimization.
  rewrite Hk. cbn [String.eqb Ascii.eqb Bool.eqb].
  split.
  - intros callback e Hcb He. now rewrite Hcb, He.
  - intros Hnone. rewrite Hnone.
    unfold ApplicationOptimizer._adjust_process_priority.
    split; [|split].
    + intros e He. now rewrite He.
    + intros He. now rewrite He.
    + intros p ps He. rewrite He. cbn [map].
      do 2 eexists. split; [reflexivity|]. cbn [success].
      split; [reflexivity|]. eexists. split; [apply lookup_insert_eq|].
      split; [cbn; now rewrite length_map|].
      constructor; [cbn; lia|].
      apply List.Forall_forall. intros q Hq.
      apply in_map_iff in Hq as (x & <- & _). cbn. lia.
Qed.

(** ** The executor: refusals, the active map, reverting everything *)

Section Executor.
Import OptimizationActuator.

Lemma apply_step_refused (env : Env) (self : t) (results : list ActionResult)
    (a : OptimizationAction) :
  refused self a = true ->
  exists id msg : string,
    apply_step env self results a = (self, (results ++ [failed id msg])%list).
Proof.
  unfold refused, apply_step, _apply_single_action.
  destruct (Py.get optimizer_map (action_type a)) as [name|];
    [|intros _; cbn; eauto].
  destruct (optimizers self !! name) as [o|]; [|intros _; cbn; eauto].
  intros ->. cbn. eauto.
Qed.

Lemma apply_loop_refused (envs : nat -> Env) (self : t)
    (actions : list OptimizationAction) :
  forall (i : nat) (results : list ActionResult),
    Forall (fun a => refused self a = true) actions ->
    exists rs : list ActionResult,
      apply_loop envs i self results actions = (self, (results ++ rs)%list)
      /\ length rs = length actions
      /\ Forall (fun r => success r = false) rs.
Proof.
  induction actions as [|a rest IH]; intros i results Hall.
  - exists []. cbn. rewrite app_nil_r. repeat split. constructor.
  - inversion Hall as [|? ? Ha Hrest]; subst. cbn.
    destruct (apply_step_refused (envs i) self results a Ha) as (id & msg & E).
    rewrite E.
    destruct (IH (S i) (results ++ [failed id msg])%list Hrest)
      as (rs & E' & Hlen & Hfail).
    exists (failed id msg :: rs). rewrite E', <- app_assoc. cbn.
    repeat split; [now rewrite Hlen|]. now constructor.
Qed.

Lemma apply_step_active (env : Env) (self : t) (results : list ActionResult)
    (a : OptimizationAction) :
  active_actions (fst (apply_step env self results a))
  = if success (recorded env self a)
    then <[action_id (recorded env self a) :=
             {| action := a; result := recorded env self a;
                applied_at := clock env |}]> (active_actions self)
    else active_actions self.
Proof.
  unfold apply_step, recorded.
  pose proof (apply_single_keeps env self a) as [H _].
  destruct (_apply_single_action env self a) as [s [r|e]]; cbn in *.
  - destruct (success r); cbn; now rewrite H.
  - exact H.
Qed.

Lemma well_keyed_apply_step (env : Env) (self : t)
    (results : list ActionResult) (a : OptimizationAction) :
  well_keyed self -> well_keyed (fst (apply_step env self results a)).
Proof.
  intros Hw id info. rewrite apply_step_active.
  destruct (success (recorded env self a)) eqn:Hs; [|apply Hw].
  destruct (decide (action_id (recorded env self a) = id)) as [<-|Hne].
  - rewrite lookup_insert_eq. intros [= <-]. now split.
  - rewrite lookup_insert_ne by exact Hne. apply Hw.
Qed.

Lemma well_keyed_apply_actions (envs : nat -> Env) (self : t)
    (actions : list OptimizationAction) :
  well_keyed self -> well_keyed (fst (apply_actions envs self actions)).
Proof.
  intros Hw.
  assert (H : forall actions i self results,
            well_keyed self ->
            well_keyed (fst (apply_loop envs i self results actions))).
  { clear. induction actions as [|a rest IH]; intros i self results Hw;
      [exact Hw|].
    cbn. pose proof (well_keyed_apply_step (envs i) self results a Hw) as Hs.
    destruct (apply_step (envs i) self results a) as [s1 r1].
    now apply IH. }
  specialize (H actions 0%nat self [] Hw). unfold apply_actions.
  destruct (apply_loop envs 0%nat self [] actions) as [s r]. cbn in *.
  case_if; exact H.
Qed.

Lemma revert_action_keeps (env : Env) (self : t) (id : string) :
  active_actions (fst (revert_action env self id))
  = match snd (revert_action env self id) with
    | Return r =>
        if success r then delete id (active_actions self)
        else active_actions self
    | Raise _ => active_actions self
    end
  /\ action_history (fst (revert_action env self id)) = action_history self.
Proof.
  unfold revert_action.
  destruct (active_actions self !! id) as [info|]; [|now split].
  destruct (Py.get optimizer_map (action_type (action info))) as [name|];
    cbn [mbind option_bind]; [|now split].
  destruct (optimizers self !! name) as [o|]; [|now split].
  cbn [default]. unfold call_revert.
  destruct (@revert_optimization _ (optimizer_class o) env (optimizer_self o)
              id) as [s [r|e]]; [|now split].
  destruct (success r) eqn:Hs; cbn; rewrite ?Hs; now split.
Qed.

Lemma well_keyed_revert_action (env : Env) (self : t) (id : string) :
  well_keyed self -> well_keyed (fst (revert_action env self id)).
Proof.
  intros Hw id' info. rewrite (proj1 (revert_action_keeps env self id)).
  destruct (snd (revert_action env self id)) as [r|e]; [|apply Hw].
  destruct (success r); [|apply Hw].
  intros H. apply lookup_delete_Some in H as [_ H]. now apply Hw.
Qed.

Lemma apply_step_dom (env : Env) (self : t) (results : list ActionResult)
    (a : OptimizationAction) :
  dom (active_actions (fst (apply_step env self results a)))
  = dom (active_actions self)
    ∪ list_to_set (map action_id (List.filter success [recorded env self a])).
Proof.
  rewrite apply_step_active. cbn.
  destruct (success (recorded env self a)); cbn.
  - now rewrite dom_insert_L, (right_id_L ∅ (∪)), (comm_L (∪)).
  - now rewrite (right_id_L ∅ (∪)).
Qed.

Lemma apply_loop_dom (envs : nat -> Env) (actions : list OptimizationAction) :
  forall (i : nat) (self : t),
    dom (active_actions (fst (apply_loop envs i self [] actions)))
    = dom (active_actions self)
      ∪ list_to_set
          (map action_id
             (List.filter success (snd (apply_loop envs i self [] actions)))).
Proof.
  induction actions as [|a rest IH]; intros i self; cbn;
    [now rewrite (right_id_L ∅ (∪))|].
  pose proof (apply_step_dom (envs i) self [] a) as Hd.
  pose proof (apply_step_results (envs i) self [] a) as Hr.
  destruct (apply_step (envs i) self [] a) as [s0 r0]. cbn in Hd, Hr. subst r0.
  rewrite apply_loop_split. cbn [fst snd].
  rewrite IH, Hd, List.filter_app, map_app, list_to_set_app_L.
  now rewrite (assoc_L (∪)).
Qed.

Lemma revert_returns_kept (env : Env) (self : t) (id : string) :
  reverts_return self -> reverts_return (fst (revert_action env self id)).
Proof.
  intros Hq. unfold revert_action.
  destruct (active_actions self !! id) as [info|]; [|exact Hq].
  destruct (Py.get optimizer_map (action_type (action info))) as [name|];
    cbn [mbind option_bind]; [|exact Hq].
  destruct (optimizers self !! name) as [o|] eqn:Ho; [|exact Hq].
  cbn [default]. unfold call_revert.
  assert (Hkeep : forall s : optimizer_state o,
            reverts_return
              (set_optimizer self name
                 {| optimizer_state := optimizer_state o;
                    optimizer_class := optimizer_class o;
                    optimizer_self := s |})).
  { intros s n o'. cbn.
    destruct (decide (name = n)) as [<-|Hne].
    - rewrite lookup_insert_eq. intros [= <-]. exact (Hq name o Ho).
    - rewrite lookup_insert_ne by exact Hne. apply Hq. }
  destruct (@revert_optimization _ (optimizer_class o) env (optimizer_self o)
              id) as [s [r|e]]; [|apply Hkeep].
  destruct (success r); cbn; apply Hkeep.
Qed.

Lemma revert_action_returns (env : Env) (self : t) (id : string) :
  reverts_return self ->
  exists r : ActionResult, snd (revert_action env self id) = Return r.
Proof.
  intros Hq. unfold revert_action.
  destruct (active_actions self !! id) as [info|]; [|cbn; eauto].
  destruct (Py.get optimizer_map (action_type (action info))) as [name|];
    cbn [mbind option_bind]; [|cbn; eauto].
  destruct (optimizers self !! name) as [o|] eqn:Ho; [|cbn; eauto].
  cbn [default]. unfold call_revert.
  destruct (Hq name o Ho env (optimizer_self o) id) as (s & r & E).
  rewrite E. destruct (success r); cbn; eauto.
Qed.

Lemma revert_loop_returns (envs : nat -> Env) (ids : list string) :
  forall (i : nat) (self : t) (results : list ActionResult),
    reverts_return self ->
    exists (s : t) (rs : list ActionResult),
      revert_loop envs i self results ids = (s, Return (results ++ rs)%list)
      /\ length rs = length ids
      /\ action_history s = action_history self
      /\ active_actions s = reverted (active_actions self) (combine ids rs).
Proof.
  induction ids as [|id rest IH]; intros i self results Hq.
  - exists self, []. cbn. now rewrite app_nil_r.
  - cbn.
    destruct (revert_action_returns (envs i) self id Hq) as (r & Hr).
    pose proof (revert_action_keeps (envs i) self id) as [Ha Hh].
    pose proof (revert_returns_kept (envs i) self id Hq) as Hq'.
    destruct (revert_action (envs i) self id) as [s1 out]. cbn in *. subst out.
    destruct (IH (S i) s1 (results ++ [r])%list Hq')
      as (s & rs & E & Hlen & Hhist & Hact).
    exists s, (r :: rs). rewrite E, <- app_assoc. cbn.
    repeat split; [now rewrite Hlen|congruence|].
    rewrite Hact, Ha. unfold reverted. reflexivity.
Qed.

Lemma reverted_other {A} (m : gmap string A)
    (outcomes : list (string * ActionResult)) (id : string) :
  ~ In id (map fst outcomes) -> reverted m outcomes !! id = m !! id.
Proof.
  revert m. induction outcomes as [|[k r] rest IH]; intros m Hn; [reflexivity|].
  unfold reverted in *. cbn in *.
  rewrite IH by tauto.
  destruct (success r); [|reflexivity].
  apply lookup_delete_ne. tauto.
Qed.

Lemma reverted_at {A} (m : gmap string A) (ids : list string) :
  forall (rs : list ActionResult) (i : nat) (id : string) (r : ActionResult),
    List.NoDup ids ->
    ids !! i = Some id -> rs !! i = Some r ->
    reverted m (combine ids rs) !! id = if success r then None else m !! id.
Proof.
  revert m. induction ids as [|k rest IH]; intros m rs i id r Hnd Hi Hr;
    [discriminate|].
  destruct rs as [|r0 rs]; [destruct i; discriminate|].
  inversion Hnd as [|? ? Hk Hrest]; subst.
  destruct i as [|i]; cbn in Hi, Hr.
  - injection Hi as ->. injection Hr as ->.
    change (reverted m (combine (id :: rest) (r :: rs)))
      with (reverted (if success r then delete id m else m) (combine rest rs)).
    rewrite reverted_other.
    + destruct (success r); [apply lookup_delete_eq|reflexivity].
    + intros Hin. apply Hk. clear - Hin.
      revert rs Hin. induction rest as [|x rest IH]; intros [|y rs] Hin;
        cbn in *; try tauto.
      destruct Hin as [->|Hin]; [now left|right; eauto].
  - change (reverted m (combine (k :: rest) (r0 :: rs)))
      with (reverted (if success r0 then delete k m else m) (combine rest rs)).
    rewrite (IH _ rs i id r Hrest Hi Hr).
    destruct (success r); [reflexivity|].
    destruct (success r0); [|reflexivity].
    apply lookup_delete_ne. intros ->. apply Hk.
    now apply list_elem_of_lookup_2, list_elem_of_In in Hi.
Qed.

End Executor.

Lemma builtin_reverts_return (display : DisplayOptimizer.t)
    (cpu : CPUOptimizer.t) (network : NetworkOptimizer.t)
    (application : ApplicationOptimizer.t) :
  reverts_return
    (OptimizationActuator.init display cpu network application).
Proof.
  intros name o. unfold OptimizationActuator.init.
  cbn [OptimizationActuator.optimizers].
  intros H.
  repeat (apply lookup_insert_Some in H as [[_ <-]|[_ H]]);
    [| | | |now rewrite lookup_empty in H]; intros env s id; cbn in s |- *.
  - unfold DisplayOptimizer.revert_optimization.
    destruct (DisplayOptimizer.previous_states s !! id) as [st|]; [|eauto].
    destruct (String.eqb _ _); [|eauto].
    destruct (DisplayOptimizer._set_brightness env s _). eauto.
  - unfold CPUOptimizer.revert_optimization.
    destruct (CPUOptimizer.previous_states s !! id); eauto.
  - unfold NetworkOptimizer.revert_optimization.
    destruct (NetworkOptimizer.previous_states s !! id) as [st|]; [|eauto].
    destruct (if String.eqb _ _ then _ else _). eauto.
  - unfold ApplicationOptimizer.revert_optimization.
    destruct (ApplicationOptimizer.previous_states s !! id) as [[?|l]|];
      [eauto| |eauto].
    destruct (restored_processes env l); eauto.
Qed.

Lemma reverts_return_apply_actions (envs : nat -> Env)
    (self : OptimizationActuator.t) (actions : list OptimizationAction) :
  reverts_return self ->
  reverts_return (fst (OptimizationActuator.apply_actions envs self actions)).
Proof.
  intros Hq.
  assert (Hstep : forall env self results a,
            reverts_return self ->
            reverts_return
              (fst (OptimizationActuator.apply_step env self results a))).
  { clear. intros env self results a Hq.
    unfold OptimizationActuator.apply_step,
      OptimizationActuator._apply_single_action.
    destruct (Py.get _ _) as [name|]; [|exact Hq].
    destruct (OptimizationActuator.optimizers self !! name) as [o|] eqn:Ho;
      [|exact Hq].
    destruct (negb _); [exact Hq|].
    unfold OptimizationActuator.call_apply.
    assert (Hkeep : forall s : optimizer_state o,
              reverts_return
                (OptimizationActuator.set_optimizer self name
                   {| optimizer_state := optimizer_state o;
                      optimizer_class := optimizer_class o;
                      optimizer_self := s |})).
    { intros s n o'. cbn.
      destruct (decide (name = n)) as [<-|Hne].
      - rewrite lookup_insert_eq. intros [= <-]. exact (Hq name o Ho).
      - rewrite lookup_insert_ne by exact Hne. apply Hq. }
    destruct (apply_optimization _ _ _) as [s [r|e]]; [|apply Hkeep].
    destruct (success r); cbn; apply Hkeep. }
  assert (H : forall actions i self results,
            reverts_return self ->
            reverts_return
              (fst (OptimizationActuator.apply_loop envs i self results
                      actions))).
  { clear - Hstep. induction actions as [|a rest IH]; intros i self results Hq;
      [exact Hq|].
    cbn. pose proof (Hstep (envs i) self results a Hq) as Hs.
    destruct (OptimizationActuator.apply_step (envs i) self results a)
      as [s1 r1].
    now apply IH. }
  specialize (H actions 0%nat self [] Hq).
  unfold OptimizationActuator.apply_actions.
  destruct (OptimizationActuator.apply_loop envs 0%nat self [] actions)
    as [s r]. cbn in *.
  case_if; exact H.
Qed.

Lemma well_keyed_after_calls (calls : list call) :
  forall self : OptimizationActuator.t,
    well_keyed self -> well_keyed (after_calls calls self).
Proof.
  induction calls as [|c rest IH]; intros self Hw; [exact Hw|].
  cbn. apply IH. destruct c as [env id|envs actions]; cbn.
  - now apply well_keyed_revert_action.
  - now apply well_keyed_apply_actions.
Qed.



(** X9. An action of kind "background_limit", the kind that the
    performance rules propose, is never applied: the routing table sends it to
    the application actuator, which knows no such kind.  The executor records
    a failed result and stays exactly as it was. *)
Theorem background_limit_is_never_applied
    (env : Env) (self : OptimizationActuator.t) (results : list ActionResult)
    (a : OptimizationAction) (app : ApplicationOptimizer.t) :
  action_type a = "background_limit" ->
  OptimizationActuator.optimizers self !! "application" = Some (object app) ->
  OptimizationActuator.apply_step env self results a
  = (self,
     (results ++
      [if ApplicationOptimizer.is_enabled app
       then failed ("app_background_limit_" ++ time_time env)
              "Unknown application action: background_limit"
       else failed ("disabled_" ++ time_time env)
              "Optimizer disabled: application"])%list).
Proof.
  intros Hk Ho.
  unfold OptimizationActuator.apply_step,
    OptimizationActuator._apply_single_action.
  rewrite Hk.
  cbn [Py.get OptimizationActuator.optimizer_map String.eqb Ascii.eqb
       Bool.eqb].
  rewrite Ho.
  cbn [optimizer_class optimizer_self object enabled
       ApplicationOptimizer.optimizer].
  destruct (ApplicationOptimizer.is_enabled app); [|reflexivity].
  cbn [negb]. unfold OptimizationActuator.call_apply.
  cbn [optimizer_class optimizer_self optimizer_state object
       apply_optimization ApplicationOptimizer.optimizer].
  unfold ApplicationOptimizer.apply_optimization. rewrite Hk.
  cbn [String.eqb Ascii.eqb Bool.eqb success failed].
  f_equal. exact (set_optimizer_same self "application" _ Ho).
Qed.

(** X10. A batch of actions that the executor refuses (a kind outside
    the routing table, an actuator missing or disabled) changes nothing but
    the history: the actuators and the active map stay as they are, every
    action gets a failed result, and these results join the history under its
    bound. *)
Theorem refused_batch_changes_nothing
    (envs : nat -> Env) (self : OptimizationActuator.t)
    (actions : list OptimizationAction) :
  Forall (fun a => refused self a = true) actions ->
  exists results : list ActionResult,
    OptimizationActuator.apply_actions envs self actions
    = (OptimizationActuator.set_action_history self
         (bounded (OptimizationActuator.action_history self ++ results)),
       results)
    /\ length results = length actions
    /\ Forall (fun r => success r = false) results.
Proof.
  intros Hall.
  destruct (apply_loop_refused envs self actions 0%nat [] Hall)
    as (rs & E & Hlen & Hfail).
  exists rs. unfold OptimizationActuator.apply_actions. rewrite E.
  cbn [app]. unfold bounded.
  cbn [OptimizationActuator.action_history
       OptimizationActuator.set_action_history].
  split; [|now split].
  now case_if.
Qed.

(** X11. Whatever batches are applied and whatever ids are reverted after
    [__init__], every record of the active map holds a result that reports
    success and is kept under the id of that result. *)
Theorem active_records_are_well_keyed
    (display : DisplayOptimizer.t) (cpu : CPUOptimizer.t)
    (network : NetworkOptimizer.t) (application : ApplicationOptimizer.t)
    (calls : list call) :
  well_keyed
    (after_calls calls
       (OptimizationActuator.init display cpu network application)).
Proof.
  apply well_keyed_after_calls. intros id info H. cbn in H.
  now rewrite lookup_empty in H.
Qed.

(** X12. The ids that are active after [apply_actions] are those that were
    active before together with the ids of the results of the batch that
    report success: a batch removes no record, and it activates exactly its
    successes. *)
Theorem apply_actions_activates_the_successes
    (envs : nat -> Env) (self : OptimizationActuator.t)
    (actions : list OptimizationAction) :
  let out := OptimizationActuator.apply_actions envs self actions in
  dom (OptimizationActuator.active_actions (fst out))
  = dom (OptimizationActuator.active_actions self)
    ∪ list_to_set (map action_id (List.filter success (snd out))).
Proof.
  cbv zeta. rewrite apply_actions_results.
  rewrite <- apply_loop_dom.
  unfold OptimizationActuator.apply_actions.
  destruct (OptimizationActuator.apply_loop envs 0%nat self [] actions)
    as [s r]. cbn. now case_if.
Qed.

(** X13. [revert_all_actions] over actuators whose revert cannot raise:
    it returns one result per id, in order, and leaves the history alone; an
    id leaves the active map exactly when its own revert reported success,
    the records of the failed reverts and of the ids not listed staying as
    they are. *)
Theorem revert_all_actions_removes_the_reverted
    (envs : nat -> Env) (self : OptimizationActuator.t) (ids : list string) :
  reverts_return self ->
  List.NoDup ids ->
  exists (s : OptimizationActuator.t) (rs : list ActionResult),
    OptimizationActuator.revert_all_actions envs self ids = (s, Return rs)
    /\ length rs = length ids
    /\ OptimizationActuator.action_history s
       = OptimizationActuator.action_history self
    /\ (forall (i : nat) (id : string) (r : ActionResult),
          ids !! i = Some id -> rs !! i = Some r ->
          OptimizationActuator.active_actions s !! id
          = if success r then None
            else OptimizationActuator.active_actions self !! id)
    /\ (forall id : string,
          ~ In id ids ->
          OptimizationActuator.active_actions s !! id
          = OptimizationActuator.active_actions self !! id).
Proof.
  intros Hq Hnd.
  destruct (revert_loop_returns envs ids 0%nat self [] Hq)
    as (s & rs & E & Hlen & Hhist & Hact).
  exists s, rs. unfold OptimizationActuator.revert_all_actions.
  rewrite E. split; [reflexivity|]. split; [exact Hlen|].
  split; [exact Hhist|]. rewrite Hact. split.
  - intros i id r Hi Hr. now apply (reverted_at _ ids rs i).
  - intros id Hn. apply reverted_other.
    intros Hin. apply Hn. clear - Hin.
    revert rs Hin. induction ids as [|x rest IH]; intros [|y rs] Hin;
      cbn in *; try tauto.
    destruct Hin as [->|Hin]; [now left|right; eauto].
Qed.


(** ** Examples of the further properties *)

Lemma cpu_failed_revert_can_be_retried_witness :
  exists (applied retried : CPUOptimizer.t) (r0 r1 r2 : ActionResult),
    CPUOptimizer.apply_optimization all_ok (cpu_on "linux") test_throttle
    = (applied, Return r0)
    /\ CPUOptimizer.revert_optimization governor_fails applied (action_id r0)
       = (applied, Return r1)
    /\ success r1 = false
    /\ CPUOptimizer.revert_optimization all_ok applied (action_id r0)
       = (retried, Return r2)
    /\ success r2 = true
    /\ CPUOptimizer.previous_states retried !! action_id r0 = None.
Proof.
  apply (cpu_failed_revert_can_be_retried all_ok governor_fails all_ok
           (cpu_on "linux") test_throttle);
    reflexivity.
Defined.

Lemma cpu_throttle_at_most_half_witness :
  exists (applied : CPUOptimizer.t) (r : ActionResult),
    CPUOptimizer.apply_optimization all_ok (cpu_on "linux") test_throttle
    = (applied, Return r)
    /\ success r = true
    /\ new_value r = Some (VFloat (100 - 0.5 * 50)).
Proof.
  destruct (cpu_throttle_at_most_half all_ok (cpu_on "linux") test_throttle
              eq_refl ltac:(cbn; lra) ltac:(cbn; lra))
    as (applied & r & H & Hs & _).
  exists applied, r. split; [exact H|].
  injection H as <- <-. split; reflexivity.
Defined.

Lemma display_brightness_stays_in_range_witness :
  display_sane
    (fst (DisplayOptimizer.apply_optimization all_ok (display_at "linux" 80)
            test_brightness))
  /\ DisplayOptimizer.current_brightness
       (fst (DisplayOptimizer.apply_optimization all_ok
               (display_at "linux" 80) test_brightness))
     <= 80.
Proof.
  assert (Hs : display_sane (display_at "linux" 80)).
  { split; [cbn; lia|]. intros id st H. cbn in H.
    now rewrite lookup_empty in H. }
  destruct (display_brightness_stays_in_range all_ok (display_at "linux" 80)
              test_brightness test_brightness_id Hs)
    as (Hsane & _ & Hdown & _).
  split; [exact Hsane|]. apply Hdown. cbn. lra.
Defined.


Lemma network_stacked_limit_never_reverts_witness :
  exists (applied : NetworkOptimizer.t) (r0 : ActionResult),
    NetworkOptimizer.apply_optimization all_ok network_limited
      test_network_limit
    = (applied, Return r0)
    /\ forall env : Env,
         exists r : ActionResult,
           NetworkOptimizer.revert_optimization env applied (action_id r0)
           = (applied, Return r)
           /\ success r = false
           /\ error_message r = Some "Failed to revert network settings".
Proof.
  apply (network_stacked_limit_never_reverts all_ok network_limited
           test_network_limit eq_refl).
  exists 50%Q. vm_compute. reflexivity.
Defined.

Lemma network_limit_round_trip_witness :
  exists (applied : NetworkOptimizer.t) (r1 r2 : ActionResult),
    NetworkOptimizer.apply_optimization all_ok (network_on "linux")
      test_network_limit
    = (applied, Return r1)
    /\ success r1 = true
    /\ NetworkOptimizer.revert_optimization all_ok applied (action_id r1)
       = (network_on "linux", Return r2)
    /\ success r2 = true.
Proof.
  destruct (network_limit_round_trip all_ok all_ok (network_on "linux")
              test_network_limit eq_refl
              ltac:(vm_compute; reflexivity) ltac:(vm_compute; reflexivity)
              eq_refl eq_refl)
    as (applied & r1 & r2 & H1 & Hs1 & _ & _ & _ & H2 & Hs2).
  now exists applied, r1, r2.
Defined.

Lemma callback_action_cannot_be_reverted_witness :
  exists (applied : ApplicationOptimizer.t) (r0 : ActionResult),
    ApplicationOptimizer.apply_optimization all_ok application_registered
      test_app_throttle
    = (applied, Return r0)
    /\ success r0 = true
    /\ ApplicationOptimizer.revert_optimization all_ok applied (action_id r0)
       = (applied,
          Return (failed (action_id r0) "Unknown action type for reversion")).
Proof.
  destruct (callback_action_cannot_be_reverted all_ok application_registered
              test_app_throttle player_callback _ eq_refl
              ltac:(vm_compute; reflexivity) eq_refl)
    as (applied & r0 & H & Hs & _ & Hrev).
  exists applied, r0. split; [exact H|]. split; [exact Hs|]. apply Hrev.
Defined.

Lemma application_failures_are_contained_witness :
  ApplicationOptimizer.apply_optimization all_ok application_fresh
    test_app_throttle
  = (application_fresh,
     Return (failed "app_app_throttle_1700000000.25"
               "No processes found for application: target_app")).
Proof.
  destruct (application_failures_are_contained all_ok application_fresh
              test_app_throttle eq_refl)
    as (_ & H).
  destruct (H ltac:(vm_compute; reflexivity)) as (_ & Hnone & _).
  exact (Hnone eq_refl).
Defined.

Lemma init_application (display : DisplayOptimizer.t) (cpu : CPUOptimizer.t)
    (network : NetworkOptimizer.t) (application : ApplicationOptimizer.t) :
  OptimizationActuator.optimizers
    (OptimizationActuator.init display cpu network application)
  !! "application"
  = Some (object application).
Proof.
  unfold OptimizationActuator.init. cbn [OptimizationActuator.optimizers].
  rewrite !lookup_insert_ne by discriminate. apply lookup_insert_eq.
Qed.

Lemma background_limit_is_never_applied_witness :
  OptimizationActuator.apply_step all_ok (actuator_on "linux" 80) []
    test_background
  = (actuator_on "linux" 80,
     [failed "app_background_limit_1700000000.25"
        "Unknown application action: background_limit"]).
Proof.
  exact (background_limit_is_never_applied all_ok (actuator_on "linux" 80) []
           test_background application_fresh eq_refl
           (init_application _ _ _ _)).
Defined.

Lemma refused_batch_changes_nothing_witness :
  exists results : list ActionResult,
    OptimizationActuator.apply_actions (fun _ => all_ok)
      (actuator_on "linux" 80) [test_unrouted; test_unrouted]
    = (OptimizationActuator.set_action_history (actuator_on "linux" 80)
         (bounded
            (OptimizationActuator.action_history (actuator_on "linux" 80)
             ++ results)),
       results)
    /\ length results = 2%nat
    /\ Forall (fun r => success r = false) results.
Proof.
  apply (refused_batch_changes_nothing (fun _ => all_ok)
           (actuator_on "linux" 80) [test_unrouted; test_unrouted]).
  repeat constructor.
Defined.

Lemma revert_all_actions_removes_the_reverted_witness :
  exists (s : OptimizationActuator.t) (rs : list ActionResult),
    OptimizationActuator.revert_all_actions (fun _ => all_ok) applied_once
      [test_brightness_id]
    = (s, Return rs)
    /\ length rs = 1%nat
    /\ OptimizationActuator.action_history s
       = OptimizationActuator.action_history applied_once.
Proof.
  destruct (revert_all_actions_removes_the_reverted (fun _ => all_ok)
              applied_once [test_brightness_id])
    as (s & rs & E & Hlen & Hhist & _).
  - apply reverts_return_apply_actions, builtin_reverts_return.
  - constructor; [intros []|constructor].
  - now exists s, rs.
Defined.


(** ** The decision engine: what a decision can hold *)

Ltac in_list := cbn; repeat first [left; reflexivity | right].

Ltac tier_actions :=
  repeat case_if; cbn [app];
  repeat (constructor;
          [split; [in_list|repeat split; cbn; lra]|]);
  constructor.

Lemma classifier_tier_actions (prediction : Z) (c : Q)
    (metrics : SystemMetrics) (context : ContextState) :
  Forall tier_action
    (BatteryOptimizationAgent._prediction_to_actions prediction c metrics
       context).
Proof.
  unfold BatteryOptimizationAgent._prediction_to_actions. tier_actions.
Qed.

Lemma rule_tier_actions (metrics : SystemMetrics) (context : ContextState) :
  Forall tier_action
    (BatteryRulesEngine.get_rule_based_actions metrics context).
Proof.
  unfold BatteryRulesEngine.get_rule_based_actions.
  repeat apply Forall_app_2.
  - unfold BatteryRulesEngine._critical_battery_rules,
      BatteryRulesEngine._low_battery_rules.
    tier_actions.
  - unfold BatteryRulesEngine._performance_rules. tier_actions.
  - unfold BatteryRulesEngine._away_mode_rules. tier_actions.
Qed.

Lemma ml_decision_tier_actions (current_hour : Z)
    (self : BatteryOptimizationAgent.t) (metrics : SystemMetrics)
    (context : ContextState) :
  Forall tier_action
    (if BatteryOptimizationAgent.model_trained self
     then BatteryOptimizationAgent._ml_decision current_hour self metrics
            context
     else []).
Proof.
  destruct (BatteryOptimizationAgent.model_trained self); [|constructor].
  unfold BatteryOptimizationAgent._ml_decision.
  destruct (BatteryOptimizationAgent.decision_model self _) as [[p c]|e];
    [apply classifier_tier_actions|constructor].
Qed.

Lemma tier_action_kind (a b : OptimizationAction) :
  tier_action a -> tier_action b ->
  action_type a = action_type b ->
  BatteryOptimizationAgent.key a = BatteryOptimizationAgent.key b.
Proof.
  intros [Ha _] [Hb _] E. apply slot_key. unfold slot in *.
  rewrite <- E in *. clear E. cbn in Ha, Hb.
  repeat match goal with
         | H : _ \/ _ |- _ => destruct H as [H|H]
         | H : False |- _ => destruct H
         end;
    congruence.
Qed.

Lemma NoDup_map_coarser_on {A B C} (f : A -> B) (g : A -> C) (l : list A) :
  (forall x y, In x l -> In y l -> g x = g y -> f x = f y) ->
  List.NoDup (map f l) -> List.NoDup (map g l).
Proof.
  induction l as [|x l IH]; cbn; intros H Hnd; [constructor|].
  inversion Hnd as [|? ? Hx Hnd']; subst. constructor.
  - intros Hin. apply Hx. apply in_map_iff in Hin as (y & Hy & Hin).
    apply in_map_iff. exists y. split; [|exact Hin].
    apply H; [now right|now left|exact Hy].
  - apply IH; [|exact Hnd']. intros a b Ha Hb. apply H; now right.
Qed.

(** X15. A decision never holds two actions of the same kind, so it holds
    at most five actions; each of them has a kind of the routing table with
    the target that goes with it, an intensity between 0.3 and 0.9, a
    performance impact between 0.1 and 0.6 and estimated savings between 5
    and 30, whatever the classifier answers. *)
Theorem decisions_hold_one_action_per_kind
    (now : Q) (current_hour : Z) (self : BatteryOptimizationAgent.t)
    (metrics : SystemMetrics) :
  let actions :=
    snd (BatteryOptimizationAgent.decide_optimization now current_hour self
           metrics) in
  List.NoDup (map action_type actions)
  /\ (length actions <= 5)%nat
  /\ Forall tier_action actions.
Proof.
  cbv zeta. unfold BatteryOptimizationAgent.decide_optimization.
  cbn [snd].
  set (context := BatteryOptimizationAgent.analyze_context current_hour
                    metrics).
  set (ml := if BatteryOptimizationAgent.model_trained self then _ else []).
  set (rules := BatteryRulesEngine.get_rule_based_actions metrics context).
  destruct (combine_by_key ml rules) as (Hnd & Hin & _).
  assert (Htier : Forall tier_action
                    (BatteryOptimizationAgent._combine_actions ml rules)).
  { apply List.Forall_forall. intros a Ha.
    destruct (Hin a Ha) as [H|H].
    - pose proof (ml_decision_tier_actions current_hour self metrics context)
        as Hml.
      rewrite List.Forall_forall in Hml. now apply Hml.
    - pose proof (rule_tier_actions metrics context) as Hr.
      rewrite List.Forall_forall in Hr. now apply Hr. }
  assert (Hkinds : List.NoDup
                     (map action_type
                        (BatteryOptimizationAgent._combine_actions ml rules))).
  { apply (NoDup_map_coarser_on BatteryOptimizationAgent.key action_type);
      [|exact Hnd].
    rewrite List.Forall_forall in Htier.
    intros a b Ha Hb. apply tier_action_kind; now apply Htier. }
  split; [exact Hkinds|]. split; [|exact Htier].
  rewrite <- (length_map action_type).
  change 5%nat with (length (map fst tier_slots)).
  apply NoDup_incl_length; [exact Hkinds|].
  intros k Hk. apply in_map_iff in Hk as (a & <- & Ha).
  rewrite List.Forall_forall in Htier. destruct (Htier a Ha) as [Hs _].
  apply in_map_iff. exists (slot a). now split.
Qed.

Section Quiet.
Import BatteryOptimizationAgent.

Lemma not_away_activity (current_hour : Z) (metrics : SystemMetrics) :
  not_away current_hour metrics ->
  String.eqb (user_activity (analyze_context current_hour metrics)) "away"
  = false.
Proof.
  intros H. unfold analyze_context. cbn [user_activity].
  destruct ((23 <=? current_hour) || (current_hour <=? 6)) eqn:Hn;
    [reflexivity|].
  apply orb_false_iff in Hn as [H23 H6].
  apply Z.leb_gt in H23, H6.
  destruct H as [H|[H|[H|H]]]; try lia.
  - apply lt_false in H. now rewrite H.
  - apply lt_false in H. rewrite H. now rewrite andb_false_r.
Qed.

Lemma classifier_silent (current_hour : Z) (self : t)
    (metrics : SystemMetrics) :
  classifier_class current_hour self metrics = None
  \/ classifier_class current_hour self metrics = Some 0 ->
  (if model_trained self
   then _ml_decision current_hour self metrics
          (analyze_context current_hour metrics)
   else [])
  = [].
Proof.
  unfold classifier_class, _ml_decision.
  destruct (model_trained self); [|reflexivity].
  destruct (decision_model self _) as [[p c]|e]; [|reflexivity].
  intros [H|H]; [discriminate|]. now injection H as ->.
Qed.

End Quiet.

(** X16. When the classifier contributes nothing (it is untrained, it
    raises, or it answers class 0), the exception does not reach the caller
    and the decision is made of the rule tier alone.  If moreover the battery
    is above 30 percent and the machine is not away (it is night, or the cpu
    is at 10 percent or more, or the target application at 5 or more), no
    rule fires and the decision is empty. *)
Theorem quiet_machine_gets_no_action
    (now : Q) (current_hour : Z) (self : BatteryOptimizationAgent.t)
    (metrics : SystemMetrics) :
  classifier_class current_hour self metrics = None
  \/ classifier_class current_hour self metrics = Some 0 ->
  let context :=
    BatteryOptimizationAgent.analyze_context current_hour metrics in
  let actions :=
    snd (BatteryOptimizationAgent.decide_optimization now current_hour self
           metrics) in
  actions
  = BatteryOptimizationAgent._combine_actions []
      (BatteryRulesEngine.get_rule_based_actions metrics context)
  /\ (forall a : OptimizationAction,
        In a actions ->
        In a (BatteryRulesEngine.get_rule_based_actions metrics context))
  /\ ((30 < battery_percent metrics)%Q -> not_away current_hour metrics ->
      actions = []).
Proof.
  intros Hc context actions. subst actions.
  unfold BatteryOptimizationAgent.decide_optimization. cbn [snd].
  rewrite (classifier_silent current_hour self metrics Hc). fold context.
  split; [reflexivity|]. split.
  - intros a Ha.
    destruct (combine_by_key [] (BatteryRulesEngine.get_rule_based_actions
                                   metrics context))
      as (_ & Hin & _).
    destruct (Hin a Ha) as [[]|H]. exact H.
  - intros Hb Ha.
    unfold BatteryRulesEngine.get_rule_based_actions.
    subst context. rewrite (not_away_activity current_hour metrics Ha).
    destruct (battery_level_cases current_hour metrics)
      as [[H _]|[(_ & H & _)|[(_ & _ & ->)|[_ ->]]]]; try lra;
      cbn [String.eqb Ascii.eqb Bool.eqb orb]; now rewrite andb_false_r.
Qed.

(** ** Labels for training and retraining *)

Section Labels.
Import Training.

Lemma outcome_label (current_hour : Z) (metrics : SystemMetrics) :
  _outcome_to_label true (battery_percent metrics)
  = 3 - battery_rank
          (battery_level
             (BatteryOptimizationAgent.analyze_context current_hour metrics)).
Proof.
  unfold _outcome_to_label.
  destruct (battery_level_cases current_hour metrics)
    as [[H ->]|[(H1 & H2 & ->)|[(H1 & H2 & ->)|[H ->]]]].
  - replace (Py.gt (battery_percent metrics) 60) with false
      by (symmetry; apply gt_false; lra).
    replace (Py.gt (battery_percent metrics) 30) with false
      by (symmetry; apply gt_false; lra).
    replace (Py.gt (battery_percent metrics) 15) with false
      by (symmetry; apply gt_false; lra).
    reflexivity.
  - replace (Py.gt (battery_percent metrics) 60) with false
      by (symmetry; apply gt_false; lra).
    replace (Py.gt (battery_percent metrics) 30) with false
      by (symmetry; apply gt_false; lra).
    replace (Py.gt (battery_percent metrics) 15) with true
      by (symmetry; apply gt_true; lra).
    reflexivity.
  - replace (Py.gt (battery_percent metrics) 60) with false
      by (symmetry; apply gt_false; lra).
    replace (Py.gt (battery_percent metrics) 30) with true
      by (symmetry; apply gt_true; lra).
    reflexivity.
  - replace (Py.gt (battery_percent metrics) 60) with true
      by (symmetry; apply gt_true; lra).
    reflexivity.
Qed.

Lemma prepare_loop_spec (current_hour : Z)
    (records : list BatteryOptimizationAgent.decision_record) :
  forall (features : list (list Q)) (labels : list Z),
    prepare_loop current_hour records features labels
    = ((features
        ++ map (fun record =>
                  BatteryOptimizationAgent._extract_features current_hour
                    (BatteryOptimizationAgent.metrics record)
                    (BatteryOptimizationAgent.context record))
             (with_actions records))%list,
       (labels
        ++ map (fun record =>
                  3 - battery_rank
                        (battery_level
                           (BatteryOptimizationAgent.analyze_context
                              current_hour
                              (BatteryOptimizationAgent.metrics record))))
             (with_actions records))%list).
Proof.
  induction records as [|record rest IH]; intros features labels.
  - cbn. now rewrite !app_nil_r.
  - cbn [prepare_loop with_actions List.filter].
    destruct (BatteryOptimizationAgent.actions record) as [|a l] eqn:Ha.
    + apply IH.
    + fold (with_actions rest). rewrite IH. cbn [map].
      rewrite <- !app_assoc. cbn [app].
      unfold _evaluate_action_success. cbn [length Nat.ltb Nat.leb].
      now rewrite (outcome_label current_hour).
Qed.

End Labels.

(** X17. What retraining learns from: the records of the experience buffer
    that hold at least one action, in their order, each with the features of
    its snapshot and with the label 3 minus the rank of its battery level
    (critical 0, low 1, medium 2, high 3).  The label depends on the battery
    percentage alone, not on the actions taken nor on any feedback; there are
    as many labels as feature vectors, each between 0 and 3. *)
Theorem training_labels_follow_battery_level
    (current_hour : Z) (self : BatteryOptimizationAgent.t) :
  let records :=
    with_actions (BatteryOptimizationAgent.experience_buffer self) in
  let data :=
    Training._prepare_training_data_from_experience current_hour self in
  fst data
  = map (fun record =>
           BatteryOptimizationAgent._extract_features current_hour
             (BatteryOptimizationAgent.metrics record)
             (BatteryOptimizationAgent.context record))
      records
  /\ snd data
     = map (fun record =>
              3 - battery_rank
                    (battery_level
                       (BatteryOptimizationAgent.analyze_context current_hour
                          (BatteryOptimizationAgent.metrics record))))
         records
  /\ length (fst data) = length (snd data)
  /\ (length (fst data)
      <= length (BatteryOptimizationAgent.experience_buffer self))%nat
  /\ Forall (fun label => 0 <= label <= 3) (snd data).
Proof.
  cbv zeta. unfold Training._prepare_training_data_from_experience.
  rewrite prepare_loop_spec. cbn [fst snd app].
  split; [reflexivity|]. split; [reflexivity|].
  split; [now rewrite !length_map|].
  split.
  - rewrite length_map. unfold with_actions. apply List.filter_length_le.
  - apply List.Forall_forall. intros label Hl.
    apply in_map_iff in Hl as (record & <- & _).
    destruct (battery_level_cases current_hour
                (BatteryOptimizationAgent.metrics record))
      as [[_ ->]|[(_ & _ & ->)|[(_ & _ & ->)|[_ ->]]]];
      vm_compute; split; discriminate.
Qed.

(** Case analysis on the first comparison of floats in the goal. *)
Ltac compare_floats :=
  match goal with
  | |- context [Py.lt ?x ?y] =>
      let E := fresh in
      destruct (Py.lt x y) eqn:E; [apply lt_true in E|apply lt_false in E]
  | |- context [Py.gt ?x ?y] =>
      let E := fresh in
      destruct (Py.gt x y) eqn:E; [apply gt_true in E|apply gt_false in E]
  end.

(** X18. The labels of the synthetic training set never ask for less when
    things get worse: on battery power the class does not decrease when the
    battery is lower and the cpu and memory loads are higher, it lies between
    0 and 3, and it is 3 below 15 percent of battery; on mains power it is
    0. *)
Theorem synthetic_labels_are_monotone
    (battery cpu memory battery' cpu' memory' : Q) (plugged : Z) :
  (battery' <= battery)%Q -> (cpu <= cpu')%Q -> (memory <= memory')%Q ->
  let label := Training._synthetic_decision_logic battery cpu memory plugged in
  let label' :=
    Training._synthetic_decision_logic battery' cpu' memory' plugged in
  label <= label'
  /\ 0 <= label <= 3
  /\ (plugged = 1 -> label = 0)
  /\ (plugged <> 1 -> (battery < 15)%Q -> label = 3).
Proof.
  intros Hb Hc Hm. cbv zeta. unfold Training._synthetic_decision_logic.
  destruct (Z.eqb_spec plugged 1) as [->|Hp];
    [repeat split; try lia; congruence|].
  repeat (compare_floats; cbv iota; cbn [orb]);
    repeat split; intros; first [lia | lra].
Qed.

Lemma quiet_machine_gets_no_action_witness :
  snd (BatteryOptimizationAgent.decide_optimization 1700000000.25 14
         agent_untrained (metrics_at 75))
  = [].
Proof.
  destruct (quiet_machine_gets_no_action 1700000000.25 14 agent_untrained
              (metrics_at 75) (or_introl eq_refl))
    as (_ & _ & H).
  apply H.
  - cbn. lra.
  - right; right; left. cbn. lra.
Defined.

Lemma synthetic_labels_are_monotone_witness :
  Training._synthetic_decision_logic 50 95 50 0
  <= Training._synthetic_decision_logic 20 95 50 0.
Proof.
  apply (synthetic_labels_are_monotone 50 95 50 20 95 50 0); lra.
Defined.

(** ** The modes of the controller against the rule tier *)

Section Modes.
Import AgentController.

Lemma default_modes :
  optimization_modes default_config !! "conservative" = Some conservative
  /\ optimization_modes default_config !! "balanced" = Some balanced
  /\ optimization_modes default_config !! "aggressive" = Some aggressive.
Proof.
  unfold default_config. cbn [optimization_modes].
  split; [|split].
  - rewrite !lookup_insert_ne by discriminate. apply lookup_insert_eq.
  - rewrite lookup_insert_ne by discriminate. apply lookup_insert_eq.
  - apply lookup_insert_eq.
Qed.

Lemma filter_in_mode (name : string) (mode : mode_config) (self : t)
    (actions : list OptimizationAction) :
  optimization_modes default_config !! name = Some mode ->
  in_mode name self ->
  _filter_actions_by_mode self actions
  = Return (List.filter (survives mode 0.7) actions).
Proof.
  intros Hm [Hc Hn]. unfold _filter_actions_by_mode.
  rewrite Hc, Hn, Hm. cbn [max_performance_impact default_config default].
  f_equal. apply (filter_loop_filter mode 0.7 actions []).
Qed.

Lemma filter_none {A} (p : A -> bool) (l : list A) :
  Forall (fun a => p a = false) l -> List.filter p l = [].
Proof.
  induction 1 as [|a l Ha _ IH]; cbn; [reflexivity|]. now rewrite Ha.
Qed.

Lemma filter_all {A} (p : A -> bool) (l : list A) :
  Forall (fun a => p a = true) l -> List.filter p l = l.
Proof.
  induction 1 as [|a l Ha _ IH]; cbn; [reflexivity|]. now rewrite Ha, IH.
Qed.

Lemma filter_same {A} (p q : A -> bool) (l : list A) :
  Forall (fun a => p a = q a) l -> List.filter p l = List.filter q l.
Proof.
  induction 1 as [|a l Ha _ IH]; cbn; [reflexivity|]. now rewrite Ha, IH.
Qed.

Ltac rule_survival :=
  repeat case_if; cbn [app];
  repeat (constructor; [repeat split; vm_compute; reflexivity|]);
  constructor.

Lemma rules_and_modes (metrics : SystemMetrics) (context : ContextState) :
  Forall (fun a =>
            survives conservative 0.7 a = false
            /\ survives balanced 0.7 a = Py.le (intensity a) 0.6
            /\ survives aggressive 0.7 a = true)
    (BatteryRulesEngine.get_rule_based_actions metrics context).
Proof.
  unfold BatteryRulesEngine.get_rule_based_actions.
  repeat apply Forall_app_2.
  - unfold BatteryRulesEngine._critical_battery_rules,
      BatteryRulesEngine._low_battery_rules.
    rule_survival.
  - unfold BatteryRulesEngine._performance_rules. rule_survival.
  - unfold BatteryRulesEngine._away_mode_rules. rule_survival.
Qed.

Lemma critical_rules_and_balanced (metrics : SystemMetrics)
    (context : ContextState) :
  Forall (fun a => survives balanced 0.7 a = false)
    (BatteryRulesEngine._critical_battery_rules metrics context).
Proof.
  unfold BatteryRulesEngine._critical_battery_rules.
  repeat case_if; cbn [app];
    repeat (constructor; [vm_compute; reflexivity|]); constructor.
Qed.

End Modes.

(** X19. The rule tier against the modes of the default configuration.
    In conservative mode no rule action passes the mode filter, whatever the
    snapshot.  In balanced mode the rule actions that pass are exactly those
    of intensity at most 0.6, so that neither of the two rules for a critical
    battery passes.  In aggressive mode every rule action passes. *)
Theorem rule_tier_against_the_modes
    (self : AgentController.t) (metrics : SystemMetrics)
    (context : ContextState) :
  AgentController.configuration self = AgentController.default_config ->
  let mode :=
    AgentController.optimization_mode (AgentController.agent_state self) in
  let rules := BatteryRulesEngine.get_rule_based_actions metrics context in
  (mode = "conservative" ->
   AgentController._filter_actions_by_mode self rules = Return [])
  /\ (mode = "balanced" ->
      AgentController._filter_actions_by_mode self rules
      = Return (List.filter (fun a => Py.le (intensity a) 0.6) rules)
      /\ AgentController._filter_actions_by_mode self
           (BatteryRulesEngine._critical_battery_rules metrics context)
         = Return [])
  /\ (mode = "aggressive" ->
      AgentController._filter_actions_by_mode self rules = Return rules).
Proof.
  intros Hc mode rules.
  destruct default_modes as (Hcons & Hbal & Haggr).
  pose proof (rules_and_modes metrics context) as Hr. fold rules in Hr.
  split; [|split].
  - intros Hm.
    rewrite (filter_in_mode "conservative" conservative) by (easy || now split).
    f_equal. apply filter_none.
    eapply List.Forall_impl; [|exact Hr]. now intros a (H & _).
  - intros Hm. split.
    + rewrite (filter_in_mode "balanced" balanced) by (easy || now split).
      f_equal. apply filter_same.
      eapply List.Forall_impl; [|exact Hr]. now intros a (_ & H & _).
    + rewrite (filter_in_mode "balanced" balanced) by (easy || now split).
      f_equal. apply filter_none, critical_rules_and_balanced.
  - intros Hm.
    rewrite (filter_in_mode "aggressive" aggressive) by (easy || now split).
    f_equal. apply filter_all.
    eapply List.Forall_impl; [|exact Hr]. now intros a (_ & _ & H).
Qed.

(** ** The decision path of the controller *)

Section Decision.
Import Controller.

Lemma decision_unlisted (world : readings) (self : t)
    (metrics : SystemMetrics) :
  AgentController.optimization_modes
    (AgentController.configuration (core self))
  !! AgentController.optimization_mode
       (AgentController.agent_state (core self))
  = None ->
  only_recorded world self metrics
    (_make_optimization_decision world self metrics).
Proof.
  intros Hm. unfold only_recorded, _make_optimization_decision.
  destruct (BatteryOptimizationAgent.decide_optimization _ _ _ _)
    as [agent actions].
  cbn [fst]. destruct actions as [|a rest]; [reflexivity|].
  unfold AgentController._filter_actions_by_mode.
  cbn [core set_core set_agent AgentController.configuration
       AgentController.agent_state].
  now rewrite Hm.
Qed.

Lemma decision_filtered_out (world : readings) (self : t)
    (metrics : SystemMetrics) :
  (forall agent : BatteryOptimizationAgent.t,
     AgentController._filter_actions_by_mode (set_agent (core self) agent)
       (snd (BatteryOptimizationAgent.decide_optimization
               (decision_time world) (current_hour world)
               (AgentController.agent (core self)) metrics))
     = Return []) ->
  only_recorded world self metrics
    (_make_optimization_decision world self metrics).
Proof.
  intros Hf. unfold only_recorded, _make_optimization_decision.
  destruct (BatteryOptimizationAgent.decide_optimization _ _ _ _)
    as [agent actions].
  cbn [fst snd] in *. destruct actions as [|a rest]; [reflexivity|].
  cbn [core set_core]. now rewrite Hf.
Qed.

End Decision.

(** X20. While the mode of the controller is not one of the
    configuration, as is the initial mode "adaptive" under the default
    configuration, a decision applies nothing: the mode filter raises inside
    [_make_optimization_decision], which returns; the executor, the counters
    and the performance history are untouched, and only the agent has
    recorded the decision.  [set_optimization_mode] with a mode that is not
    listed leaves the controller as it is. *)
Theorem unlisted_mode_applies_nothing
    (world : Controller.readings) (self : Controller.t)
    (metrics : SystemMetrics) (mode : string) :
  AgentController.optimization_modes
    (AgentController.configuration (Controller.core self))
  !! AgentController.optimization_mode
       (AgentController.agent_state (Controller.core self))
  = None ->
  let after := Controller._make_optimization_decision world self metrics in
  only_recorded world self metrics after
  /\ AgentController.actuator (Controller.core after)
     = AgentController.actuator (Controller.core self)
  /\ AgentController.agent_state (Controller.core after)
     = AgentController.agent_state (Controller.core self)
  /\ Controller.performance_history after
     = Controller.performance_history self
  /\ (AgentController.optimization_modes
        (AgentController.configuration (Controller.core self)) !! mode
      = None ->
      AgentController.set_optimization_mode (Controller.core self) mode
      = Controller.core self).
Proof.
  intros Hm after. subst after.
  pose proof (decision_unlisted world self metrics Hm) as H.
  split; [exact H|]. unfold only_recorded in H. rewrite H.
  repeat split.
  intros Hmode. unfold AgentController.set_optimization_mode.
  now rewrite Hmode.
Qed.

(** X21. In conservative mode of the default configuration, a controller
    whose classifier contributes nothing (untrained, raising, or answering
    class 0) never applies an action through the decision path, however low
    the battery: every decided action is a rule action, and none passes the
    filter.  Only the agent has recorded the decision. *)
Theorem conservative_rules_apply_nothing
    (world : Controller.readings) (self : Controller.t)
    (metrics : SystemMetrics) :
  in_mode "conservative" (Controller.core self) ->
  classifier_class (Controller.current_hour world)
    (AgentController.agent (Controller.core self)) metrics = None
  \/ classifier_class (Controller.current_hour world)
       (AgentController.agent (Controller.core self)) metrics = Some 0 ->
  let after := Controller._make_optimization_decision world self metrics in
  only_recorded world self metrics after
  /\ AgentController.actuator (Controller.core after)
     = AgentController.actuator (Controller.core self)
  /\ AgentController.agent_state (Controller.core after)
     = AgentController.agent_state (Controller.core self)
  /\ Controller.performance_history after
     = Controller.performance_history self.
Proof.
  intros Hmode Hc after. subst after.
  assert (H : only_recorded world self metrics
                (Controller._make_optimization_decision world self metrics)).
  { apply decision_filtered_out. intros agent.
    destruct default_modes as (Hcons & _).
    rewrite (filter_in_mode "conservative" conservative);
      [|exact Hcons|destruct Hmode; now split].
    f_equal. apply filter_none.
    unfold BatteryOptimizationAgent.decide_optimization. cbn [snd].
    rewrite (classifier_silent _ _ _ Hc).
    apply List.Forall_forall. intros a Ha.
    destruct (combine_by_key [] (BatteryRulesEngine.get_rule_based_actions
                                   metrics
                                   (BatteryOptimizationAgent.analyze_context
                                      (Controller.current_hour world)
                                      metrics)))
      as (_ & Hin & _).
    destruct (Hin a Ha) as [[]|Hr].
    pose proof (rules_and_modes metrics
                  (BatteryOptimizationAgent.analyze_context
                     (Controller.current_hour world) metrics)) as Hall.
    rewrite List.Forall_forall in Hall. now destruct (Hall a Hr). }
  split; [exact H|]. unfold only_recorded in H. rewrite H. repeat split.
Qed.

Section Counters.
Import Controller.

Lemma filter_loop_length (mode : AgentController.mode_config) (impact : Q)
    (actions : list OptimizationAction) :
  (length (AgentController.filter_loop (AgentController.max_intensity mode)
             (AgentController.min_confidence mode) impact [] actions)
   <= length actions)%nat.
Proof.
  rewrite (filter_loop_filter mode impact actions []). cbn [app].
  apply List.filter_length_le.
Qed.

Lemma record_performance_keeps (now : Q) (self : t) (metrics : SystemMetrics)
    (actions : list OptimizationAction) (results : list ActionResult) :
  let after := _record_decision_performance now self metrics actions results in
  core after = core self
  /\ running after = running self
  /\ user_feedback_history after = user_feedback_history self
  /\ (length (performance_history after)
      <= S (length (performance_history self)))%nat
  /\ ((length (performance_history self) <= 1000)%nat ->
      (length (performance_history after) <= 1000)%nat).
Proof.
  cbv zeta. unfold _record_decision_performance.
  cbn [core running user_feedback_history performance_history].
  repeat split.
  - case_if; unfold Py.last_n; rewrite ?length_skipn, length_app;
      cbn [length]; lia.
  - intros Hh. case_if.
    + unfold Py.last_n. rewrite length_skipn, length_app. cbn [length]. lia.
    + match goal with
      | H : (_ <? _)%nat = false |- _ => apply Nat.ltb_ge in H; exact H
      end.
Qed.

End Counters.

(** X22. A decision moves the counter of applied actions up by the number
    of results that report success, at most the number of decided actions,
    and never down; it adds
    at most one record to the performance history and keeps it within 1000
    records; and it leaves the configuration, the mode, the emergency flag,
    the queue, the running flag and the feedback history alone. *)
Theorem decision_counts_its_successes
    (world : Controller.readings) (self : Controller.t)
    (metrics : SystemMetrics) :
  (length (Controller.performance_history self) <= 1000)%nat ->
  let after := Controller._make_optimization_decision world self metrics in
  let before_state := AgentController.agent_state (Controller.core self) in
  let after_state := AgentController.agent_state (Controller.core after) in
  AgentController.actions_applied before_state
  <= AgentController.actions_applied after_state
  <= AgentController.actions_applied before_state
     + Z.of_nat
         (length
            (snd (BatteryOptimizationAgent.decide_optimization
                    (Controller.decision_time world)
                    (Controller.current_hour world)
                    (AgentController.agent (Controller.core self)) metrics)))
  /\ (length (Controller.performance_history after) <= 1000)%nat
  /\ (length (Controller.performance_history after)
      <= S (length (Controller.performance_history self)))%nat
  /\ AgentController.optimization_mode after_state
     = AgentController.optimization_mode before_state
  /\ AgentController.configuration (Controller.core after)
     = AgentController.configuration (Controller.core self)
  /\ AgentController.emergency_mode (Controller.core after)
     = AgentController.emergency_mode (Controller.core self)
  /\ AgentController.decision_queue (Controller.core after)
     = AgentController.decision_queue (Controller.core self)
  /\ Controller.running after = Controller.running self
  /\ Controller.user_feedback_history after
     = Controller.user_feedback_history self.
Proof.
  intros Hh. cbv zeta. unfold Controller._make_optimization_decision.
  destruct (BatteryOptimizationAgent.decide_optimization _ _ _ _)
    as [agent actions].
  cbn [snd].
  destruct actions as [|a rest]; [cbn; repeat split; lia|].
  unfold AgentController._filter_actions_by_mode.
  cbn [Controller.core Controller.set_core Controller.set_agent
       AgentController.configuration AgentController.agent_state].
  destruct (AgentController.optimization_modes _ !! _) as [mode|];
    [|cbn; repeat split; lia].
  pose proof (filter_loop_length mode
                (default 0.7%Q
                   (AgentController.max_performance_impact
                      (AgentController.configuration (Controller.core self))))
                (a :: rest)) as Hf.
  destruct (AgentController.filter_loop _ _ _ [] (a :: rest))
    as [|f filtered]; [cbn; repeat split; lia|].
  cbn [AgentController.actuator].
  pose proof (apply_actions_results (Controller.answers world)
                (AgentController.actuator (Controller.core self))
                (f :: filtered)) as Hres.
  pose proof (apply_loop_length (Controller.answers world) (f :: filtered)
                0%nat (AgentController.actuator (Controller.core self)))
    as Hlen.
  rewrite <- Hres in Hlen.
  destruct (OptimizationActuator.apply_actions _ _ (f :: filtered))
    as [actuator results].
  cbn [snd] in Hlen.
  pose proof (List.filter_length_le success results) as Hs.
  cbv beta iota zeta.
  match goal with
  | |- context [Controller._record_decision_performance ?n ?s ?m ?a ?r] =>
      destruct (record_performance_keeps n s m a r)
        as (Hcore & Hrun & Hfb & Hle & Hb)
  end.
  rewrite Hcore, Hrun, Hfb.
  cbn [Controller.core Controller.set_core Controller.set_agent_state
       Controller.set_agent Controller.count_applied Controller.running
       Controller.user_feedback_history Controller.performance_history
       AgentController.set_actuator AgentController.agent_state
       AgentController.actions_applied AgentController.optimization_mode
       AgentController.configuration AgentController.emergency_mode
       AgentController.decision_queue] in *.
  cbn [length] in *.
  repeat split; lia.
Qed.

(** ** Feedback and retraining *)

Section Feedback.
Import Training.

Lemma update_model_keeps (refit : refitting) (current_hour : Z) (self : t) :
  let after := _update_model refit current_hour self in
  action_outcomes after = action_outcomes self
  /\ BatteryOptimizationAgent.model_trained (agent after)
     = BatteryOptimizationAgent.model_trained (agent self)
  /\ BatteryOptimizationAgent.experience_buffer (agent after)
     = BatteryOptimizationAgent.experience_buffer (agent self)
  /\ BatteryOptimizationAgent.action_history (agent after)
     = BatteryOptimizationAgent.action_history (agent self).
Proof.
  cbv zeta. unfold _update_model.
  case_if; [now repeat split|].
  destruct (_prepare_training_data_from_experience _ _) as [X y].
  case_if; now repeat split.
Qed.

Lemma update_model_model (refit : refitting) (current_hour : Z) (self : t) :
  let buffer := BatteryOptimizationAgent.experience_buffer (agent self) in
  let data := _prepare_training_data_from_experience current_hour (agent self) in
  BatteryOptimizationAgent.decision_model
    (agent (_update_model refit current_hour self))
  = if negb (length buffer <? 50)%nat
       && (20 <? length (with_actions buffer))%nat
    then refit (fst data) (snd data)
           (BatteryOptimizationAgent.decision_model (agent self))
    else BatteryOptimizationAgent.decision_model (agent self).
Proof.
  cbv zeta. unfold _update_model.
  destruct (length _ <? 50)%nat; [reflexivity|]. cbn [negb andb].
  unfold _prepare_training_data_from_experience.
  rewrite prepare_loop_spec. cbn [app fst snd].
  rewrite length_map. now case_if.
Qed.

End Feedback.

(** X23. When the classifier is fitted again.  [provide_feedback] files
    the outcome under its id, and refits the classifier, on the training set
    drawn from the experience buffer, exactly when more than 10 outcomes are
    on file, the buffer holds at least 50 records and more than 20 of them
    hold an action; otherwise the classifier is the one before.  The buffer,
    the history and the flag [model_trained] are never changed: a classifier
    that was not in use before a refit is not in use after it. *)
Theorem feedback_retrains_only_with_enough_data
    (refit : Training.refitting) (current_hour : Z) (now : Q)
    (self : Training.t) (action_id : string) (success : bool)
    (battery_savings performance_impact user_satisfaction : Q) :
  let after :=
    Training.provide_feedback refit current_hour now self action_id success
      battery_savings performance_impact user_satisfaction in
  let buffer :=
    BatteryOptimizationAgent.experience_buffer (Training.agent self) in
  let data :=
    Training._prepare_training_data_from_experience current_hour
      (Training.agent self) in
  (exists outcome : Training.outcome,
     Training.action_outcomes after
     = <[action_id := outcome]> (Training.action_outcomes self)
     /\ Training.outcome_success outcome = success
     /\ Training.outcome_timestamp outcome = now)
  /\ BatteryOptimizationAgent.decision_model (Training.agent after)
     = (if retrains (size (Training.action_outcomes after)) buffer
        then refit (fst data) (snd data)
               (BatteryOptimizationAgent.decision_model (Training.agent self))
        else BatteryOptimizationAgent.decision_model (Training.agent self))
  /\ BatteryOptimizationAgent.model_trained (Training.agent after)
     = BatteryOptimizationAgent.model_trained (Training.agent self)
  /\ BatteryOptimizationAgent.experience_buffer (Training.agent after)
     = buffer
  /\ BatteryOptimizationAgent.action_history (Training.agent after)
     = BatteryOptimizationAgent.action_history (Training.agent self).
Proof.
  cbv zeta. unfold Training.provide_feedback, retrains.
  cbn [Training.action_outcomes].
  set (outcome := {| Training.outcome_action_id := action_id |}).
  set (filed := {| Training.agent := Training.agent self |}).
  destruct (10 <? size (<[action_id := outcome]> (Training.action_outcomes self)))%nat
    eqn:Hsize.
  - destruct (update_model_keeps refit current_hour filed)
      as (Hout & Htrained & Hbuffer & Hhistory).
    rewrite Hout, Htrained, Hbuffer, Hhistory.
    rewrite (update_model_model refit current_hour filed).
    subst filed. cbn [Training.action_outcomes Training.agent].
    rewrite Hsize. cbn [andb].
    split; [exists outcome; now repeat split|]. now repeat split.
  - subst filed. cbn [Training.action_outcomes Training.agent].
    rewrite Hsize. cbn [andb].
    split; [exists outcome; now repeat split|]. now repeat split.
Qed.

(** ** Rounding to binary64 *)

Section Rounding.
Import Binary64.

Lemma pow2_pos (e : Z) : (0 < 2 ^ e)%Q.
Proof. now apply Qpower_0_lt. Qed.

Lemma pow2_le (e e' : Z) : e <= e' -> (2 ^ e <= 2 ^ e')%Q.
Proof. intros H. apply Qpower_le_compat_l; [exact H|]. discriminate. Qed.

Lemma pow2_lt (e e' : Z) : e < e' -> (2 ^ e < 2 ^ e')%Q.
Proof. intros H. apply Qpower_lt_compat_l; [exact H|]. reflexivity. Qed.

Lemma pow2_plus (e e' : Z) : (2 ^ (e + e') == 2 ^ e * 2 ^ e')%Q.
Proof. apply Qpower_plus. discriminate. Qed.

Lemma pow2_Z (k : Z) : 0 <= k -> (inject_Z (2 ^ k) == 2 ^ k)%Q.
Proof. intros H. now rewrite Zpower_Qpower. Qed.

Lemma ilog2_spec (x : Q) :
  (0 < x)%Q -> (2 ^ ilog2 x <= x)%Q /\ (x < 2 ^ (ilog2 x + 1))%Q.
Proof.
  intros Hx. unfold ilog2.
  destruct x as [n d]. cbn [Qnum Qden].
  assert (Hn : 0 < n) by (unfold Qlt in Hx; cbn in Hx; lia).
  set (a := Z.log2 n). set (b := Z.log2 (Zpos d)).
  destruct (Z.log2_spec n Hn) as [Ha Ha'].
  destruct (Z.log2_spec (Zpos d) ltac:(lia)) as [Hb Hb'].
  fold a in Ha, Ha'. fold b in Hb, Hb'.
  assert (Ha0 : 0 <= a) by apply Z.log2_nonneg.
  assert (Hb0 : 0 <= b) by apply Z.log2_nonneg.
  rewrite Zle_Qle, pow2_Z in Ha by lia.
  rewrite Zlt_Qlt, pow2_Z in Ha' by lia.
  rewrite Zle_Qle, pow2_Z in Hb by lia.
  rewrite Zlt_Qlt, pow2_Z in Hb' by lia.
  assert (Hd : (0 < inject_Z (Zpos d))%Q) by reflexivity.
  assert (Hq : (n # d == inject_Z n / inject_Z (Zpos d))%Q)
    by apply Qmake_Qdiv.
  pose proof (pow2_pos a) as Pa. pose proof (pow2_pos b) as Pb.
  pose proof (pow2_pos (a - b)) as Pab.
  assert (Eab : (2 ^ a == 2 ^ (a - b) * 2 ^ b)%Q).
  { rewrite <- pow2_plus. now replace (a - b + b) with a by lia. }
  assert (E1 : (2 ^ (a + 1) == 2 * 2 ^ a)%Q).
  { rewrite pow2_plus. rewrite Qmult_comm. reflexivity. }
  assert (E1b : (2 ^ (b + 1) == 2 * 2 ^ b)%Q).
  { rewrite pow2_plus. rewrite Qmult_comm. reflexivity. }
  assert (Eup : (2 ^ (a - b + 1) == 2 * 2 ^ (a - b))%Q).
  { rewrite pow2_plus. rewrite Qmult_comm. reflexivity. }
  assert (Edn : (2 * 2 ^ (a - b - 1) == 2 ^ (a - b))%Q).
  { replace (a - b) with (a - b - 1 + 1) at 2 by lia.
    rewrite pow2_plus. rewrite Qmult_comm. reflexivity. }
  rewrite E1 in Ha'. rewrite E1b in Hb'.
  destruct (Qle_bool (2 ^ (a - b)) (n # d)) eqn:Hcmp.
  - apply Qle_bool_iff in Hcmp. split; [exact Hcmp|].
    rewrite Eup, Hq. apply Qlt_shift_div_r; [exact Hd|].
    set (N := inject_Z n) in *. set (D := inject_Z (Zpos d)) in *.
    set (A := (2 ^ a)%Q) in *. set (B := (2 ^ b)%Q) in *.
    set (C := (2 ^ (a - b))%Q) in *.
    nra.
  - assert (Hlt : (n # d < 2 ^ (a - b))%Q).
    { apply Qnot_le_lt. intros H. apply Qle_bool_iff in H. congruence. }
    split.
    + rewrite Hq. apply Qle_shift_div_l; [exact Hd|].
      pose proof (pow2_pos (a - b - 1)) as Pc.
      set (N := inject_Z n) in *. set (D := inject_Z (Zpos d)) in *.
      set (A := (2 ^ a)%Q) in *. set (B := (2 ^ b)%Q) in *.
      set (C := (2 ^ (a - b))%Q) in *. set (C' := (2 ^ (a - b - 1))%Q) in *.
      nra.
    + now replace (a - b - 1 + 1) with (a - b) by lia.
Qed.

Lemma round_half_even_bounds (q : Q) :
  (q - (1 # 2) <= inject_Z (round_half_even q))%Q
  /\ (inject_Z (round_half_even q) <= q + (1 # 2))%Q.
Proof.
  unfold round_half_even.
  pose proof (Qfloor_le q) as Hlo. pose proof (Qlt_floor q) as Hhi.
  rewrite inject_Z_plus in Hhi. change (inject_Z 1) with 1%Q in Hhi.
  destruct (Qcompare_spec (q - inject_Z (Qfloor q)) (1 # 2)) as [E|E|E].
  - destruct (Z.even (Qfloor q)); rewrite ?inject_Z_plus;
      change (inject_Z 1) with 1%Q; split; lra.
  - split; lra.
  - rewrite inject_Z_plus. change (inject_Z 1) with 1%Q. split; lra.
Qed.

Lemma round_half_even_Z (n : Z) : round_half_even (inject_Z n) = n.
Proof.
  unfold round_half_even. rewrite Qfloor_Z.
  destruct (Qcompare_spec (inject_Z n - inject_Z n) (1 # 2)) as [E|E|E];
    [lra|reflexivity|lra].
Qed.

Lemma round_half_even_mono (p q : Q) :
  (p <= q)%Q -> round_half_even p <= round_half_even q.
Proof.
  intros Hpq.
  pose proof (Qfloor_resp_le p q Hpq) as Hf.
  destruct (Z.eq_dec (Qfloor p) (Qfloor q)) as [E|N].
  - unfold round_half_even. rewrite E.
    destruct (Qcompare_spec (p - inject_Z (Qfloor q)) (1 # 2)) as [Ep|Ep|Ep];
      destruct (Qcompare_spec (q - inject_Z (Qfloor q)) (1 # 2))
        as [Eq|Eq|Eq];
      try lia; try lra;
      destruct (Z.even (Qfloor q)); lia.
  - assert (Hlt : Qfloor p + 1 <= Qfloor q) by lia.
    assert (Hp : round_half_even p <= Qfloor p + 1).
    { unfold round_half_even.
      destruct (p - inject_Z (Qfloor p) ?= 1 # 2)%Q;
        try destruct (Z.even (Qfloor p)); lia. }
    assert (Hq : Qfloor q <= round_half_even q).
    { unfold round_half_even.
      destruct (q - inject_Z (Qfloor q) ?= 1 # 2)%Q;
        try destruct (Z.even (Qfloor q)); lia. }
    lia.
Qed.

Lemma round_half_even_le (q : Q) (n : Z) :
  (q <= inject_Z n)%Q -> round_half_even q <= n.
Proof.
  intros H. rewrite <- (round_half_even_Z n). now apply round_half_even_mono.
Qed.

Lemma round_half_even_ge (q : Q) (n : Z) :
  (inject_Z n <= q)%Q -> n <= round_half_even q.
Proof.
  intros H. rewrite <- (round_half_even_Z n). now apply round_half_even_mono.
Qed.

(** The exponent of the binade of a positive rational. *)
Lemma binade (m : Q) :
  (0 < m)%Q ->
  let e := Z.max (ilog2 m) (-1022) in
  (m < 2 ^ (e + 1))%Q /\ (-1022 < e -> (2 ^ e <= m)%Q).
Proof.
  intros Hm e. destruct (ilog2_spec m Hm) as [Hlo Hhi]. split.
  - eapply Qlt_le_trans; [exact Hhi|]. apply pow2_le. lia.
  - intros He. now replace e with (ilog2 m) by lia.
Qed.

Lemma nearest_error (m : Q) :
  (0 < m)%Q ->
  let ulp := (2 ^ (Z.max (ilog2 m) (-1022) - 52))%Q in
  (m - ulp / 2 <= nearest m)%Q /\ (nearest m <= m + ulp / 2)%Q.
Proof.
  intros Hm ulp. unfold nearest. fold ulp.
  pose proof (pow2_pos (Z.max (ilog2 m) (-1022) - 52)) as Hu. fold ulp in Hu.
  destruct (round_half_even_bounds (m / ulp)) as [Hlo Hhi].
  set (k := inject_Z (round_half_even (m / ulp))) in *.
  assert (E : (m / ulp * ulp == m)%Q) by (field; lra).
  set (r := (m / ulp)%Q) in *.
  assert (H1 : ((r - (1 # 2)) * ulp <= k * ulp)%Q)
    by (apply Qmult_le_compat_r; lra).
  assert (H2 : (k * ulp <= (r + (1 # 2)) * ulp)%Q)
    by (apply Qmult_le_compat_r; lra).
  clearbody k r ulp.
  assert (E1 : ((r - (1 # 2)) * ulp == m - ulp / 2)%Q)
    by (rewrite <- E; field).
  assert (E2 : ((r + (1 # 2)) * ulp == m + ulp / 2)%Q)
    by (rewrite <- E; field).
  split; lra.
Qed.

Lemma nearest_range (m : Q) :
  (0 < m)%Q ->
  let e := Z.max (ilog2 m) (-1022) in
  (0 <= nearest m)%Q
  /\ (nearest m <= 2 ^ (e + 1))%Q
  /\ (-1022 < e -> (2 ^ e <= nearest m)%Q).
Proof.
  intros Hm e. destruct (binade m Hm) as [Hhi Hlo]. fold e in Hhi, Hlo.
  unfold nearest. fold e.
  pose proof (pow2_pos (e - 52)) as Hu.
  set (ulp := (2 ^ (e - 52))%Q) in *.
  assert (E52 : (2 ^ e == inject_Z (2 ^ 52) * ulp)%Q).
  { subst ulp. rewrite pow2_Z by lia. rewrite <- pow2_plus.
    now replace (52 + (e - 52)) with e by lia. }
  assert (E53 : (2 ^ (e + 1) == inject_Z (2 ^ 53) * ulp)%Q).
  { subst ulp. rewrite pow2_Z by lia. rewrite <- pow2_plus.
    now replace (53 + (e - 52)) with (e + 1) by lia. }
  split; [|split].
  - apply Qmult_le_0_compat; [|lra].
    change 0%Q with (inject_Z 0). rewrite <- Zle_Qle.
    apply round_half_even_ge.
    apply Qle_shift_div_l; [exact Hu|].
    change (inject_Z 0) with 0%Q. rewrite Qmult_0_l. lra.
  - rewrite E53. apply Qmult_le_compat_r; [|lra].
    rewrite <- Zle_Qle. apply round_half_even_le.
    apply Qle_shift_div_r; [exact Hu|].
    rewrite <- E53. now apply Qlt_le_weak.
  - intros He. rewrite E52. apply Qmult_le_compat_r; [|lra].
    rewrite <- Zle_Qle. apply round_half_even_ge.
    apply Qle_shift_div_l; [exact Hu|].
    rewrite <- E52. exact (Hlo He).
Qed.

Lemma nearest_mono (x y : Q) :
  (0 < x)%Q -> (x <= y)%Q -> (nearest x <= nearest y)%Q.
Proof.
  intros Hx Hxy.
  assert (Hy : (0 < y)%Q) by lra.
  destruct (binade x Hx) as [Hxhi Hxlo].
  destruct (binade y Hy) as [Hyhi Hylo].
  destruct (nearest_range x Hx) as (_ & Hxup & _).
  destruct (nearest_range y Hy) as (_ & _ & Hydn).
  set (ex := Z.max (ilog2 x) (-1022)) in *.
  set (ey := Z.max (ilog2 y) (-1022)) in *.
  destruct (Z.lt_trichotomy ex ey) as [Hlt|[Heq|Hgt]].
  - assert (He : -1022 < ey) by lia.
    eapply Qle_trans; [exact Hxup|].
    eapply Qle_trans; [|exact (Hydn He)].
    apply pow2_le. lia.
  - unfold nearest. fold ex ey. rewrite Heq.
    pose proof (pow2_pos (ey - 52)) as Hu.
    apply Qmult_le_compat_r; [|lra].
    rewrite <- Zle_Qle. apply round_half_even_mono.
    apply Qmult_le_compat_r; [exact Hxy|].
    apply Qlt_le_weak, Qinv_lt_0_compat, Hu.
  - exfalso.
    assert (He : -1022 < ex) by lia.
    specialize (Hxlo He).
    assert (Hp : (2 ^ (ey + 1) <= 2 ^ ex)%Q) by (apply pow2_le; lia).
    lra.
Qed.

Lemma float_nonneg (x : Q) : (0 <= x)%Q -> (0 <= float x)%Q.
Proof.
  intros Hx. unfold float.
  destruct (Qcompare_spec x 0) as [E|E|E]; [lra|lra|].
  now destruct (nearest_range x E).
Qed.

Lemma float_mono (x y : Q) :
  (0 <= x)%Q -> (x <= y)%Q -> (float x <= float y)%Q.
Proof.
  intros Hx Hxy. unfold float.
  destruct (Qcompare_spec x 0) as [Ex|Ex|Ex];
    destruct (Qcompare_spec y 0) as [Ey|Ey|Ey]; try lra.
  - now destruct (nearest_range y Ey).
  - now apply nearest_mono.
Qed.

(** Below 2 a rounding moves a number by at most [2 ^ -53]. *)
Lemma float_error (x : Q) :
  (0 <= x)%Q -> (x < 2)%Q ->
  (x - (1 # 9007199254740992) <= float x)%Q /\ (float x <= x + (1 # 9007199254740992))%Q.
Proof.
  intros Hx Hx2. unfold float.
  destruct (Qcompare_spec x 0) as [E|E|E]; [split; lra|lra|].
  destruct (nearest_error x E) as [Hlo Hhi].
  destruct (ilog2_spec x E) as [Hl _].
  assert (He : Z.max (ilog2 x) (-1022) <= 0).
  { apply Z.max_lub; [|lia].
    destruct (Z.le_gt_cases (ilog2 x) 0) as [H|H]; [exact H|].
    exfalso.
    assert (Hp : (2 ^ 1 <= 2 ^ ilog2 x)%Q) by (apply pow2_le; lia).
    change (2 ^ 1)%Q with 2%Q in Hp. lra. }
  assert (Hu : (2 ^ (Z.max (ilog2 x) (-1022) - 52) <= 2 ^ (-52))%Q)
    by (apply pow2_le; lia).
  change (2 ^ (-52))%Q with (1 # 4503599627370496)%Q in Hu.
  set (ulp := (2 ^ (Z.max (ilog2 x) (-1022) - 52))%Q) in *.
  change (ulp / 2)%Q with (ulp * (1 # 2))%Q in Hlo, Hhi.
  clearbody ulp. split; lra.
Qed.

End Rounding.

(** ** The running average of the satisfaction *)

Section Average.
Import Binary64.

Lemma float_one : (float 1 == 1)%Q.
Proof. vm_compute. reflexivity. Qed.

(** The two weights as binary64 numbers; rounding them again changes
    nothing. *)
Lemma float_four_fifths :
  (float 0.8 == 3602879701896397 # 4503599627370496)%Q
  /\ (float (float 0.8) == 3602879701896397 # 4503599627370496)%Q
  /\ (float (float (float 0.8)) == 3602879701896397 # 4503599627370496)%Q.
Proof. repeat split; vm_compute; reflexivity. Qed.

Lemma float_one_fifth :
  (float 0.2 == 3602879701896397 # 18014398509481984)%Q
  /\ (float (float 0.2) == 3602879701896397 # 18014398509481984)%Q
  /\ (float (float (float 0.2)) == 3602879701896397 # 18014398509481984)%Q.
Proof. repeat split; vm_compute; reflexivity. Qed.

Lemma float_weights :
  (float ((3602879701896397 # 4503599627370496)
          + (3602879701896397 # 18014398509481984)) == 1)%Q.
Proof. vm_compute. reflexivity. Qed.

(** A number between 0 and 1 times a weight [w], as [add] reads it. *)
Lemma weighted (x w k : Q) :
  (0 <= x <= 1)%Q -> (0 <= k <= 1)%Q ->
  (float w == k)%Q /\ (float (float w) == k)%Q
  /\ (float (float (float w)) == k)%Q ->
  (0 <= float (mul x w) <= k)%Q
  /\ (x * k - (3 # 9007199254740992) <= float (mul x w)
      <= x * k + (3 # 9007199254740992))%Q.
Proof.
  intros Hx Hk (Hw & Hw2 & Hw3). unfold mul.
  assert (Ha0 : (0 <= float x)%Q) by (apply float_nonneg; lra).
  assert (Ha1 : (float x <= 1)%Q).
  { rewrite <- float_one. apply float_mono; lra. }
  destruct (float_error x) as [Hal Hah]; [lra|lra|].
  assert (E : (float x * float w == float x * k)%Q) by now rewrite Hw.
  set (a := float x) in *. set (x1 := (a * float w)%Q) in *.
  assert (Hx1 : (0 <= x1 <= float w)%Q) by (rewrite E, Hw; nra).
  assert (Hp0 : (0 <= float x1)%Q) by (apply float_nonneg; lra).
  assert (Hp1 : (float x1 <= k)%Q).
  { rewrite <- Hw2. apply float_mono; lra. }
  assert (Hp2 : (float x1 <= float (float w))%Q) by (apply float_mono; lra).
  destruct (float_error x1) as [Hpl Hph]; [lra|lra|].
  assert (Hq0 : (0 <= float (float x1))%Q) by (apply float_nonneg; lra).
  assert (Hq1 : (float (float x1) <= k)%Q).
  { rewrite <- Hw3. apply float_mono; lra. }
  destruct (float_error (float x1)) as [Hql Hqh]; [lra|lra|].
  set (p := float x1) in *. set (q := float p) in *.
  clearbody q p x1 a.
  assert (H1 : (a * k <= x * k + (1 # 9007199254740992))%Q) by nra.
  assert (H2 : (x * k - (1 # 9007199254740992) <= a * k)%Q) by nra.
  repeat split; lra.
Qed.

(** The average of [provide_user_feedback] on two numbers between 0 and
    1: it is between 0 and 1, and the seven roundings move it by less than
    [2 ^ -50] from the exact average. *)
Lemma average_in_range (old score : Q) :
  (0 <= old <= 1)%Q -> (0 <= score <= 1)%Q ->
  let new := add (mul old 0.8) (mul score 0.2) in
  (0 <= new <= 1)%Q
  /\ (old * 0.8 + score * 0.2 - (1 # 1125899906842624) <= new
      <= old * 0.8 + score * 0.2 + (1 # 1125899906842624))%Q.
Proof.
  intros Hold Hscore new. subst new. unfold add.
  destruct (weighted old 0.8 (3602879701896397 # 4503599627370496) Hold)
    as ([Ha0 Ha1] & Hal & Hah); [lra|exact float_four_fifths|].
  destruct (weighted score 0.2 (3602879701896397 # 18014398509481984) Hscore)
    as ([Hb0 Hb1] & Hbl & Hbh); [lra|exact float_one_fifth|].
  set (a := float (mul old 0.8)) in *. set (b := float (mul score 0.2)) in *.
  assert (H0 : (0 <= float (a + b))%Q) by (apply float_nonneg; lra).
  assert (H1 : (float (a + b) <= 1)%Q).
  { rewrite <- float_weights. apply float_mono; lra. }
  destruct (float_error (a + b)) as [Hl Hh]; [lra|lra|].
  set (r := float (a + b)) in *. clearbody r a b.
  repeat split; lra.
Qed.

End Average.

(** X24. [provide_user_feedback] replaces the satisfaction of the state
    by the average [old * 0.8 + score * 0.2], computed in binary64.  With both
    between 0 and 1 the new value is between 0 and 1 again and within
    [2 ^ -50] of the exact average.  It need not lie between the old value
    and the score: from the initial 0.8 a score of 0.8 gives
    0.8000000000000002, the binary64 number that follows the one of 0.8.  The
    feedback joins the history, an outcome is filed for the session, a success
    exactly when the performance was acceptable and the battery improved; the
    executor, the counters and the mode are left alone. *)
Theorem user_feedback_moves_satisfaction
    (refit : Training.refitting) (current_hour : Z) (now : Q)
    (session : string) (self : Controller.t) (score : Q)
    (performance_acceptable battery_improvement : bool) (comments : string) :
  let before := AgentController.agent_state (Controller.core self) in
  let after :=
    Controller.provide_user_feedback refit current_hour now session self
      score performance_acceptable battery_improvement comments in
  let state := AgentController.agent_state (Controller.core after) in
  let old := AgentController.user_satisfaction before in
  let new := AgentController.user_satisfaction state in
  ((0 <= old <= 1)%Q -> (0 <= score <= 1)%Q ->
   (0 <= new <= 1)%Q
   /\ (old * 0.8 + score * 0.2 - (1 # 1125899906842624) <= new
       <= old * 0.8 + score * 0.2 + (1 # 1125899906842624))%Q)
  /\ (old = 0.8%Q -> score = 0.8%Q ->
      (new == 7205759403792795 # 9007199254740992)%Q
      /\ (Binary64.float 0.8 == 7205759403792794 # 9007199254740992)%Q
      /\ (old < new)%Q /\ (score < new)%Q)
  /\ (exists feedback : Controller.feedback_record,
        Controller.user_feedback_history after
        = (Controller.user_feedback_history self ++ [feedback])%list
        /\ Controller.feedback_satisfaction_score feedback = score)
  /\ (exists outcome : Training.outcome,
        Controller.action_outcomes after !! ("session_" ++ session)
        = Some outcome
        /\ Training.outcome_success outcome
           = performance_acceptable && battery_improvement)
  /\ AgentController.actuator (Controller.core after)
     = AgentController.actuator (Controller.core self)
  /\ AgentController.actions_applied state
     = AgentController.actions_applied before
  /\ AgentController.optimization_mode state
     = AgentController.optimization_mode before.
Proof.
  cbv zeta.
  unfold Controller.provide_user_feedback.
  cbn [Controller.core Controller.set_agent Controller.set_agent_state
       Controller.set_user_satisfaction Controller.user_feedback_history
       Controller.action_outcomes
       AgentController.agent_state AgentController.user_satisfaction
       AgentController.actuator AgentController.actions_applied
       AgentController.optimization_mode].
  split; [|split; [|repeat split]].
  - intros Hold Hscore. exact (average_in_range _ _ Hold Hscore).
  - intros -> ->. repeat split; vm_compute; reflexivity.
  - eexists. split; reflexivity.
  - unfold Training.provide_feedback. cbn [Training.action_outcomes].
    case_if.
    + rewrite (proj1 (update_model_keeps refit current_hour _)).
      cbn [Training.action_outcomes]. rewrite lookup_insert_eq.
      eexists. split; reflexivity.
    + cbn [Training.action_outcomes]. rewrite lookup_insert_eq.
      eexists. split; reflexivity.
Qed.

(** ** Stopping and pausing *)

(** X25. [stop] on a controller that is not running changes nothing.  On
    a running one it clears the flags and reverts the listed actions, ending
    without an exception when no actuator can raise; whether or not a revert
    raised, the controller is no longer running afterwards, so that a second
    [stop] does nothing. *)
Theorem stop_is_idempotent
    (envs : nat -> Env) (self : Controller.t) (ids : list string) :
  let out := Controller.stop envs self ids in
  (Controller.running self = false -> out = (self, Return tt))
  /\ Controller.running (fst out) = false
  /\ (forall (envs' : nat -> Env) (ids' : list string),
        Controller.stop envs' (fst out) ids' = (fst out, Return tt))
  /\ (Controller.running self = true ->
      AgentController.active
        (AgentController.agent_state (Controller.core (fst out)))
      = false
      /\ AgentController.actuator (Controller.core (fst out))
         = fst (OptimizationActuator.revert_all_actions envs
                  (AgentController.actuator (Controller.core self)) ids)
      /\ (reverts_return (AgentController.actuator (Controller.core self)) ->
          snd out = Return tt)).
Proof.
  cbv zeta.
  assert (Hrun : Controller.running (fst (Controller.stop envs self ids))
                 = false).
  { unfold Controller.stop.
    destruct (Controller.running self) eqn:Hr; cbn [negb]; [|exact Hr].
    now destruct (OptimizationActuator.revert_all_actions _ _ _)
      as [actuator [rs|e]]. }
  split; [|split; [exact Hrun|split]].
  - intros Hr. unfold Controller.stop. now rewrite Hr.
  - intros envs' ids'. unfold Controller.stop at 1. now rewrite Hrun.
  - intros Hr. unfold Controller.stop. rewrite Hr. cbn [negb].
    cbn [Controller.core Controller.set_agent_state AgentController.actuator].
    split; [|split].
    + now destruct (OptimizationActuator.revert_all_actions _ _ _)
        as [actuator [rs|e]].
    + now destruct (OptimizationActuator.revert_all_actions _ _ _)
        as [actuator [rs|e]].
    + intros Hq.
      destruct (revert_loop_returns envs ids 0%nat _ [] Hq)
        as (s & rs & E & _).
      unfold OptimizationActuator.revert_all_actions. now rewrite E.
Qed.

(** X26. [pause_optimization] does not pause anything: the flag that it
    clears is read neither by the decision path nor by the turn of the agent
    loop.  A paused controller takes the same decision, applies the same
    actions and counts them as the controller that was not paused. *)
Theorem pause_does_not_pause_decisions
    (decision_interval current_time : Q) (world : Controller.readings)
    (self : Controller.t) (metrics : SystemMetrics)
    (last_decision_time : Q) :
  Controller._make_optimization_decision world
    (Controller.pause_optimization self) metrics
  = Controller.pause_optimization
      (Controller._make_optimization_decision world self metrics)
  /\ Controller.agent_loop_turn decision_interval current_time world
       (Controller.pause_optimization self) last_decision_time
     = (Controller.pause_optimization
          (fst (Controller.agent_loop_turn decision_interval current_time
                  world self last_decision_time)),
        snd (Controller.agent_loop_turn decision_interval current_time world
               self last_decision_time)).
Proof.
  assert (Hdecision : forall (self : Controller.t) (metrics : SystemMetrics),
            Controller._make_optimization_decision world
              (Controller.pause_optimization self) metrics
            = Controller.pause_optimization
                (Controller._make_optimization_decision world self metrics)).
  { clear. intros self metrics.
    unfold Controller._make_optimization_decision,
      Controller.pause_optimization.
    cbn [Controller.core Controller.set_core Controller.set_agent_state
         AgentController.agent].
    destruct (BatteryOptimizationAgent.decide_optimization _ _ _ _)
      as [agent actions].
    destruct actions as [|a rest]; [reflexivity|].
    unfold AgentController._filter_actions_by_mode.
    cbn [Controller.core Controller.set_core Controller.set_agent
         Controller.set_agent_state Controller.set_active
         AgentController.configuration AgentController.agent_state
         AgentController.optimization_mode AgentController.actuator].
    destruct (AgentController.optimization_modes _ !! _) as [mode|];
      [|reflexivity].
    destruct (AgentController.filter_loop _ _ _ [] (a :: rest))
      as [|f filtered]; [reflexivity|].
    destruct (OptimizationActuator.apply_actions _ _ (f :: filtered))
      as [actuator results].
    reflexivity. }
  split; [apply Hdecision|].
  unfold Controller.agent_loop_turn.
  unfold Controller.pause_optimization at 1.
  cbn [Controller.core Controller.set_core Controller.set_agent_state
       AgentController.decision_queue].
  destruct (AgentController.decision_queue (Controller.core self))
    as [|first rest]; [reflexivity|].
  case_if; [reflexivity|].
  cbn [fst snd]. f_equal.
  assert (Hqueue :
    Controller.set_core (Controller.pause_optimization self)
      (Controller.set_decision_queue
         (Controller.core (Controller.pause_optimization self)) rest)
    = Controller.pause_optimization
        (Controller.set_core self
           (Controller.set_decision_queue (Controller.core self) rest)))
    by reflexivity.
  rewrite Hqueue.
  rewrite Hdecision. reflexivity.
Qed.

(** ** Examples for the controller *)

Lemma rule_tier_against_the_modes_witness :
  AgentController._filter_actions_by_mode
    (AgentController.set_optimization_mode (controller_on "linux" false)
       "conservative")
    (BatteryRulesEngine.get_rule_based_actions critical_metrics
       (BatteryOptimizationAgent.analyze_context 14 critical_metrics))
  = Return [].
Proof.
  destruct (rule_tier_against_the_modes
              (AgentController.set_optimization_mode
                 (controller_on "linux" false) "conservative")
              critical_metrics
              (BatteryOptimizationAgent.analyze_context 14 critical_metrics)
              eq_refl)
    as (H & _).
  apply H. reflexivity.
Defined.

Lemma unlisted_mode_applies_nothing_witness :
  AgentController.actuator
    (Controller.core
       (Controller._make_optimization_decision afternoon
          (controller_around (controller_on "linux" false))
          critical_metrics))
  = actuator_on "linux" 75.
Proof.
  destruct (unlisted_mode_applies_nothing afternoon
              (controller_around (controller_on "linux" false))
              critical_metrics "adaptive" eq_refl)
    as (_ & H & _).
  exact H.
Defined.

Lemma conservative_rules_apply_nothing_witness :
  AgentController.actuator
    (Controller.core
       (Controller._make_optimization_decision afternoon
          (controller_around
             (AgentController.set_optimization_mode
                (controller_on "linux" false) "conservative"))
          critical_metrics))
  = actuator_on "linux" 75.
Proof.
  destruct (conservative_rules_apply_nothing afternoon
              (controller_around
                 (AgentController.set_optimization_mode
                    (controller_on "linux" false) "conservative"))
              critical_metrics)
    as (_ & H & _).
  - split; reflexivity.
  - left. reflexivity.
  - exact H.
Defined.

Lemma decision_counts_its_successes_witness :
  0 <= AgentController.actions_applied
         (AgentController.agent_state
            (Controller.core
               (Controller._make_optimization_decision afternoon
                  (controller_around
                     (AgentController.set_optimization_mode
                        (controller_on "linux" false) "aggressive"))
                  critical_metrics))).
Proof.
  destruct (decision_counts_its_successes afternoon
              (controller_around
                 (AgentController.set_optimization_mode
                    (controller_on "linux" false) "aggressive"))
              critical_metrics)
    as ([H _] & _).
  - cbn. lia.
  - exact H.
Defined.

Lemma user_feedback_moves_satisfaction_witness :
  (0 <= AgentController.user_satisfaction
          (AgentController.agent_state
             (Controller.core
                (Controller.provide_user_feedback refit_light 14
                   1700000100.5 "1700000100.5"
                   (controller_around (controller_on "linux" false))
                   0.8 true false "")))
   <= 1)%Q
  /\ (0.8 < AgentController.user_satisfaction
              (AgentController.agent_state
                 (Controller.core
                    (Controller.provide_user_feedback refit_light 14
                       1700000100.5 "1700000100.5"
                       (controller_around (controller_on "linux" false))
                       0.8 true false ""))))%Q.
Proof.
  destruct (user_feedback_moves_satisfaction refit_light 14 1700000100.5
              "1700000100.5"
              (controller_around (controller_on "linux" false))
              0.8 true false "")
    as (Hrange & Hover & _).
  split.
  - apply Hrange; [cbn; lra|lra].
  - apply Hover; reflexivity.
Defined.

(** ** Snapshots, modes and the turn of the agent loop *)

(** X27. On every snapshot [_on_metrics_update] labels the battery as
    [analyze_context] does, leaves the emergency flag saying exactly whether
    the battery of this snapshot is at or below the threshold, and puts the
    snapshot at the end of the queue.  The configuration, the agent, the mode,
    the threshold and the counter of applied actions stay as they are: the
    emergency actions are not counted. *)
Theorem snapshot_sets_label_flag_and_queue
    (envs : nat -> Env) (self : AgentController.t) (metrics : SystemMetrics)
    (current_hour : Z) :
  let after := AgentController._on_metrics_update envs self metrics in
  AgentController.battery_level (AgentController.agent_state after)
  = battery_level
      (BatteryOptimizationAgent.analyze_context current_hour metrics)
  /\ AgentController.emergency_mode after
     = Py.le (battery_percent metrics)
         (AgentController.min_battery_threshold self)
  /\ AgentController.decision_queue after
     = (AgentController.decision_queue self ++ [metrics])%list
  /\ AgentController.configuration after = AgentController.configuration self
  /\ AgentController.agent after = AgentController.agent self
  /\ AgentController.optimization_mode (AgentController.agent_state after)
     = AgentController.optimization_mode (AgentController.agent_state self)
  /\ AgentController.actions_applied (AgentController.agent_state after)
     = AgentController.actions_applied (AgentController.agent_state self)
  /\ AgentController.min_battery_threshold after
     = AgentController.min_battery_threshold self.
Proof.
  cbv zeta.
  unfold AgentController._on_metrics_update,
    BatteryOptimizationAgent.analyze_context.
  cbn [battery_level].
  destruct (Py.le (battery_percent metrics) 15);
    [|destruct (Py.le (battery_percent metrics) 30);
      [|destruct (Py.le (battery_percent metrics) 60)]];
    cbn [AgentController.set_battery_level
         AgentController.min_battery_threshold
         AgentController.emergency_mode];
    destruct (Py.le (battery_percent metrics)
                (AgentController.min_battery_threshold self));
    destruct (AgentController.emergency_mode self) eqn:Hflag;
    cbn [negb];
    unfold AgentController._apply_emergency_optimizations;
    cbn [AgentController.actuator AgentController.set_emergency_mode];
    try destruct (OptimizationActuator.apply_actions _ _ _)
      as [actuator results];
    cbn; rewrite ?Hflag; repeat split.
Qed.

(** X28. [set_optimization_mode] never leaves the modes of the
    configuration once the controller is in one of them: after any sequence
    of calls the mode is listed if it was listed before or if one of the
    requested modes is listed, and then the mode filter returns a list and
    does not raise.  The calls change nothing but the mode. *)
Theorem listed_mode_stays_listed
    (self : AgentController.t) (modes : list string) :
  let listed (s : AgentController.t) :=
    is_Some (AgentController.optimization_modes
               (AgentController.configuration s)
             !! AgentController.optimization_mode
                  (AgentController.agent_state s)) in
  let after := fold_left AgentController.set_optimization_mode modes self in
  (listed self -> listed after)
  /\ (forall mode : string,
        In mode modes ->
        is_Some (AgentController.optimization_modes
                   (AgentController.configuration self) !! mode) ->
        listed after)
  /\ (listed after ->
      forall actions : list OptimizationAction,
        exists filtered : list OptimizationAction,
          AgentController._filter_actions_by_mode after actions
          = Return filtered)
  /\ AgentController.configuration after = AgentController.configuration self
  /\ AgentController.actuator after = AgentController.actuator self
  /\ AgentController.decision_queue after
     = AgentController.decision_queue self.
Proof.
  cbv zeta.
  assert (Hstep : forall (s : AgentController.t) (mode : string),
            AgentController.configuration
              (AgentController.set_optimization_mode s mode)
            = AgentController.configuration s
            /\ AgentController.actuator
                 (AgentController.set_optimization_mode s mode)
               = AgentController.actuator s
            /\ AgentController.decision_queue
                 (AgentController.set_optimization_mode s mode)
               = AgentController.decision_queue s
            /\ AgentController.optimization_mode
                 (AgentController.agent_state
                    (AgentController.set_optimization_mode s mode))
               = match AgentController.optimization_modes
                         (AgentController.configuration s) !! mode with
                 | Some _ => mode
                 | None =>
                     AgentController.optimization_mode
                       (AgentController.agent_state s)
                 end).
  { intros s mode. unfold AgentController.set_optimization_mode.
    now destruct (AgentController.optimization_modes _ !! mode). }
  revert self. induction modes as [|m rest IH]; intros self.
  - cbn [fold_left]. repeat split; try tauto.
    + intros mode [].
    + intros [mode Hm] actions.
      unfold AgentController._filter_actions_by_mode. rewrite Hm. eauto.
  - cbn [fold_left].
    destruct (Hstep self m) as (Hc & Ha & Hq & Hm).
    destruct (IH (AgentController.set_optimization_mode self m))
      as (Hkeep & Hset & Hfilter & Hc' & Ha' & Hq').
    rewrite Hc, Hm in Hkeep. rewrite Hc in Hset.
    repeat split; try congruence; try exact Hfilter.
    + intros Hl. apply Hkeep.
      destruct (AgentController.optimization_modes
                  (AgentController.configuration self) !! m) eqn:E;
        [rewrite E; eauto|exact Hl].
    + intros mode [<-|Hin] Hl.
      * apply Hkeep. destruct Hl as [c Hl]. rewrite Hl. rewrite Hl. eauto.
      * now apply (Hset mode).
Qed.

Section Turn.
Import Controller.

Lemma decision_keeps_queue (world : readings) (self : t)
    (metrics : SystemMetrics) :
  AgentController.agent (core (_make_optimization_decision world self metrics))
  = fst (BatteryOptimizationAgent.decide_optimization (decision_time world)
           (current_hour world) (AgentController.agent (core self)) metrics).
Proof.
  unfold _make_optimization_decision.
  destruct (BatteryOptimizationAgent.decide_optimization _ _ _ _)
    as [agent actions].
  cbn [fst]. destruct actions as [|a rest]; [reflexivity|].
  destruct (AgentController._filter_actions_by_mode _ _) as [[|f filtered]|e];
    try reflexivity.
  now destruct (OptimizationActuator.apply_actions _ _ _)
    as [actuator results].
Qed.

End Turn.

(** X29. One turn of the agent loop.  Without a snapshot in the queue
    nothing happens.  With one, the turn takes the oldest snapshot off the
    queue; if less than the decision interval has passed since the last
    decision, that is all, and the snapshot is dropped.  Otherwise the
    decision is taken on that oldest snapshot, the agent records it, both
    times of the last decision become the current time, and the snapshots
    that were queued behind it, all newer, are discarded unread. *)
Theorem loop_turn_decides_on_the_oldest_snapshot
    (decision_interval current_time : Q) (world : Controller.readings)
    (self : Controller.t) (last_decision_time : Q) :
  let queue := AgentController.decision_queue (Controller.core self) in
  let out :=
    Controller.agent_loop_turn decision_interval current_time world self
      last_decision_time in
  (queue = [] -> out = (self, last_decision_time))
  /\ (forall (oldest : SystemMetrics) (newer : list SystemMetrics),
        queue = oldest :: newer ->
        ((current_time - last_decision_time < decision_interval)%Q ->
         out
         = (Controller.set_core self
              (Controller.set_decision_queue (Controller.core self) newer),
            last_decision_time))
        /\ ((decision_interval <= current_time - last_decision_time)%Q ->
            snd out = current_time
            /\ AgentController.decision_queue (Controller.core (fst out)) = []
            /\ AgentController.last_decision_time
                 (AgentController.agent_state (Controller.core (fst out)))
               = current_time
            /\ AgentController.agent (Controller.core (fst out))
               = fst (BatteryOptimizationAgent.decide_optimization
                        (Controller.decision_time world)
                        (Controller.current_hour world)
                        (AgentController.agent (Controller.core self))
                        oldest))).
Proof.
  cbv zeta. unfold Controller.agent_loop_turn. split.
  - now intros ->.
  - intros oldest newer ->. split.
    + intros Hlt. apply lt_true in Hlt. now rewrite Hlt.
    + intros Hge. apply lt_false in Hge. rewrite Hge.
      cbn [fst snd Controller.core Controller.set_core
           Controller.set_decision_queue Controller.set_agent_state
           Controller.set_last_decision_time
           AgentController.decision_queue AgentController.agent_state
           AgentController.last_decision_time AgentController.agent].
      repeat split. now rewrite decision_keeps_queue.
Qed.


